(** * readphysio: parsing of SIEMENS physiological log buffers

    A shallow embedding of [bidscoin/readphysio.py] (functions
    [readparsefile] and [readphysio]) and the properties of its line
    grammar, acquisition-map builder, channel reconstruction and final
    assembly.

    Conventions of the embedding.
    - Text is a [string] of ASCII characters; Python's [str] methods are
      transcribed for that alphabet (whitespace is 0x09-0x0D, 0x1C-0x20).
    - Python integers are [Z].  Cells of NumPy arrays are 64-bit: a value
      is range-checked when it is stored and array arithmetic wraps.
    - Local variables that may be unbound are [option]s; reading an unbound
      one raises [NameError].
    - The logger is a writer: every computation returns the list of the
      records it emitted, whether it returns or raises. *)

From Stdlib Require Import ZArith Ascii String Lia.
From stdpp Require Import gmap strings list.

#[local] Open Scope string_scope.
#[local] Open Scope Z_scope.
#[local] Open Scope list_scope.

(** ** Python [str] methods on ASCII text *)

Module Str.

Definition is_space (c : ascii) : bool :=
  let n := nat_of_ascii c in
  (Nat.leb 9 n && Nat.leb n 13) || (Nat.leb 28 n && Nat.leb n 32).

Definition is_digit (c : ascii) : bool :=
  let n := nat_of_ascii c in Nat.leb 48 n && Nat.leb n 57.

Definition is_empty (s : string) : bool :=
  match s with EmptyString => true | String _ _ => false end.

(** [c in s] *)
Fixpoint contains (c : ascii) (s : string) : bool :=
  match s with
  | EmptyString => false
  | String x s' => Ascii.eqb x c || contains c s'
  end.

Fixpoint lstrip (s : string) : string :=
  match s with
  | EmptyString => EmptyString
  | String c s' => if is_space c then lstrip s' else s
  end.

Fixpoint rstrip (s : string) : string :=
  match s with
  | EmptyString => EmptyString
  | String c s' =>
      let r := rstrip s' in
      if is_space c && is_empty r then EmptyString else String c r
  end.

(** [s.strip()] *)
Definition strip (s : string) : string := rstrip (lstrip s).

(** [s.split(sep)] for a one-character separator: never the empty list. *)
Fixpoint split (sep : ascii) (s : string) : list string :=
  match s with
  | EmptyString => [EmptyString]
  | String c s' =>
      if Ascii.eqb c sep then EmptyString :: split sep s'
      else match split sep s' with
           | h :: t => String c h :: t
           | [] => [String c EmptyString]
           end
  end.

(** [s.split()]: the maximal runs of non-whitespace characters. *)
Fixpoint words (s : string) : list string :=
  match s with
  | EmptyString => []
  | String c s' =>
      if is_space c then words s'
      else match s' with
           | EmptyString => [String c EmptyString]
           | String c' _ =>
               if is_space c' then String c EmptyString :: words s'
               else match words s' with
                    | w :: ws => String c w :: ws
                    | [] => [String c EmptyString]
                    end
           end
  end.

Fixpoint all_digits (s : string) : bool :=
  match s with
  | EmptyString => true
  | String c s' => is_digit c && all_digits s'
  end.

(** [s.isdigit()] *)
Definition isdigit (s : string) : bool := negb (is_empty s) && all_digits s.

Definition digit_val (c : ascii) : Z := Z.of_nat (nat_of_ascii c) - 48.

(** The digit part of an integer literal: decimal digits, with single
    underscores allowed between two digits. *)
Fixpoint int_digits (acc : Z) (after_digit : bool) (s : string) : option Z :=
  match s with
  | EmptyString => if after_digit then Some acc else None
  | String c s' =>
      if is_digit c then int_digits (10 * acc + digit_val c) true s'
      else if Ascii.eqb c "_" && after_digit then
        match s' with
        | String c' _ => if is_digit c' then int_digits acc false s' else None
        | EmptyString => None
        end
      else None
  end.

(** [int(s)]: [None] stands for [ValueError]. *)
Definition int (s : string) : option Z :=
  match strip s with
  | String "-" s' => Z.opp <$> int_digits 0 false s'
  | String "+" s' => int_digits 0 false s'
  | s' => int_digits 0 false s'
  end.

Definition is_linebreak (c : ascii) : bool :=
  let n := nat_of_ascii c in
  (Nat.leb 10 n && Nat.leb n 13) || (Nat.leb 28 n && Nat.leb n 30).

(** [s.splitlines()]: a CR LF pair is one boundary, and a final boundary
    opens no further line. *)
Fixpoint splitlines (s : string) : list string :=
  match s with
  | EmptyString => []
  | String c s' =>
      if is_linebreak c then
        match s' with
        | String c' s'' =>
            if Ascii.eqb c "013" && Ascii.eqb c' "010"
            then EmptyString :: splitlines s''
            else EmptyString :: splitlines s'
        | EmptyString => [EmptyString]
        end
      else match splitlines s' with
           | h :: t => String c h :: t
           | [] => [String c EmptyString]
           end
  end.

End Str.

(** ** Exceptions, log records and the computation monad *)

(** The exception classes the code can raise.  A bare [raise] with no
    exception being handled raises [RuntimeError]: that is how every hard
    error of the module is signalled, after [LOGGER.error]. *)
Inductive exn :=
| RuntimeError | ValueError | TypeError | NameError | IndexError
| OverflowError | AttributeError | ZeroDivisionError.

(** Numbers whose Python type matters: [nrvolumes] is an [int] when it is
    read from the header and a [float] after the legacy correction.  A
    float is kept as the exact quotient [n / d] it was computed from (the
    source rounds it to a double, which changes neither of the two
    comparisons with 1 made on it while [d] is below 2^53). *)
Inductive pynum :=
| PyInt (z : Z)
| PyFloat (n d : Z).

Inductive message :=
| Parsing (logdatatype : string)
| FormatNotSupported (value : string)
| UnexpectedDataType (logdatatype value : string)
| InvalidParameter (varname : string)
| FailedACQINFOHeader
| NumVolumesCorrected (nrvolumes : pynum)
| DuplicateTiming (curvol curslc cureco : Z)
| DuplicateTimingIgnored (curvol curslc : Z)
| InvalidChannelID (logdatatype curchannel : string)
| NoDataFiles
| LastNotGreater (lasttime firsttime : Z)
| UUIDMismatch (channel : string)
| SlicesInScan (nrslices : Z)
| VolumesInScan (nrvolumes : pynum)
| EchoesPerSlcVol (nrechoes : Z)
| FirstTimestamp (firsttime : Z)
| LastTimestamp (lasttime : Z)
| TotalScanDuration (actualsamples : Z)
| FormattingACQ.

Inductive level := INFO | WARNING | ERROR.

Definition record : Type := level * message.

Inductive result (A : Type) :=
| Return (a : A)
| Raise (e : exn).
Arguments Return {A} a.
Arguments Raise {A} e.

(** A computation yields a result or an exception, and the log records
    emitted up to that point. *)
Definition M (A : Type) : Type := result A * list record.

#[global] Instance M_ret : MRet M := λ A a, (Return a, []).
#[global] Instance M_bind : MBind M := λ A B f m,
  match m with
  | (Return a, l) => let '(r, l') := f a in (r, l ++ l')
  | (Raise e, l) => (Raise e, l)
  end.

Definition throw {A} (e : exn) : M A := (Raise e, []).
Definition emit (lv : level) (m : message) : M unit := (Return (), [(lv, m)]).

(** [LOGGER.error(...); raise] *)
Definition hard_error {A} (m : message) : M A :=
  emit ERROR m ;; throw RuntimeError.

(** Reading a local variable that may be unbound. *)
Definition read_var {A} (x : option A) : M A :=
  match x with Some a => mret a | None => throw NameError end.

(** [int(s)] *)
Definition py_int (s : string) : M Z :=
  match Str.int s with Some z => mret z | None => throw ValueError end.

Definition when (b : bool) (m : M unit) : M unit := if b then m else mret ().

Fixpoint foldM {A S} (f : S → A → M S) (s : S) (l : list A) : M S :=
  match l with
  | [] => mret s
  | x :: l' => s' ← f s x; foldM f s' l'
  end.

(** ** The fragment of NumPy the code uses *)

Module np.

Definition int64_ok (z : Z) : bool := (- 2 ^ 63 <=? z) && (z <? 2 ^ 63).

(** Wrap-around of 64-bit signed arithmetic. *)
Definition wrap64 (z : Z) : Z := (z + 2 ^ 63) mod 2 ^ 64 - 2 ^ 63.

(** Storing a Python integer into an [int64] cell. *)
Definition to_int64 (z : Z) : M Z :=
  if int64_ok z then mret z else throw OverflowError.

(** A start/finish pair of the slice map: the two entries
    [a[0,v,s,e]] and [a[1,v,s,e]]. *)
Definition cell : Type := Z * Z.

(** The two array shapes of the module: the 4-dimensional slice map
    of shape (2, volumes, slices, echoes), kept as pairs indexed by
    volume, slice and echo, and the 2-dimensional channel array of shape
    (samples, lanes), kept lane by lane. *)
Inductive ndarray :=
| SliceArray (a : list (list (list cell)))
| TraceArray (a : list (list Z)).

(** An integer index into an axis of length [n]: negative indices count
    from the end, anything outside [-n, n) is an [IndexError]. *)
Definition index (i : Z) (n : nat) : M nat :=
  if (0 <=? i) && (i <? Z.of_nat n) then mret (Z.to_nat i)
  else if (- Z.of_nat n <=? i) && (i <? 0) then mret (Z.to_nat (i + Z.of_nat n))
  else throw IndexError.

Definition at_axis {A} (l : list A) (i : Z) : M (nat * A) :=
  n ← index i (length l);
  match l !! n with
  | Some x => mret (n, x)
  | None => throw IndexError
  end.

(** [np.zeros((2, nv, ns, ne), dtype=int)]: a float dimension is a
    [TypeError], a negative one a [ValueError]. *)
Definition zeros4 (nv : pynum) (ns ne : Z) : M ndarray :=
  match nv with
  | PyFloat _ _ => throw TypeError
  | PyInt v =>
      if (v <? 0) || (ns <? 0) || (ne <? 0) then throw ValueError
      else mret (SliceArray
             (replicate (Z.to_nat v)
                (replicate (Z.to_nat ns) (replicate (Z.to_nat ne) (0, 0)))))
  end.

(** [np.zeros((n, lanes), dtype=int)] *)
Definition zeros2 (n : Z) (lanes : nat) : M ndarray :=
  if n <? 0 then throw ValueError
  else mret (TraceArray (replicate lanes (replicate (Z.to_nat n) 0))).

(** [a[:, v, s, e]] *)
Definition get_cell (a : ndarray) (v s e : Z) : M cell :=
  match a with
  | SliceArray vols =>
      '(_, slcs) ← at_axis vols v;
      '(_, ecos) ← at_axis slcs s;
      '(_, c) ← at_axis ecos e;
      mret c
  | TraceArray _ => throw IndexError
  end.

(** [a[:, v, s, e] = [x, y]] *)
Definition set_cell (a : ndarray) (v s e : Z) (x y : Z) : M ndarray :=
  match a with
  | SliceArray vols =>
      '(jv, slcs) ← at_axis vols v;
      '(js, ecos) ← at_axis slcs s;
      '(je, _) ← at_axis ecos e;
      x' ← to_int64 x;
      y' ← to_int64 y;
      mret (SliceArray (<[jv := <[js := <[je := (x', y')]> ecos]> slcs]> vols))
  | TraceArray _ => throw IndexError
  end.

(** The bounds of [a:b] on an axis of length [n]: first index and
    number of elements. *)
Definition slice_bound (i n : Z) : Z :=
  if i <? 0 then Z.max (i + n) 0 else Z.min i n.

Definition slice (a b : Z) (n : nat) : nat * nat :=
  let lo := slice_bound a (Z.of_nat n) in
  let hi := slice_bound b (Z.of_nat n) in
  (Z.to_nat lo, Z.to_nat (hi - lo)).

(** Overwrite [len] entries from [lo] on. *)
Definition fill {A} (lo len : nat) (x : A) (l : list A) : list A :=
  list_inserts lo (replicate len x) l.

(** [a[start:stop, lane] = value * np.ones(k, dtype=int)]: the right-hand
    side is built first ([np.ones] refuses a negative length, the product
    must fit 64 bits); it is stored when its length is the slice's or 1. *)
Definition set_slice (a : ndarray) (start stop : Z) (lane : nat)
    (value k : Z) : M ndarray :=
  _ ← (if k <? 0 then throw ValueError else mret ());
  value' ← to_int64 value;
  match a with
  | TraceArray lanes =>
      match lanes !! lane with
      | None => throw IndexError
      | Some col =>
          let '(lo, len) := slice start stop (length col) in
          if (Z.of_nat len =? k) || (k =? 1)
          then mret (TraceArray (<[lane := fill lo len value' col]> lanes))
          else throw ValueError
      end
  | SliceArray _ => throw ValueError
  end.

(** [a - x] on the slice map: cell-wise 64-bit subtraction of a Python
    integer, which must itself fit 64 bits. *)
Definition sub_scalar (a : ndarray) (x : Z) : M ndarray :=
  x' ← to_int64 x;
  match a with
  | SliceArray vols =>
      mret (SliceArray
              (fmap (M := list) (fmap (M := list) (fmap (M := list)
                 (λ c : cell, (wrap64 (c.1 - x'), wrap64 (c.2 - x'))))) vols))
  | TraceArray lanes =>
      mret (TraceArray (fmap (M := list) (fmap (M := list)
                 (λ z, wrap64 (z - x'))) lanes))
  end.

(** [a.any()] *)
Definition any (a : ndarray) : bool :=
  match a with
  | SliceArray vols =>
      existsb (existsb (existsb
        (λ c : cell, negb (c.1 =? 0) || negb (c.2 =? 0)))) vols
  | TraceArray lanes => existsb (existsb (λ z, negb (z =? 0))) lanes
  end.

(** [sum(col)]: Python's [sum] over 64-bit entries, each addition
    wrapping. *)
Definition sum (col : list Z) : Z :=
  foldl (λ acc z, wrap64 (acc + z)) 0 col.

End np.

(** ** [readparsefile] *)

(** The file format the parser expects. *)
Definition expectedversion : string := "EJA_1".

(** The local variables of [readparsefile].  [firsttime] is a parameter
    and [nrechoes] is prefilled with 1, so both are always bound. *)
Record locals := Locals {
  UUID : option string;
  sampletime : option Z;
  nrslices : option Z;
  nrvolumes : option pynum;
  firsttime : Z;
  lasttime : option Z;
  nrechoes : Z;
  traces : option np.ndarray
}.

Definition set_UUID (x : string) (st : locals) : locals :=
  Locals (Some x) (sampletime st) (nrslices st) (nrvolumes st) (firsttime st)
         (lasttime st) (nrechoes st) (traces st).
Definition set_sampletime (x : Z) (st : locals) : locals :=
  Locals (UUID st) (Some x) (nrslices st) (nrvolumes st) (firsttime st)
         (lasttime st) (nrechoes st) (traces st).
Definition set_nrslices (x : Z) (st : locals) : locals :=
  Locals (UUID st) (sampletime st) (Some x) (nrvolumes st) (firsttime st)
         (lasttime st) (nrechoes st) (traces st).
Definition set_nrvolumes (x : pynum) (st : locals) : locals :=
  Locals (UUID st) (sampletime st) (nrslices st) (Some x) (firsttime st)
         (lasttime st) (nrechoes st) (traces st).
Definition set_firsttime (x : Z) (st : locals) : locals :=
  Locals (UUID st) (sampletime st) (nrslices st) (nrvolumes st) x
         (lasttime st) (nrechoes st) (traces st).
Definition set_lasttime (x : Z) (st : locals) : locals :=
  Locals (UUID st) (sampletime st) (nrslices st) (nrvolumes st) (firsttime st)
         (Some x) (nrechoes st) (traces st).
Definition set_nrechoes (x : Z) (st : locals) : locals :=
  Locals (UUID st) (sampletime st) (nrslices st) (nrvolumes st) (firsttime st)
         (lasttime st) x (traces st).
Definition set_traces (x : np.ndarray) (st : locals) : locals :=
  Locals (UUID st) (sampletime st) (nrslices st) (nrvolumes st) (firsttime st)
         (lasttime st) (nrechoes st) (Some x).

(** Comparisons of a number with an integer constant. *)
Definition num_ltb (x : pynum) (k : Z) : bool :=
  match x with
  | PyInt z => z <? k
  | PyFloat n d => if 0 <? d then n <? k * d else k * d <? n
  end.

Definition num_eqb (x : pynum) (k : Z) : bool :=
  match x with
  | PyInt z => z =? k
  | PyFloat n d => n =? k * d
  end.

(** [a / b] on integers: always a float. *)
Definition truediv (a b : Z) : M pynum :=
  if b =? 0 then throw ZeroDivisionError else mret (PyFloat a b).

(** [varname, value = [item.strip() for item in line.split('=')]]: the
    unpacking needs exactly two items. *)
Definition split_assignment (line : string) : M (string * string) :=
  match Str.strip <$> Str.split "=" line with
  | [varname; value] => mret (varname, value)
  | _ => throw ValueError
  end.

(** A header key that belongs to the other kind of file. *)
Definition misplaced (varname : string) : M unit :=
  hard_error (InvalidParameter varname).

(** The tests made on an assigned value, in the order of the source. *)
Definition assign (logdatatype varname value : string) (st : locals) : M locals :=
  let is_info := String.eqb logdatatype "ACQUISITION_INFO" in
  st ← (if String.eqb varname "UUID" then mret (set_UUID value st) else mret st);
  _ ← when (String.eqb varname "LogVersion")
        (when (negb (String.eqb value expectedversion))
           (hard_error (FormatNotSupported value)));
  _ ← when (String.eqb varname "LogDataType")
        (when (negb (String.eqb value logdatatype))
           (hard_error (UnexpectedDataType logdatatype value)));
  st ← (if String.eqb varname "SampleTime" then
          _ ← when is_info (misplaced varname);
          x ← py_int value; mret (set_sampletime x st)
        else mret st);
  st ← (if String.eqb varname "NumSlices" then
          _ ← when (negb is_info) (misplaced varname);
          x ← py_int value; mret (set_nrslices x st)
        else mret st);
  st ← (if String.eqb varname "NumVolumes" then
          _ ← when (negb is_info) (misplaced varname);
          x ← py_int value; mret (set_nrvolumes (PyInt x) st)
        else mret st);
  st ← (if String.eqb varname "FirstTime" then
          _ ← when (negb is_info) (misplaced varname);
          x ← py_int value; mret (set_firsttime x st)
        else mret st);
  st ← (if String.eqb varname "LastTime" then
          _ ← when (negb is_info) (misplaced varname);
          x ← py_int value; mret (set_lasttime x st)
        else mret st);
  if String.eqb varname "NumEchoes" then
    _ ← when (negb is_info) (misplaced varname);
    x ← py_int value; mret (set_nrechoes x st)
  else mret st.

(** The [if '=' in line] branch. *)
Definition assignment (logdatatype line : string) (st : locals) : M locals :=
  '(varname, value) ← split_assignment line;
  assign logdatatype varname value st.

(** [[dataitems[n] if n < len(dataitems) else '0' for n in range(5)]] *)
Definition pad5 (dataitems : list string) : list string :=
  (λ n, default "0" (dataitems !! n)) <$> seq 0 5.

(** [dataitems[n]], for [n < 5]. *)
Definition item (dataitems : list string) (n : nat) : string :=
  default "" (dataitems !! n).

(** The header test that precedes every ACQUISITION_INFO data row. *)
Definition header_unread (st : locals) : bool :=
  match nrvolumes st, nrslices st with
  | Some v, Some s => num_ltb v 1 || (s <? 1) || (nrechoes st <? 1)
  | _, _ => true
  end.

(** [if nrvolumes == 1: nrvolumes = (len(lines) - 11) / (nrslices * nrechoes)],
    with its warning. *)
Definition correct_nrvolumes (nlines : Z) (st : locals) : M locals :=
  v ← read_var (nrvolumes st);
  s ← read_var (nrslices st);
  if num_eqb v 1 then
    v' ← truediv (nlines - 11) (s * nrechoes st);
    _ ← emit WARNING (NumVolumesCorrected v');
    mret (set_nrvolumes v' st)
  else mret st.

(** [if traces is None: traces = np.zeros((2, nrvolumes, nrslices, nrechoes))] *)
Definition allocate_slicemap (st : locals) : M locals :=
  match traces st with
  | Some _ => mret st
  | None =>
      v ← read_var (nrvolumes st);
      s ← read_var (nrslices st);
      a ← np.zeros4 v s (nrechoes st);
      mret (set_traces a st)
  end.

(** The truth value of the two-entry array [traces[:, v, s, e]] used as
    a condition: NumPy refuses it for any array of more than one entry. *)
Definition truth_of_pair (c : np.cell) : M bool := throw ValueError.

(** A data row of an ACQUISITION_INFO buffer. *)
Definition acquisition_row (nlines : Z) (dataitems : list string)
    (st : locals) : M locals :=
  _ ← when (header_unread st) (hard_error FailedACQINFOHeader);
  st ← correct_nrvolumes nlines st;
  st ← allocate_slicemap st;
  a ← read_var (traces st);
  curvol ← py_int (item dataitems 0);
  curslc ← py_int (item dataitems 1);
  curstart ← py_int (item dataitems 2);
  curfinish ← py_int (item dataitems 3);
  cureco ←
    (if negb (Str.is_empty (item dataitems 4)) then
       cureco ← py_int (item dataitems 4);
       c ← np.get_cell a curvol curslc cureco;
       _ ← when (negb (c.1 =? 0) || negb (c.2 =? 0))
             (hard_error (DuplicateTiming curvol curslc cureco));
       mret cureco
     else
       c ← np.get_cell a curvol curslc 0;
       b ← truth_of_pair c;
       _ ← when b (emit WARNING (DuplicateTimingIgnored curvol curslc));
       mret 0);
  a' ← np.set_cell a curvol curslc cureco curstart curfinish;
  mret (set_traces a' st).

(** [names.index(x)] guarded by [x not in names]. *)
Fixpoint index_of (x : string) (names : list string) : option nat :=
  match names with
  | [] => None
  | y :: names' => if String.eqb x y then Some 0%nat else S <$> index_of x names'
  end.

Definition allocate_traces (expectedsamples : Z) (lanes : nat)
    (st : locals) : M locals :=
  match traces st with
  | Some _ => mret st
  | None => a ← np.zeros2 expectedsamples lanes; mret (set_traces a st)
  end.

(** The lane a row goes to, after the array has been allocated. *)
Definition select_lane (logdatatype curchannel : string)
    (expectedsamples : Z) (st : locals) : M (locals * nat) :=
  if String.eqb logdatatype "ECG" then
    st ← allocate_traces expectedsamples 4 st;
    match index_of curchannel ["ECG1"; "ECG2"; "ECG3"; "ECG4"] with
    | None => hard_error (InvalidChannelID "ECG" curchannel)
    | Some chaidx => mret (st, chaidx)
    end
  else if String.eqb logdatatype "EXT" then
    st ← allocate_traces expectedsamples 2 st;
    match index_of curchannel ["EXT"; "EXT2"] with
    | None => hard_error (InvalidChannelID "EXT" curchannel)
    | Some chaidx => mret (st, chaidx)
    end
  else
    st ← allocate_traces expectedsamples 1 st;
    mret (st, 0%nat).

(** A data row of a channel buffer (ECG, RESP, PULS or EXT). *)
Definition channel_row (logdatatype : string) (expectedsamples : Z)
    (dataitems : list string) (st : locals) : M locals :=
  t ← py_int (item dataitems 0);
  let curstart := t - firsttime st in
  let curchannel := item dataitems 1 in
  curvalue ← py_int (item dataitems 2);
  '(st, chaidx) ← select_lane logdatatype curchannel expectedsamples st;
  k ← read_var (sampletime st);
  a ← read_var (traces st);
  a' ← np.set_slice a curstart (curstart + k) chaidx curvalue k;
  mret (set_traces a' st).

(** [line.split('#')[0].strip()] *)
Definition clean (line : string) : string :=
  Str.strip (hd "" (Str.split "#" line)).

(** The body of the loop over the non-empty lines. *)
Definition parse_line (logdatatype : string) (nlines expectedsamples : Z)
    (st : locals) (line : string) : M locals :=
  let line := clean line in
  if Str.contains "=" line then assignment logdatatype line st
  else
    let dataitems := pad5 (Str.words line) in
    if negb (Str.isdigit (item dataitems 0)) then mret st
    else if String.eqb logdatatype "ACQUISITION_INFO"
         then acquisition_row nlines dataitems st
         else channel_row logdatatype expectedsamples dataitems st.

(** What [readparsefile] returns: a 7-tuple for ACQUISITION_INFO, a pair
    otherwise (whose [traces] is [None] when the buffer had no data row). *)
Inductive parsed :=
| InfoTuple (traces : np.ndarray) (UUID : string) (nrslices : Z)
    (nrvolumes : pynum) (firsttime lasttime nrechoes : Z)
| ChannelTuple (traces : option np.ndarray) (UUID : string).

Definition initial (firsttime : Z) : locals :=
  Locals None None None None firsttime None 1 None.

Definition finish (logdatatype : string) (st : locals) : M parsed :=
  if String.eqb logdatatype "ACQUISITION_INFO" then
    a ← match traces st with
        | None => throw TypeError
        | Some a => np.sub_scalar a (firsttime st)
        end;
    u ← read_var (UUID st);
    s ← read_var (nrslices st);
    v ← read_var (nrvolumes st);
    l ← read_var (lasttime st);
    mret (InfoTuple a u s v (firsttime st) l (nrechoes st))
  else
    u ← read_var (UUID st);
    mret (ChannelTuple (traces st) u).

Definition parse_lines (logdatatype : string) (nlines firsttime expectedsamples : Z)
    (lines : list string) : M locals :=
  foldM (parse_line logdatatype nlines expectedsamples) (initial firsttime)
        (List.filter (λ line, negb (Str.is_empty line)) lines).

(** [readparsefile(fn, logdatatype, firsttime, expectedsamples)] for a
    buffer [fn] of decoded text. *)
Definition readparsefile (fn logdatatype : string)
    (firsttime expectedsamples : Z) : M parsed :=
  let lines := Str.splitlines fn in
  _ ← emit INFO (Parsing logdatatype);
  st ← parse_lines logdatatype (Z.of_nat (length lines)) firsttime
         expectedsamples lines;
  finish logdatatype st.

(** ** [readphysio] *)

(** The log buffers handed to the assembler once the sources have been
    located (sibling files or the chunks of the DICOM payload): the INFO
    buffer, and each channel buffer when it was found. *)
Record sources := Sources {
  fnINFO : string;
  fnECG : option string;
  fnRESP : option string;
  fnPULS : option string;
  fnEXT : option string
}.

(** The values stored in the [physio] dictionary. *)
Inductive pyvalue :=
| PyStr (s : string)
| PyArray (a : np.ndarray)
| PyMask (m : list bool)
| PyColumn (c : list Z).

(** [X, UUIDn = readparsefile(fnX, 'X', firsttime, expectedsamples)] and the
    UUID test that follows, for a channel that was found.  The result is
    the value bound to [X]; it is [None] when [X] stays unbound. *)
Definition read_channel (fn : option string) (logdatatype UUID1 : string)
    (firsttime expectedsamples : Z) : M (option (option np.ndarray)) :=
  match fn with
  | None => mret None
  | Some buf =>
      r ← readparsefile buf logdatatype firsttime expectedsamples;
      match r with
      | ChannelTuple X UUID2 =>
          if negb (String.eqb UUID1 UUID2)
          then hard_error (UUIDMismatch logdatatype)
          else mret (Some X)
      | InfoTuple _ _ _ _ _ _ _ => throw ValueError
      end
  end.

(** [range(n)] *)
Definition range (n : pynum) : M (list Z) :=
  match n with
  | PyInt z => mret (seqZ 0 z)
  | PyFloat _ _ => throw TypeError
  end.

(** [ACQ[slicemap[0,v,s,e]:slicemap[1,v,s,e]+1, 0] = True] *)
Definition mark_acquisition (slicemap : np.ndarray) (v s e : Z)
    (ACQ : list bool) : M (list bool) :=
  c ← np.get_cell slicemap v s e;
  let '(lo, len) := np.slice c.1 (np.wrap64 (c.2 + 1)) (length ACQ) in
  mret (np.fill lo len true ACQ).

Definition acquisition_mask (slicemap : np.ndarray) (nrvolumes : pynum)
    (nrslices nrechoes expectedsamples : Z) : M (list bool) :=
  ACQ ← (if expectedsamples <? 0 then throw ValueError
          else mret (replicate (Z.to_nat expectedsamples) false));
  vs ← range nrvolumes;
  foldM (λ ACQ v,
    foldM (λ ACQ s,
      foldM (λ ACQ e, mark_acquisition slicemap v s e ACQ)
        ACQ (seqZ 0 nrechoes))
      ACQ (seqZ 0 nrslices))
    ACQ vs.

(** [X[:, j]] *)
Definition column (a : np.ndarray) (j : nat) : M (list Z) :=
  match a with
  | np.TraceArray lanes =>
      match lanes !! j with
      | Some col => mret col
      | None => throw IndexError
      end
  | np.SliceArray _ => throw IndexError
  end.

(** [if sum(X[:, j]): physio[key] = X[:, j]] *)
Definition put_lane (key : string) (a : np.ndarray) (j : nat)
    (physio : gmap string pyvalue) : M (gmap string pyvalue) :=
  col ← column a j;
  if negb (np.sum col =? 0) then mret (<[key := PyColumn col]> physio)
  else mret physio.

(** [if sum(X): physio[key] = X] for the one-lane arrays: the sum over the
    rows is a one-entry array, true when that entry is not 0. *)
Definition put_array (key : string) (a : np.ndarray)
    (physio : gmap string pyvalue) : M (gmap string pyvalue) :=
  match a with
  | np.TraceArray [col] =>
      if negb (np.sum col =? 0) then mret (<[key := PyArray a]> physio)
      else mret physio
  | _ => throw ValueError
  end.

(** [if foundX and X.any(): ...]: [X] is [None] when the buffer that was
    found had no data row, and [None] has no method [any]. *)
Definition put_channel (X : option (option np.ndarray))
    (puts : np.ndarray → gmap string pyvalue → M (gmap string pyvalue))
    (physio : gmap string pyvalue) : M (gmap string pyvalue) :=
  match X with
  | None => mret physio
  | Some None => throw AttributeError
  | Some (Some a) => if np.any a then puts a physio else mret physio
  end.

(** The dictionary of the active traces. *)
Definition assemble (UUID1 : string) (slicemap : np.ndarray) (ACQ : list bool)
    (ECG RESP PULS EXT : option (option np.ndarray)) : M (gmap string pyvalue) :=
  let physio : gmap string pyvalue :=
    <["ACQ" := PyMask ACQ]>
      (<["SliceMap" := PyArray slicemap]> (<["UUID" := PyStr UUID1]> ∅)) in
  physio ← put_channel ECG (λ a (physio : gmap string pyvalue),
              physio ← put_lane "ECG1" a 0 physio;
              physio ← put_lane "ECG2" a 1 physio;
              physio ← put_lane "ECG3" a 2 physio;
              put_lane "ECG4" a 3 physio) physio;
  physio ← put_channel RESP (put_array "RESP") physio;
  physio ← put_channel PULS (put_array "PULS") physio;
  put_channel EXT (λ a (physio : gmap string pyvalue),
     physio ← put_lane "EXT" a 0 physio;
     put_lane "EXT2" a 1 physio) physio.

(** [readphysio(fn)] from the point where the sources are known, without
    the optional plot. *)
Definition readphysio (src : sources) : M (gmap string pyvalue) :=
  _ ← when (bool_decide (fnECG src = None ∧ fnRESP src = None
                         ∧ fnPULS src = None ∧ fnEXT src = None))
        (hard_error NoDataFiles);
  info ← readparsefile (fnINFO src) "ACQUISITION_INFO" 0 0;
  match info with
  | ChannelTuple _ _ => throw ValueError
  | InfoTuple slicemap UUID1 nrslices nrvolumes firsttime lasttime nrechoes =>
      _ ← when (lasttime <=? firsttime)
            (hard_error (LastNotGreater lasttime firsttime));
      let actualsamples := lasttime - firsttime + 1 in
      let expectedsamples := actualsamples + 8 in
      ECG ← read_channel (fnECG src) "ECG" UUID1 firsttime expectedsamples;
      RESP ← read_channel (fnRESP src) "RESP" UUID1 firsttime expectedsamples;
      PULS ← read_channel (fnPULS src) "PULS" UUID1 firsttime expectedsamples;
      EXT ← read_channel (fnEXT src) "EXT" UUID1 firsttime expectedsamples;
      _ ← emit INFO (SlicesInScan nrslices);
      _ ← emit INFO (VolumesInScan nrvolumes);
      _ ← emit INFO (EchoesPerSlcVol nrechoes);
      _ ← emit INFO (FirstTimestamp firsttime);
      _ ← emit INFO (LastTimestamp lasttime);
      _ ← emit INFO (TotalScanDuration actualsamples);
      _ ← emit INFO FormattingACQ;
      ACQ ← acquisition_mask slicemap nrvolumes nrslices nrechoes expectedsamples;
      assemble UUID1 slicemap ACQ ECG RESP PULS EXT
  end.

(** ** Events of the line grammar

    What a raw line means to the parser, stated apart from the parser's
    state: the assignment it makes, or the padded fields of the data row it
    is.  Empty raw lines are dropped before the loop. *)

Definition assignment_of (line : string) : option (string * string) :=
  if Str.is_empty line then None
  else
    let line := clean line in
    if Str.contains "=" line then
      match Str.strip <$> Str.split "=" line with
      | [varname; value] => Some (varname, value)
      | _ => None
      end
    else None.

Definition data_row (line : string) : option (list string) :=
  if Str.is_empty line then None
  else
    let line := clean line in
    if Str.contains "=" line then None
    else
      let dataitems := pad5 (Str.words line) in
      if Str.isdigit (item dataitems 0) then Some dataitems else None.

(** The start and finish columns of an ACQUISITION_INFO data row. *)
Definition row_times (line : string) : option (Z * Z) :=
  dataitems ← data_row line;
  start ← Str.int (item dataitems 2);
  finish ← Str.int (item dataitems 3);
  Some (start, finish).

(** The warnings of the legacy correction in a log. *)
Definition is_correction (r : record) : bool :=
  match r with
  | (WARNING, NumVolumesCorrected _) => true
  | _ => false
  end.

Definition corrections (log : list record) : nat :=
  length (List.filter is_correction log).

(** The channel a lane key comes from, and the lane's column there. *)
Definition lane_source (key : string) : option (string * nat) :=
  if String.eqb key "ECG1" then Some ("ECG", 0%nat)
  else if String.eqb key "ECG2" then Some ("ECG", 1%nat)
  else if String.eqb key "ECG3" then Some ("ECG", 2%nat)
  else if String.eqb key "ECG4" then Some ("ECG", 3%nat)
  else if String.eqb key "RESP" then Some ("RESP", 0%nat)
  else if String.eqb key "PULS" then Some ("PULS", 0%nat)
  else if String.eqb key "EXT" then Some ("EXT", 0%nat)
  else if String.eqb key "EXT2" then Some ("EXT", 1%nat)
  else None.

Definition channel_buffer (src : sources) (logdatatype : string) : option string :=
  if String.eqb logdatatype "ECG" then fnECG src
  else if String.eqb logdatatype "RESP" then fnRESP src
  else if String.eqb logdatatype "PULS" then fnPULS src
  else if String.eqb logdatatype "EXT" then fnEXT src
  else None.

(** The array [readphysio] reconstructs for a channel: the parse of the
    channel's buffer with the first timestamp and sample count taken from
    the INFO buffer. *)
Definition channel_traces (src : sources) (logdatatype : string) : option np.ndarray :=
  match readparsefile (fnINFO src) "ACQUISITION_INFO" 0 0 with
  | (Return (InfoTuple _ _ _ _ firsttime lasttime _), _) =>
      buf ← channel_buffer src logdatatype;
      match readparsefile buf logdatatype firsttime (lasttime - firsttime + 1 + 8) with
      | (Return (ChannelTuple X _), _) => X
      | _ => None
      end
  | _ => None
  end.

(** The reconstructed per-tick lane behind a key of the result. *)
Definition lane_of (src : sources) (key : string) : option (list Z) :=
  '(logdatatype, j) ← lane_source key;
  a ← channel_traces src logdatatype;
  match a with
  | np.TraceArray lanes => lanes !! j
  | np.SliceArray _ => None
  end.

(** ** Sample buffers *)

Module Samples.

(** Two volumes of one slice, both rows without the echo column. *)
Definition info_echo_column_absent : string :=
"UUID = A
LogVersion = EJA_1
LogDataType = ACQUISITION_INFO
NumSlices = 1
NumVolumes = 2
FirstTime = 100
LastTime = 109
VOLUME SLICE ACQ_START_TICS ACQ_FINISH_TICS
0 0 100 105
0 0 106 109
".

(** A legacy header: NumVolumes = 1, four slices, eleven lines before
    the four data rows. *)
Definition info_legacy : string :=
"UUID = A
ScanDate = 20200428_142451
LogVersion = EJA_1
LogDataType = ACQUISITION_INFO
NumSlices = 4
NumVolumes = 1
NumEchoes = 1
FirstTime = 100
LastTime = 109

VOLUME SLICE ACQ_START_TICS ACQ_FINISH_TICS ECHO
0 0 100 101 0
0 1 102 103 0
0 2 104 105 0
0 3 106 107 0
".

(** NumVolumes is declared again, as 1, after the first data row. *)
Definition info_redeclared : string :=
"UUID = A
LogVersion = EJA_1
LogDataType = ACQUISITION_INFO
NumSlices = 2
NumVolumes = 2
FirstTime = 100
LastTime = 109
VOLUME SLICE ACQ_START_TICS ACQ_FINISH_TICS ECHO
0 0 100 101 0
NumVolumes = 1
0 1 102 103 0
1 0 104 105 0
1 1 106 107 0
".

(** One row whose finish precedes its start, one volume never written. *)
Definition info_unchecked : string :=
"UUID = A
LogVersion = EJA_1
LogDataType = ACQUISITION_INFO
NumSlices = 1
NumVolumes = 2
FirstTime = 100
LastTime = 109
VOLUME SLICE ACQ_START_TICS ACQ_FINISH_TICS ECHO
0 0 105 100 0
".

(** No FirstTime key. *)
Definition info_no_firsttime : string :=
"UUID = A
LogVersion = EJA_1
LogDataType = ACQUISITION_INFO
NumSlices = 1
NumVolumes = 2
LastTime = 109
VOLUME SLICE ACQ_START_TICS ACQ_FINISH_TICS ECHO
0 0 100 105 0
1 0 106 109 0
".

(** No LastTime key. *)
Definition info_no_lasttime : string :=
"UUID = A
LogVersion = EJA_1
LogDataType = ACQUISITION_INFO
NumSlices = 1
NumVolumes = 2
FirstTime = 100
VOLUME SLICE ACQ_START_TICS ACQ_FINISH_TICS ECHO
0 0 100 105 0
1 0 106 109 0
".

(** One slice, one volume, one echo, ticks 100 to 109. *)
Definition info_single : string :=
"UUID = A
ScanDate = 20200428_142451
LogVersion = EJA_1
LogDataType = ACQUISITION_INFO
NumSlices = 1
NumVolumes = 1
NumEchoes = 1
FirstTime = 100
LastTime = 109

VOLUME SLICE ACQ_START_TICS ACQ_FINISH_TICS ECHO
0 0 100 105
".

(** A first row of zeros, then a row for the same cell. *)
Definition info_zero_row : string :=
"UUID = A
LogVersion = EJA_1
LogDataType = ACQUISITION_INFO
NumSlices = 1
NumVolumes = 2
FirstTime = 0
LastTime = 109
VOLUME SLICE ACQ_START_TICS ACQ_FINISH_TICS ECHO
0 0 0 0 0
0 0 100 105 0
".

(** The local variables after the header and the first row of
    [info_zero_row]. *)
Definition after_zero_row : locals :=
  Locals (Some "A") None (Some 1) (Some (PyInt 2)) 0 (Some 109) 1
         (Some (np.SliceArray [[[(0, 0)]]; [[(0, 0)]]])).

(** The local variables after the header and the first two rows of
    [info_redeclared]: the volume count compares equal to 1. *)
Definition after_redeclaration : locals :=
  Locals (Some "A") None (Some 2) (Some (PyFloat 2 2)) 100 (Some 109) 1
         (Some (np.SliceArray [[[(100, 101)]; [(102, 103)]];
                               [[(0, 0)]; [(0, 0)]]])).

(** Two volumes of one slice, both written. *)
Definition info_plain : string :=
"UUID = A
LogVersion = EJA_1
LogDataType = ACQUISITION_INFO
NumSlices = 1
NumVolumes = 2
FirstTime = 100
LastTime = 109
VOLUME SLICE ACQ_START_TICS ACQ_FINISH_TICS ECHO
0 0 100 104 0
1 0 105 109 0
".

(** An ECG1 lane whose samples cancel, and an ECG2 lane. *)
Definition ecg_cancelling : string :=
"UUID = A
LogVersion = EJA_1
LogDataType = ECG
SampleTime = 2
ACQ_TIME_TICS CHANNEL VALUE
100 ECG1 5
102 ECG1 -5
104 ECG2 7
".

(** The same scan seen from another measurement. *)
Definition ecg_other_uuid : string :=
"UUID = B
LogVersion = EJA_1
LogDataType = ECG
SampleTime = 2
ACQ_TIME_TICS CHANNEL VALUE
100 ECG1 5
".

Definition puls_one_sample : string :=
"UUID = A
LogVersion = EJA_1
LogDataType = PULS
SampleTime = 2
ACQ_TIME_TICS CHANNEL VALUE SIGNAL
103 PULS 1500
".

(** The INFO buffer with an ECG and a PULS buffer of the same scan. *)
Definition cancelling : sources :=
  Sources info_plain (Some ecg_cancelling) None (Some puls_one_sample) None.

End Samples.

(** ** Auxiliary notions of the statements *)

(** The number of lanes of a channel array, and the lane a channel token
    selects. *)
Definition lane_count (logdatatype : string) : nat :=
  if String.eqb logdatatype "ECG" then 4%nat
  else if String.eqb logdatatype "EXT" then 2%nat
  else 1%nat.

Definition lane_index (logdatatype curchannel : string) : option nat :=
  if String.eqb logdatatype "ECG"
  then index_of curchannel ["ECG1"; "ECG2"; "ECG3"; "ECG4"]
  else if String.eqb logdatatype "EXT"
  then index_of curchannel ["EXT"; "EXT2"]
  else Some 0%nat.

(** Whether a line assigns the header key [key]. *)
Definition assigns (key line : string) : bool :=
  match assignment_of line with
  | Some (varname, _) => String.eqb varname key
  | None => false
  end.

(** The cell of a slice map at natural-number indices. *)
Definition cell_at (vols : list (list (list np.cell))) (kv ks ke : nat) : option np.cell :=
  slcs ← vols !! kv; ecos ← slcs !! ks; ecos !! ke.

(** Every cell of the map under construction is still zero or holds the
    start and finish of one of the data rows. *)
Definition cells_from_rows (lines : list string) (st : locals) : Prop :=
  ∀ vols kv ks ke c,
    traces st = Some (np.SliceArray vols) → cell_at vols kv ks ke = Some c →
    c = (0, 0) ∨ ∃ line, line ∈ lines ∧ row_times line = Some c.

(** Whether a line is no data row. *)
Definition no_data_row (line : string) : bool :=
  match data_row line with Some _ => false | None => true end.

(** Whether a line, if it assigns SampleTime, assigns the integer [k]. *)
Definition sampletime_agrees (k : Z) (line : string) : bool :=
  match assignment_of line with
  | Some (varname, value) =>
      if String.eqb varname "SampleTime"
      then match Str.int value with Some z => z =? k | None => false end
      else true
  | None => true
  end.

(** The sample of a channel array at a lane and a tick. *)
Definition sample (a : np.ndarray) (lane : nat) (tick : Z) : option Z :=
  match a with
  | np.TraceArray lanes =>
      if tick <? 0 then None
      else col ← lanes !! lane; col !! Z.to_nat tick
  | np.SliceArray _ => None
  end.

(** The channels [readphysio] reads before a given one. *)
Definition channels_before (logdatatype : string) : list string :=
  if String.eqb logdatatype "RESP" then ["ECG"]
  else if String.eqb logdatatype "PULS" then ["ECG"; "RESP"]
  else if String.eqb logdatatype "EXT" then ["ECG"; "RESP"; "PULS"]
  else [].

(** The column of a channel that was found, and that column when the
    assembler keeps it: when its sum is not 0. *)
Definition lane_entry (X : option (option np.ndarray)) (j : nat) : option (list Z) :=
  match X with
  | Some (Some (np.TraceArray lanes)) => lanes !! j
  | _ => None
  end.

Definition lane_kept (X : option (option np.ndarray)) (j : nat) : option (list Z) :=
  col ← lane_entry X j;
  if negb (np.sum col =? 0) then Some col else None.

(** The first of two optional values that is there. *)
Definition or_else {A} (o1 o2 : option A) : option A :=
  match o1 with Some _ => o1 | None => o2 end.

(** The value under key [k] after a conditional store of [v] under [key],
    [old] being the value before. *)
Definition stored {A} (k key : string) (v old : option A) : option A :=
  if String.eqb k key then or_else v old else old.

(** The sum of a list of integers, without wrap-around. *)
Definition total (col : list Z) : Z := foldr Z.add 0 col.

(** Whether a line, if it is a data row, carries the value 0. *)
Definition row_value_zero (line : string) : bool :=
  match data_row line with
  | Some dataitems =>
      match Str.int (item dataitems 2) with Some z => z =? 0 | None => false end
  | None => true
  end.

(** The dictionary a read returns (empty when it raises). *)
Definition returned (src : sources) : gmap string pyvalue :=
  match readphysio src with
  | (Return physio, _) => physio
  | (Raise _, _) => ∅
  end.

(** A computation that emits no log record. *)
Definition silent {A} (m : M A) : Prop := m.2 = [].


(** ** Further notions of the statements *)

(** The header keys the parser knows. *)
Definition header_keys : list string :=
  ["UUID"; "LogVersion"; "LogDataType"; "SampleTime"; "NumSlices";
   "NumVolumes"; "FirstTime"; "LastTime"; "NumEchoes"].

(** A line the loop passes over without a trace: an empty line, a line
    that is neither an assignment nor a row starting with digits (the
    column header), an assignment to a key the parser does not know, or
    the version and data-type lines when they hold what is expected. *)
Definition ignored (logdatatype line : string) : bool :=
  Str.is_empty line ||
  match assignment_of line with
  | Some (varname, value) =>
      if String.eqb varname "LogVersion" then String.eqb value expectedversion
      else if String.eqb varname "LogDataType" then String.eqb value logdatatype
      else negb (existsb (String.eqb varname) header_keys)
  | None =>
      negb (Str.contains "=" (clean line))
      && negb (Str.isdigit (item (pad5 (Str.words (clean line))) 0))
  end.

(** The value that the last assignment of [key] among [lines] gives, and
    that value read as an integer. *)
Definition assigned (key : string) (acc : option string) (line : string)
    : option string :=
  match assignment_of line with
  | Some (varname, value) => if String.eqb varname key then Some value else acc
  | None => acc
  end.

Definition last_assigned (key : string) (lines : list string) : option string :=
  foldl (assigned key) None lines.

Definition last_int (key : string) (lines : list string) : option Z :=
  last_assigned key lines ≫= Str.int.

(** Whether a line, if it assigns NumVolumes, assigns 1. *)
Definition declares_one_volume (line : string) : bool :=
  match assignment_of line with
  | Some (varname, value) =>
      if String.eqb varname "NumVolumes"
      then match Str.int value with Some z => z =? 1 | None => true end
      else true
  | None => true
  end.

(** Whether some line is a data row. *)
Definition has_data_row (lines : list string) : bool :=
  existsb (λ line, negb (no_data_row line)) lines.

(** The value a data row of a channel buffer puts on [lane] at [tick],
    for the first timestamp [ft] and the hold time [k]. *)
Definition row_sample (logdatatype : string) (ft k : Z) (lane : nat) (tick : Z)
    (line : string) : option Z :=
  dataitems ← data_row line;
  t ← Str.int (item dataitems 0);
  value ← Str.int (item dataitems 2);
  chaidx ← lane_index logdatatype (item dataitems 1);
  if Nat.eqb lane chaidx && (t - ft <=? tick) && (tick <? t - ft + k)
  then Some value else None.

(** The value of the last row among [lines] that reaches [lane] at
    [tick]; 0 when none does. *)
Definition last_sample (logdatatype : string) (ft k : Z) (lane : nat) (tick : Z)
    (lines : list string) : Z :=
  foldl (λ acc line, default acc (row_sample logdatatype ft k lane tick line))
        0 lines.

(** Whether a line, if it is a data row, holds its [k] ticks inside the
    window of [es] ticks that starts at [ft]. *)
Definition row_in_window (ft k es : Z) (line : string) : bool :=
  match data_row line with
  | Some dataitems =>
      match Str.int (item dataitems 0) with
      | Some t => (ft <=? t) && (t - ft + k <=? es)
      | None => true
      end
  | None => true
  end.

(** The shape of a channel array: [lanes] columns of [n] samples. *)
Definition trace_shape (n lanes : nat) (a : np.ndarray) : Prop :=
  match a with
  | np.TraceArray ls => length ls = lanes ∧ Forall (λ col, length col = n) ls
  | np.SliceArray _ => False
  end.

(** The shape of a slice map: [nv] volumes of [ns] slices of [ne] echoes. *)
Definition map_shape (nv ns ne : nat) (vols : list (list (list np.cell))) : Prop :=
  length vols = nv ∧
  Forall (λ slcs, length slcs = ns ∧ Forall (λ ecos, length ecos = ne) slcs) vols.

(** The five integer fields of a data row of an ACQUISITION_INFO buffer:
    volume, slice, start, finish and echo. *)
Definition row_fields (line : string) : option (Z * Z * Z * Z * Z) :=
  dataitems ← data_row line;
  v ← Str.int (item dataitems 0);
  s ← Str.int (item dataitems 1);
  start ← Str.int (item dataitems 2);
  finish ← Str.int (item dataitems 3);
  e ← Str.int (item dataitems 4);
  Some (v, s, start, finish, e).

(** Log discipline: a computation that ends in [RuntimeError] has logged
    an ERROR record last and none before; any other computation has
    logged no ERROR record. *)
Definition is_error (r : record) : bool :=
  match r.1 with ERROR => true | _ => false end.

Definition no_error (l : list record) : bool := forallb (λ r, negb (is_error r)) l.

Definition logged {A} (m : M A) : Prop :=
  match m with
  | (Raise RuntimeError, l) =>
      ∃ l' msg, l = l' ++ [(ERROR, msg)] ∧ no_error l' = true
  | (_, l) => no_error l = true
  end.

(** The lane keys of the result, and all its keys. *)
Definition lane_keys : list string :=
  ["ECG1"; "ECG2"; "ECG3"; "ECG4"; "RESP"; "PULS"; "EXT"; "EXT2"].

Definition result_keys : list string := ["UUID"; "SliceMap"; "ACQ"] ++ lane_keys.

(** What the assembler stores for a one-lane channel (RESP, PULS): the
    whole array, when its column is kept. *)
Definition array_kept (X : option (option np.ndarray)) : option pyvalue :=
  match X with
  | Some (Some a) => (λ _, PyArray a) <$> lane_kept X 0
  | _ => None
  end.

(** A computation that logs nothing and does not end in [RuntimeError]. *)
Definition mild {A} (m : M A) : Prop :=
  match m with
  | (Raise RuntimeError, _) => False
  | (_, l) => l = []
  end.

(** ** The encoded DICOM payload

    [readphysio] on a DICOM file, from the point where the payload
    [physiodata] (the value of the private tag) and [rows] (the
    AcquisitionNumber) have been read: the size test and the loop that
    decodes the log files.  The payload is a sequence of chunks of
    [rows * 1024] bytes; a chunk starts with two little-endian 32-bit
    lengths (data, file name) and the file name, and holds the data from
    byte 1024 on.

    [columns] and [nrfiles] are floats in the source.  For a payload of
    fewer than 2^53 bytes and a nonzero [rows] in the range of a DICOM
    integer string, the two remainder tests made on them hold exactly when
    [rows] does not divide the length, or 1024 does not divide the
    quotient; that is how they are written here. *)

Module Dicom.

Definition bytes : Type := list Byte.byte.

Definition byte_val (b : Byte.byte) : Z := Z.of_N (Byte.to_N b).

(** [b[i:j]] *)
Definition slice (b : bytes) (i j : Z) : bytes :=
  let '(lo, len) := np.slice i j (length b) in take len (drop lo b).

(** [struct.unpack('<L', b)[0]]: the buffer must hold exactly four
    bytes; [None] stands for [struct.error]. *)
Definition unpack_uint32 (b : bytes) : option Z :=
  match b with
  | [b0; b1; b2; b3] =>
      Some (byte_val b0 + 2 ^ 8 * byte_val b1 + 2 ^ 16 * byte_val b2
            + 2 ^ 24 * byte_val b3)
  | _ => None
  end.

Definition in_range (lo hi : Z) (b : Byte.byte) : bool :=
  (lo <=? byte_val b) && (byte_val b <=? hi).

Definition continuation (b : Byte.byte) : bool := in_range 128 191 b.

(** The first two bytes of a three-byte and of a four-byte sequence. *)
Definition three_bytes (b0 b1 : Byte.byte) : bool :=
  (in_range 224 224 b0 && in_range 160 191 b1)
  || (in_range 225 236 b0 && continuation b1)
  || (in_range 237 237 b0 && in_range 128 159 b1)
  || (in_range 238 239 b0 && continuation b1).

Definition four_bytes (b0 b1 : Byte.byte) : bool :=
  (in_range 240 240 b0 && in_range 144 191 b1)
  || (in_range 241 243 b0 && continuation b1)
  || (in_range 244 244 b0 && in_range 128 143 b1).

(** Whether [b.decode('UTF-8')] accepts [b]: well-formed UTF-8, without
    overlong forms, surrogates or code points above U+10FFFF. *)
Fixpoint utf8_valid (b : bytes) : bool :=
  match b with
  | [] => true
  | b0 :: r0 =>
      if in_range 0 127 b0 then utf8_valid r0
      else match r0 with
      | [] => false
      | b1 :: r1 =>
          if in_range 194 223 b0 then continuation b1 && utf8_valid r1
          else match r1 with
          | [] => false
          | b2 :: r2 =>
              if three_bytes b0 b1 then continuation b2 && utf8_valid r2
              else match r2 with
              | [] => false
              | b3 :: r3 =>
                  four_bytes b0 b1 && continuation b2 && continuation b3
                  && utf8_valid r3
              end
          end
      end
  end.

Fixpoint bytes_eqb (a b : bytes) : bool :=
  match a, b with
  | [], [] => true
  | x :: a', y :: b' => Byte.eqb x y && bytes_eqb a' b'
  | _, _ => false
  end.

(** [filename.endswith(suffix)], on the encoded text: the suffixes tested
    are ASCII, and in well-formed UTF-8 an ASCII character is its own byte
    and no part of another character. *)
Definition endswith (filename : bytes) (suffix : string) : bool :=
  let s := list_byte_of_string suffix in
  Nat.leb (length s) (length filename)
  && bytes_eqb (drop (length filename - length s) filename) s.

(** The exceptions of the decoder: those the parser knows too, and the
    two of [struct.unpack] and [bytes.decode]. *)
Inductive error :=
| Core (e : exn)
| StructError
| UnicodeDecodeError.

(** The log records of the decoder. *)
Inductive entry :=
| Decoded (filename : bytes)
| InvalidImageSize (rows : Z) (len : nat).

(** The buffers bound by the loop; [None] is an unbound name.  A channel
    counts as found exactly when its buffer is bound. *)
Record logfiles := Logfiles {
  fnINFO : option bytes;
  fnECG : option bytes;
  fnRESP : option bytes;
  fnPULS : option bytes;
  fnEXT : option bytes
}.

Definition unbound : logfiles := Logfiles None None None None None.

(** The header, the name and the data of one chunk. *)
Definition decode_file (filedata : bytes) : error + (bytes * bytes) :=
  match unpack_uint32 (slice filedata 0 4) with
  | None => inl StructError
  | Some datalen =>
      match unpack_uint32 (slice filedata 4 8) with
      | None => inl StructError
      | Some filenamelen =>
          let filename := slice filedata 8 (8 + filenamelen) in
          if utf8_valid filename
          then inr (filename, slice filedata 1024 (1024 + datalen))
          else inl UnicodeDecodeError
      end
  end.

(** The [if / elif] chain on the file name. *)
Definition store (filename logdata : bytes) (f : logfiles) : logfiles :=
  if endswith filename "_Info.log"
  then Logfiles (Some logdata) (fnECG f) (fnRESP f) (fnPULS f) (fnEXT f)
  else if endswith filename "_ECG.log"
  then Logfiles (fnINFO f) (Some logdata) (fnRESP f) (fnPULS f) (fnEXT f)
  else if endswith filename "_RESP.log"
  then Logfiles (fnINFO f) (fnECG f) (Some logdata) (fnPULS f) (fnEXT f)
  else if endswith filename "_PULS.log"
  then Logfiles (fnINFO f) (fnECG f) (fnRESP f) (Some logdata) (fnEXT f)
  else if endswith filename "_EXT.log"
  then Logfiles (fnINFO f) (fnECG f) (fnRESP f) (fnPULS f) (Some logdata)
  else f.

(** The loop over the chunk indices. *)
Fixpoint decode_files (physiodata : bytes) (rows : Z) (idxs : list Z)
    (f : logfiles) : (error + logfiles) * list entry :=
  match idxs with
  | [] => (inr f, [])
  | idx :: idxs' =>
      let filedata :=
        slice physiodata (idx * rows * 1024) ((idx + 1) * rows * 1024) in
      match decode_file filedata with
      | inl e => (inl e, [])
      | inr (filename, logdata) =>
          let '(r, log) :=
            decode_files physiodata rows idxs' (store filename logdata f) in
          (r, Decoded filename :: log)
      end
  end.

(** The size test and the loop. *)
Definition decode_physio (physiodata : bytes) (rows : Z)
    : (error + logfiles) * list entry :=
  let len := Z.of_nat (length physiodata) in
  if rows =? 0 then (inl (Core ZeroDivisionError), [])
  else if negb (len mod rows =? 0) || negb ((len / rows) mod 1024 =? 0)
  then (inl (Core RuntimeError), [InvalidImageSize rows (length physiodata)])
  else decode_files physiodata rows (seqZ 0 (len / rows / 1024)) unbound.

(** The layout of a chunk, as the decoder's format comment gives it: the
    two lengths, the file name, zeros up to byte 1024, the data, zeros up
    to the end of the chunk. *)
Definition byte_of (z : Z) : Byte.byte :=
  default Byte.x00 (Byte.of_N (Z.to_N z)).

Definition pack_uint32 (n : Z) : bytes :=
  [byte_of (n mod 256); byte_of (n / 2 ^ 8 mod 256);
   byte_of (n / 2 ^ 16 mod 256); byte_of (n / 2 ^ 24 mod 256)].

Definition pad (n : nat) (b : bytes) : bytes :=
  b ++ replicate (n - length b) Byte.x00.

Definition chunk (rows : Z) (file : bytes * bytes) : bytes :=
  pad (Z.to_nat (rows * 1024))
    (pad 1024 (pack_uint32 (Z.of_nat (length file.2))
               ++ pack_uint32 (Z.of_nat (length file.1)) ++ file.1)
     ++ file.2).

Definition payload (rows : Z) (files : list (bytes * bytes)) : bytes :=
  concat (chunk rows <$> files).

(** The data of the last file whose name ends with [suffix]. *)
Definition last_named (suffix : string) (files : list (bytes * bytes))
    : option bytes :=
  foldl (λ acc file, if endswith file.1 suffix then Some file.2 else acc)
        None files.

(** Whether a file fits one chunk of [rows * 1024] bytes: a name of
    well-formed UTF-8 that fits the first 1024 bytes after the two
    lengths, and data that fit the rest. *)
Definition fits (rows : Z) (file : bytes * bytes) : bool :=
  utf8_valid file.1 && Nat.leb (length file.1) 1016
  && (Z.of_nat (length file.2) <=? (rows - 1) * 1024)
  && (Z.of_nat (length file.2) <? 2 ^ 32).

End Dicom.

(** ** Further sample buffers *)

Module Cases.

(** A version the parser does not expect. *)
Definition ecg_other_version : string :=
"UUID = A
LogVersion = EJA_2
LogDataType = ECG
SampleTime = 2
ACQ_TIME_TICS CHANNEL VALUE
100 ECG1 5
".

(** A key of the INFO buffer in a channel buffer. *)
Definition ecg_with_numslices : string :=
"UUID = A
LogVersion = EJA_1
LogDataType = ECG
NumSlices = 1
SampleTime = 2
ACQ_TIME_TICS CHANNEL VALUE
100 ECG1 5
".

(** A line that holds only a comment. *)
Definition ecg_commented : string :=
"UUID = A
LogVersion = EJA_1
LogDataType = ECG
SampleTime = 2
# channel data
ACQ_TIME_TICS CHANNEL VALUE
100 ECG1 5
".

(** No SampleTime line. *)
Definition ecg_no_sampletime : string :=
"UUID = A
LogVersion = EJA_1
LogDataType = ECG
ACQ_TIME_TICS CHANNEL VALUE
100 ECG1 5
".

(** The local variables of a PULS parse after the header, with the array
    of 18 ticks allocated: first timestamp 100, hold time 2. *)
Definition puls_ready : locals :=
  Locals (Some "A") (Some 2) None None 100 None 1
         (Some (np.TraceArray [replicate 18 0])).

(** The slice map of [Samples.info_plain], normalised. *)
Definition plain_map : list (list (list np.cell)) := [[[(0, 4)]]; [[(5, 9)]]].

(** Two log files of one scan, and a file of another kind. *)
Definition text (s : string) : Dicom.bytes := list_byte_of_string s.

Definition files : list (Dicom.bytes * Dicom.bytes) :=
  [(text "Physio_A_Info.log", text Samples.info_plain);
   (text "Physio_A_notes.txt", text "not a log file");
   (text "Physio_A_PULS.log", text Samples.puls_one_sample)].

(** A chunk cut short: the header announces 5 bytes of data and a name of
    100 bytes, and 4 bytes follow. *)
Definition short_chunk : Dicom.bytes :=
  Dicom.pack_uint32 5 ++ Dicom.pack_uint32 100 ++ text "abcd".

End Cases.
(** * Properties *)

(** ** The computation monad *)

Section monad.
Context {A B : Type}.
Implicit Types (m : M A) (f : A → M B).

Lemma mret_bind a f : mret a ≫= f = f a.
Proof. unfold mret, mbind, M_ret, M_bind. by destruct (f a). Qed.

Lemma throw_bind e f : throw e ≫= f = throw e.
Proof. done. Qed.

Lemma bind_step m f a l1 :
  m = (Return a, l1) → m ≫= f = ((f a).1, l1 ++ (f a).2).
Proof. intros ->. unfold mbind, M_bind. by destruct (f a). Qed.

Lemma bind_Return_inv m f b l :
  m ≫= f = (Return b, l) →
  ∃ a l1 l2, m = (Return a, l1) ∧ f a = (Return b, l2) ∧ l = l1 ++ l2.
Proof.
  destruct m as [[a|e] l1]; unfold mbind, M_bind; [|done].
  destruct (f a) as [r l2] eqn:Hf. intros [= -> <-]. by exists a, l1, l2.
Qed.

Lemma bind_Raise m f e l : m = (Raise e, l) → m ≫= f = (Raise e, l).
Proof. by intros ->. Qed.

Lemma bind_no_Return m f :
  (∀ a l, m ≠ (Return a, l)) → ∀ b l, m ≫= f ≠ (Return b, l).
Proof.
  intros Hm b l (a & l1 & l2 & Ha & _)%bind_Return_inv. by eapply Hm.
Qed.
End monad.

Lemma when_Return_inv b (m : M unit) u l :
  when b m = (Return u, l) → (b = false ∧ l = []) ∨ (b = true ∧ m = (Return u, l)).
Proof. destruct b; cbn; [by right | intros [= <-]; by left]. Qed.

Lemma hard_error_eq {A} msg :
  @hard_error A msg = (Raise RuntimeError, [(ERROR, msg)]).
Proof. done. Qed.

Lemma read_var_Return_inv {A} (x : option A) a l :
  read_var x = (Return a, l) → x = Some a ∧ l = [].
Proof. destruct x; cbn; [by intros [= -> <-] | done]. Qed.

Lemma py_int_Return_inv s z l :
  py_int s = (Return z, l) → Str.int s = Some z ∧ l = [].
Proof. unfold py_int. destruct (Str.int s); cbn; [by intros [= -> <-] | done]. Qed.

Lemma py_int_Some s z : Str.int s = Some z → py_int s = mret z.
Proof. unfold py_int. by intros ->. Qed.

Lemma bind_assoc {A B C} (m : M A) (f : A → M B) (g : B → M C) :
  (m ≫= f) ≫= g = m ≫= (λ a, f a ≫= g).
Proof.
  destruct m as [[a|e] l]; [|done]. unfold mbind, M_bind.
  destruct (f a) as [[b|e] l1]; [|done].
  destruct (g b) as [r l2]. by rewrite app_assoc.
Qed.

Lemma bind_ext {A B} (m : M A) (f g : A → M B) :
  (∀ a, f a = g a) → m ≫= f = m ≫= g.
Proof.
  intros Hfg. destruct m as [[a|e] l]; [|done].
  unfold mbind, M_bind. by rewrite Hfg.
Qed.

Lemma foldM_app {X S} (f : S → X → M S) s l1 l2 :
  foldM f s (l1 ++ l2) = (s' ← foldM f s l1; foldM f s' l2).
Proof.
  revert s. induction l1 as [|x l1 IH]; intros s; cbn [foldM app].
  - by rewrite mret_bind.
  - rewrite bind_assoc. by apply bind_ext.
Qed.

(** ** The line grammar *)

Lemma append_empty s : "" +:+ s = s.
Proof. done. Qed.

Lemma append_String c a b : String c a +:+ b = String c (a +:+ b).
Proof. done. Qed.

Section split.
Variable sep : ascii.

Lemma split_nonempty s : Str.split sep s ≠ [].
Proof.
  destruct s as [|c s]; cbn [Str.split]; [done|].
  destruct (Ascii.eqb c sep); [done|]. by destruct (Str.split sep s).
Qed.

Lemma split_without s : Str.contains sep s = false → Str.split sep s = [s].
Proof.
  induction s as [|c s IH]; cbn [Str.split Str.contains]; [done|].
  intros [Hc Hs]%orb_false_elim. rewrite Hc, (IH Hs). done.
Qed.

Lemma split_at_first k v :
  Str.contains sep k = false →
  Str.split sep (k +:+ String sep v) = k :: Str.split sep v.
Proof.
  induction k as [|c k IH];
    rewrite ?append_empty, ?append_String; cbn [Str.split Str.contains].
  - intros _. by rewrite Ascii.eqb_refl.
  - intros [Hc Hk]%orb_false_elim. by rewrite Hc, (IH Hk).
Qed.

Lemma length_split_cons c s :
  length (Str.split sep (String c s)) =
  if Ascii.eqb c sep then S (length (Str.split sep s)) else length (Str.split sep s).
Proof.
  cbn [Str.split]. destruct (Ascii.eqb c sep); [done|].
  pose proof (split_nonempty s). by destruct (Str.split sep s).
Qed.

Lemma length_split_app a b :
  length (Str.split sep (a +:+ String sep b)) =
  (length (Str.split sep a) + length (Str.split sep b))%nat.
Proof.
  induction a as [|c a IH].
  - rewrite append_empty, length_split_cons, Ascii.eqb_refl. done.
  - rewrite append_String, !length_split_cons, IH. by destruct (Ascii.eqb c sep).
Qed.

Lemma contains_app a b :
  Str.contains sep (a +:+ b) = Str.contains sep a || Str.contains sep b.
Proof.
  induction a as [|c a IH];
    rewrite ?append_empty, ?append_String; cbn [Str.contains]; [done|].
  by rewrite IH, orb_assoc.
Qed.
End split.

Lemma split_assignment_one k v :
  Str.contains "=" k = false → Str.contains "=" v = false →
  split_assignment (k +:+ String "=" v) = mret (Str.strip k, Str.strip v).
Proof.
  intros Hk Hv. unfold split_assignment.
  by rewrite (split_at_first _ _ _ Hk), (split_without _ _ Hv).
Qed.

Lemma length_split_pos sep s : (1 ≤ length (Str.split sep s))%nat.
Proof. pose proof (split_nonempty sep s). destruct (Str.split sep s); cbn; [done|lia]. Qed.

Lemma split_assignment_more a b c :
  split_assignment (a +:+ String "=" (b +:+ String "=" c)) = throw ValueError.
Proof.
  unfold split_assignment.
  assert (3 ≤ length (Str.split "=" (a +:+ String "=" (b +:+ String "=" c))))%nat as Hlen.
  { rewrite !length_split_app.
    pose proof (length_split_pos "=" a). pose proof (length_split_pos "=" b).
    pose proof (length_split_pos "=" c). lia. }
  destruct (Str.split "=" (a +:+ String "=" (b +:+ String "=" c))) as [|x [|y [|z l]]];
    cbn in Hlen; try lia. done.
Qed.

Lemma words_nonempty s : Forall (λ w, w ≠ "") (Str.words s).
Proof.
  induction s as [|c s IH]; cbn [Str.words]; [constructor|].
  destruct (Str.is_space c); [done|].
  destruct s as [|c' s']; [by repeat constructor|].
  destruct (Str.is_space c'); [by constructor|].
  destruct (Str.words (String c' s')) as [|w ws]; [by repeat constructor|].
  constructor; [done|]. by eapply Forall_inv_tail.
Qed.

Lemma item_pad5 l n :
  (n < 5)%nat → item (pad5 l) n = default "0" (l !! n).
Proof.
  intros Hn. unfold item, pad5.
  do 5 (destruct n as [|n]; [done|]). lia.
Qed.

Lemma length_pad5 l : length (pad5 l) = 5%nat.
Proof. done. Qed.

(** A padded field is never the empty string: fields are runs of
    non-blank characters, and the padding is the text [0]. *)
Lemma item_pad5_nonempty s n :
  (n < 5)%nat → Str.is_empty (item (pad5 (Str.words s)) n) = false.
Proof.
  intros Hn. rewrite item_pad5 by done.
  destruct (Str.words s !! n) as [w|] eqn:Hw; [|done]. cbn.
  pose proof (words_nonempty s) as Hall.
  rewrite Forall_lookup in Hall. specialize (Hall _ _ Hw). by destruct w.
Qed.

(** Inversion of a bind that returned. *)
Ltac split_log Hl :=
  match type of Hl with
  | ?l = _ ++ _ =>
      first [ is_var l; subst l
            | symmetry in Hl; apply app_eq_nil in Hl; destruct Hl as [-> ->]
            | idtac ]
  end.

Tactic Notation "inv_bind" hyp(H) "as" simple_intropattern(p) ident(Hx) :=
  let l1 := fresh "l" in
  let l2 := fresh "l" in
  let Hl := fresh "Hlog" in
  apply bind_Return_inv in H as (p & l1 & l2 & Hx & H & Hl);
  split_log Hl.

(** ** Arrays *)

Lemma to_int64_Return_inv z z' l :
  np.to_int64 z = (Return z', l) → z' = z ∧ l = [] ∧ np.int64_ok z = true.
Proof. unfold np.to_int64. destruct (np.int64_ok z); cbn; [by intros [= -> <-]|done]. Qed.

Lemma to_int64_ok z : np.int64_ok z = true → np.to_int64 z = mret z.
Proof. unfold np.to_int64. by intros ->. Qed.

Lemma index_Return_inv i n k l :
  np.index i n = (Return k, l) →
  l = [] ∧ (k < n)%nat ∧ (Z.of_nat k = i ∨ Z.of_nat k = i + Z.of_nat n).
Proof.
  unfold np.index. destruct (_ && _) eqn:H1.
  - cbn. intros [= <- <-].
    apply andb_prop in H1 as [?%Z.leb_le ?%Z.ltb_lt]. split_and!; [done|lia|lia].
  - destruct ((- Z.of_nat n <=? i) && (i <? 0)) eqn:H2; [|done]. cbn. intros [= <- <-].
    apply andb_prop in H2 as [?%Z.leb_le ?%Z.ltb_lt]. split_and!; [done|lia|lia].
Qed.

Lemma index_nat (k n : nat) : (k < n)%nat → np.index (Z.of_nat k) n = mret k.
Proof.
  intros Hk. unfold np.index.
  replace (_ && _) with true by (symmetry; apply andb_true_intro; split; lia).
  by rewrite Nat2Z.id.
Qed.

Lemma at_axis_Return_inv {A} (l : list A) i k x lg :
  np.at_axis l i = (Return (k, x), lg) →
  lg = [] ∧ l !! k = Some x ∧ np.index i (length l) = mret k.
Proof.
  unfold np.at_axis. intros (n & l1 & l2 & Hi & H & ->)%bind_Return_inv.
  apply index_Return_inv in Hi as Hi'. destruct Hi' as (-> & _ & _).
  destruct (l !! n) as [y|] eqn:Hl; cbn in H; [|done].
  injection H as [= -> -> <-]. done.
Qed.

Lemma at_axis_nat {A} (l : list A) (k : nat) x :
  l !! k = Some x → np.at_axis l (Z.of_nat k) = mret (k, x).
Proof.
  intros Hl. unfold np.at_axis.
  rewrite index_nat by (by eapply lookup_lt_Some). rewrite mret_bind. by rewrite Hl.
Qed.

Lemma get_cell_Return_inv vols v s e c l :
  np.get_cell (np.SliceArray vols) v s e = (Return c, l) →
  l = [] ∧ ∃ kv ks ke, cell_at vols kv ks ke = Some c.
Proof.
  cbn [np.get_cell].
  intros H.
  inv_bind H as [kv slcs] Hv. apply at_axis_Return_inv in Hv as (-> & Hv & _).
  inv_bind H as [ks ecos] Hs. apply at_axis_Return_inv in Hs as (-> & Hs & _).
  inv_bind H as [ke c'] He. apply at_axis_Return_inv in He as (-> & He & _).
  injection H as [= -> <-]. split; [done|]. exists kv, ks, ke.
  unfold cell_at. rewrite Hv. cbn. rewrite Hs. cbn. done.
Qed.

Lemma get_cell_nat vols kv ks ke c :
  cell_at vols kv ks ke = Some c →
  np.get_cell (np.SliceArray vols) (Z.of_nat kv) (Z.of_nat ks) (Z.of_nat ke) = mret c.
Proof.
  unfold cell_at. intros H. cbn [np.get_cell].
  destruct (vols !! kv) as [slcs|] eqn:Hv; [|done]. cbn in H.
  destruct (slcs !! ks) as [ecos|] eqn:Hs; [|done]. cbn in H.
  rewrite (at_axis_nat _ _ _ Hv), mret_bind.
  rewrite (at_axis_nat _ _ _ Hs), mret_bind.
  rewrite (at_axis_nat _ _ _ H), mret_bind. done.
Qed.

Lemma cell_at_zeros nv ns ne kv ks ke c :
  cell_at (replicate nv (replicate ns (replicate ne (0, 0)))) kv ks ke = Some c →
  c = (0, 0).
Proof.
  unfold cell_at. intros H.
  destruct (replicate nv _ !! kv) as [slcs|] eqn:Hv; [|done]. cbn in H.
  apply lookup_replicate in Hv as [-> _].
  destruct (replicate ns _ !! ks) as [ecos|] eqn:Hs; [|done]. cbn in H.
  apply lookup_replicate in Hs as [-> _].
  by apply lookup_replicate in H as [-> _].
Qed.

Lemma zeros4_Return_inv v s e a l :
  np.zeros4 v s e = (Return a, l) →
  l = [] ∧ ∃ nv, v = PyInt nv ∧
    a = np.SliceArray (replicate (Z.to_nat nv)
          (replicate (Z.to_nat s) (replicate (Z.to_nat e) (0, 0)))).
Proof.
  unfold np.zeros4. destruct v as [nv|]; [|done].
  destruct (_ || _); cbn; [done|]. intros [= <- <-]. eauto.
Qed.

(** Writing one cell changes no other. *)
Lemma cell_at_insert vols jv js je slcs ecos c kv ks ke c' :
  vols !! jv = Some slcs → slcs !! js = Some ecos →
  cell_at (<[jv := <[js := <[je := c]> ecos]> slcs]> vols) kv ks ke = Some c' →
  c' = c ∨ cell_at vols kv ks ke = Some c'.
Proof.
  intros Hv Hs. unfold cell_at.
  destruct (decide (jv = kv)) as [->|Hne].
  - rewrite list_lookup_insert_eq by (by eapply lookup_lt_Some). cbn.
    rewrite Hv. cbn.
    destruct (decide (js = ks)) as [->|Hne].
    + rewrite list_lookup_insert_eq by (by eapply lookup_lt_Some). cbn.
      rewrite Hs. cbn.
      destruct (decide (je = ke)) as [->|Hne].
      * intros He. apply lookup_lt_Some in He as Hlt. rewrite length_insert in Hlt.
        rewrite list_lookup_insert_eq in He by done. left. congruence.
      * rewrite list_lookup_insert_ne by done. by right.
    + rewrite list_lookup_insert_ne by done. by right.
  - rewrite list_lookup_insert_ne by done. by right.
Qed.

Lemma cell_at_insert_eq vols jv js je slcs ecos c :
  vols !! jv = Some slcs → slcs !! js = Some ecos → (je < length ecos)%nat →
  cell_at (<[jv := <[js := <[je := c]> ecos]> slcs]> vols) jv js je = Some c.
Proof.
  intros Hv Hs He. unfold cell_at.
  rewrite list_lookup_insert_eq by (by eapply lookup_lt_Some). cbn.
  rewrite list_lookup_insert_eq by (by eapply lookup_lt_Some). cbn.
  by rewrite list_lookup_insert_eq.
Qed.

Lemma set_cell_Return_inv a v s e x y a' l :
  np.set_cell a v s e x y = (Return a', l) →
  l = [] ∧ np.int64_ok x = true ∧ np.int64_ok y = true ∧
  ∃ vols jv js je slcs ecos,
    a = np.SliceArray vols ∧ vols !! jv = Some slcs ∧ slcs !! js = Some ecos ∧
    (je < length ecos)%nat ∧
    np.index v (length vols) = mret jv ∧ np.index s (length slcs) = mret js ∧
    np.index e (length ecos) = mret je ∧
    a' = np.SliceArray (<[jv := <[js := <[je := (x, y)]> ecos]> slcs]> vols).
Proof.
  destruct a as [vols|]; [|done]. cbn [np.set_cell].
  intros H.
  inv_bind H as [jv slcs] Hv. apply at_axis_Return_inv in Hv as (-> & Hv & Hiv).
  inv_bind H as [js ecos] Hs. apply at_axis_Return_inv in Hs as (-> & Hs & His).
  inv_bind H as [je c0] He. apply at_axis_Return_inv in He as (-> & He & Hie).
  inv_bind H as x' Hx. apply to_int64_Return_inv in Hx as (-> & -> & Hx).
  inv_bind H as y' Hy. apply to_int64_Return_inv in Hy as (-> & -> & Hy).
  injection H as [= <- <-]. repeat split; try done.
  exists vols, jv, js, je, slcs, ecos. repeat split; try done.
  by eapply lookup_lt_Some.
Qed.

(** ** Computations that log nothing *)

Create HintDb silent discriminated.

Lemma silent_eq {A} (m : M A) r l : silent m → m = (r, l) → l = [].
Proof. unfold silent. by intros H ->. Qed.

Lemma silent_mret {A} (a : A) : silent (mret a).
Proof. done. Qed.

Lemma silent_throw {A} e : silent (@throw A e).
Proof. done. Qed.

Lemma silent_bind {A B} (m : M A) (f : A → M B) :
  silent m → (∀ a, silent (f a)) → silent (m ≫= f).
Proof.
  unfold silent. destruct m as [[a|e] l]; cbn; intros ->; [|done].
  intros Hf. specialize (Hf a). unfold mbind, M_bind. by destruct (f a) as [r l'].
Qed.

Lemma silent_if {A} (b : bool) (m1 m2 : M A) :
  silent m1 → silent m2 → silent (if b then m1 else m2).
Proof. by destruct b. Qed.

Lemma silent_read_var {A} (x : option A) : silent (read_var x).
Proof. by destruct x. Qed.

Lemma silent_py_int s : silent (py_int s).
Proof. unfold py_int. by destruct (Str.int s). Qed.

#[export] Hint Resolve silent_mret silent_throw silent_bind silent_if
  silent_read_var silent_py_int : silent.

Lemma silent_to_int64 z : silent (np.to_int64 z).
Proof. unfold np.to_int64. auto with silent. Qed.

Lemma silent_index i n : silent (np.index i n).
Proof. unfold np.index. auto with silent. Qed.

#[export] Hint Resolve silent_to_int64 silent_index : silent.

Lemma silent_at_axis {A} (l : list A) i : silent (np.at_axis l i).
Proof.
  unfold np.at_axis. apply silent_bind; [auto with silent|].
  intros n. destruct (l !! n); auto with silent.
Qed.

#[export] Hint Resolve silent_at_axis : silent.

Lemma silent_get_cell a v s e : silent (np.get_cell a v s e).
Proof.
  destruct a; cbn [np.get_cell]; [|auto with silent].
  repeat (apply silent_bind; [auto with silent|intros []]). auto with silent.
Qed.

Lemma silent_set_cell a v s e x y : silent (np.set_cell a v s e x y).
Proof.
  destruct a; cbn [np.set_cell]; [|auto with silent].
  do 3 (apply silent_bind; [auto with silent|intros []]).
  repeat (apply silent_bind; [auto with silent|intros ?]). auto with silent.
Qed.

Lemma silent_zeros4 v s e : silent (np.zeros4 v s e).
Proof. destruct v; cbn [np.zeros4]; auto with silent. Qed.

Lemma silent_zeros2 n lanes : silent (np.zeros2 n lanes).
Proof. unfold np.zeros2. auto with silent. Qed.

Lemma silent_set_slice a start stop lane value k :
  silent (np.set_slice a start stop lane value k).
Proof.
  unfold np.set_slice. apply silent_bind; [auto with silent|intros _].
  apply silent_bind; [auto with silent|intros value'].
  destruct a as [|lanes]; [auto with silent|].
  destruct (lanes !! lane); [|auto with silent].
  destruct (np.slice _ _ _). auto with silent.
Qed.

Lemma silent_sub_scalar a x : silent (np.sub_scalar a x).
Proof.
  unfold np.sub_scalar. apply silent_bind; [auto with silent|intros x'].
  destruct a; auto with silent.
Qed.

Lemma silent_truediv a b : silent (truediv a b).
Proof. unfold truediv. auto with silent. Qed.

Lemma silent_column a j : silent (column a j).
Proof.
  destruct a as [|lanes]; cbn [column]; [auto with silent|].
  destruct (lanes !! j); auto with silent.
Qed.

Lemma silent_split_assignment line : silent (split_assignment line).
Proof.
  unfold split_assignment.
  destruct (Str.strip <$> Str.split "=" line) as [|a [|b [|c r]]]; auto with silent.
Qed.

#[export] Hint Resolve silent_get_cell silent_set_cell silent_zeros4
  silent_zeros2 silent_set_slice silent_sub_scalar silent_truediv
  silent_column silent_split_assignment : silent.

(** Inversion of a bind whose first computation logs nothing. *)
Ltac silent_log Hx :=
  match type of Hx with
  | ?m = (_, ?l) =>
      first
        [ is_var l;
          let Hl := fresh "Hlog" in
          assert (l = []) as Hl
            by (eapply (silent_eq m); [auto 10 with silent | exact Hx]);
          subst l
        | idtac ]
  end.

Tactic Notation "inv_pure" hyp(H) "as" simple_intropattern(p) ident(Hx) :=
  inv_bind H as p Hx; silent_log Hx; cbn [app] in H.

(** ** Header assignments *)

Lemma split_assignment_Return_inv line p l :
  split_assignment line = (Return p, l) →
  l = [] ∧ Str.strip <$> Str.split "=" line = [p.1; p.2].
Proof.
  unfold split_assignment.
  destruct (Str.strip <$> Str.split "=" line) as [|a [|b [|c r]]]; try done.
  cbn. by intros [= <- <-].
Qed.

(** What a successful assignment leaves in the local variables. *)
Lemma assign_Return_inv logdatatype varname value st st' l :
  assign logdatatype varname value st = (Return st', l) →
  l = [] ∧
    traces st' = traces st ∧
    UUID st' = (if String.eqb varname "UUID" then Some value else UUID st) ∧
    sampletime st' =
      (if String.eqb varname "SampleTime" then Str.int value else sampletime st) ∧
    nrslices st' =
      (if String.eqb varname "NumSlices" then Str.int value else nrslices st) ∧
    nrvolumes st' =
      (if String.eqb varname "NumVolumes" then PyInt <$> Str.int value
       else nrvolumes st) ∧
    lasttime st' =
      (if String.eqb varname "LastTime" then Str.int value else lasttime st) ∧
    firsttime st' =
      (if String.eqb varname "FirstTime" then default 0 (Str.int value)
       else firsttime st) ∧
    nrechoes st' =
      (if String.eqb varname "NumEchoes" then default 0 (Str.int value)
       else nrechoes st) ∧
    (String.eqb varname "SampleTime" = true → logdatatype ≠ "ACQUISITION_INFO") ∧
    (String.eqb varname "FirstTime" = true → logdatatype = "ACQUISITION_INFO").
Proof.
  unfold assign.
  destruct (String.eqb_spec varname "UUID") as [->|?].
  { cbn. intros [= <- <-]. split_and!; done. }
  destruct (String.eqb_spec varname "LogVersion") as [->|?].
  { cbn. destruct (String.eqb value expectedversion); cbn; [|done].
    intros [= <- <-]. split_and!; done. }
  destruct (String.eqb_spec varname "LogDataType") as [->|?].
  { cbn. destruct (String.eqb value logdatatype); cbn; [|done].
    intros [= <- <-]. split_and!; done. }
  destruct (String.eqb_spec varname "SampleTime") as [->|?].
  { cbn. destruct (String.eqb_spec logdatatype "ACQUISITION_INFO"); cbn; [done|].
    unfold py_int. destruct (Str.int value); cbn; [|done].
    intros [= <- <-]. split_and!; done. }
  destruct (String.eqb_spec varname "NumSlices") as [->|?].
  { cbn. destruct (String.eqb_spec logdatatype "ACQUISITION_INFO"); cbn; [|done].
    unfold py_int. destruct (Str.int value); cbn; [|done].
    intros [= <- <-]. split_and!; done. }
  destruct (String.eqb_spec varname "NumVolumes") as [->|?].
  { cbn. destruct (String.eqb_spec logdatatype "ACQUISITION_INFO"); cbn; [|done].
    unfold py_int. destruct (Str.int value); cbn; [|done].
    intros [= <- <-]. split_and!; done. }
  destruct (String.eqb_spec varname "FirstTime") as [->|?].
  { cbn. destruct (String.eqb_spec logdatatype "ACQUISITION_INFO"); cbn; [|done].
    unfold py_int. destruct (Str.int value); cbn; [|done].
    intros [= <- <-]. split_and!; done. }
  destruct (String.eqb_spec varname "LastTime") as [->|?].
  { cbn. destruct (String.eqb_spec logdatatype "ACQUISITION_INFO"); cbn; [|done].
    unfold py_int. destruct (Str.int value); cbn; [|done].
    intros [= <- <-]. split_and!; done. }
  destruct (String.eqb_spec varname "NumEchoes") as [->|?].
  { cbn. destruct (String.eqb_spec logdatatype "ACQUISITION_INFO"); cbn; [|done].
    unfold py_int. destruct (Str.int value); cbn; [|done].
    intros [= <- <-]. split_and!; done. }
  cbn. intros [= <- <-]. split_and!; done.
Qed.

(** ** Data rows of the INFO buffer *)

Lemma num_eqb_not_ltb v : num_eqb v 1 = true → num_ltb v 1 = false.
Proof.
  destruct v as [z|n d]; cbn; intros H%Z.eqb_eq; subst.
  - done.
  - rewrite Z.mul_1_l. destruct (0 <? d); apply Z.ltb_irrefl.
Qed.

Lemma correct_nrvolumes_Return_inv nlines st st' l :
  correct_nrvolumes nlines st = (Return st', l) →
  ∃ v s, nrvolumes st = Some v ∧ nrslices st = Some s ∧
    ((num_eqb v 1 = false ∧ st' = st ∧ l = []) ∨
     (num_eqb v 1 = true ∧ s * nrechoes st ≠ 0 ∧
      st' = set_nrvolumes (PyFloat (nlines - 11) (s * nrechoes st)) st ∧
      l = [(WARNING, NumVolumesCorrected (PyFloat (nlines - 11) (s * nrechoes st)))])).
Proof.
  unfold correct_nrvolumes. intros H.
  inv_bind H as v Hv. apply read_var_Return_inv in Hv as [Hv ->].
  inv_bind H as s Hs. apply read_var_Return_inv in Hs as [Hs ->].
  exists v, s. split_and!; [done..|].
  destruct (num_eqb v 1); [right|left].
  - unfold truediv in H. destruct (Z.eqb_spec (s * nrechoes st) 0); [done|].
    cbn in H. injection H as [= <- <-]. done.
  - by injection H as [= <- <-].
Qed.

Lemma correct_nrvolumes_frame nlines st st' l :
  correct_nrvolumes nlines st = (Return st', l) →
  traces st' = traces st ∧ UUID st' = UUID st ∧ sampletime st' = sampletime st ∧
  nrslices st' = nrslices st ∧ firsttime st' = firsttime st ∧
  lasttime st' = lasttime st ∧ nrechoes st' = nrechoes st ∧
  is_Some (nrvolumes st) ∧ is_Some (nrvolumes st').
Proof.
  intros (v & s & Hv & Hs & [(_ & -> & _)|(_ & _ & -> & _)])%correct_nrvolumes_Return_inv;
    rewrite ?Hv; split_and!; by eauto.
Qed.

Lemma allocate_slicemap_Return_inv st st' l :
  allocate_slicemap st = (Return st', l) →
  l = [] ∧
  ((is_Some (traces st) ∧ st' = st) ∨
   (traces st = None ∧ ∃ nv s,
      nrvolumes st = Some (PyInt nv) ∧ nrslices st = Some s ∧
      st' = set_traces (np.SliceArray (replicate (Z.to_nat nv)
              (replicate (Z.to_nat s) (replicate (Z.to_nat (nrechoes st)) (0, 0))))) st)).
Proof.
  unfold allocate_slicemap. destruct (traces st) as [a|] eqn:Ha.
  - intros [= <- <-]. split; [done|]. left. done.
  - intros H.
    inv_bind H as v Hv. apply read_var_Return_inv in Hv as [Hv ->].
    inv_bind H as s Hs. apply read_var_Return_inv in Hs as [Hs ->].
    inv_bind H as a Hz. apply zeros4_Return_inv in Hz as (-> & nv & -> & ->).
    injection H as [= <- <-]. split; [done|]. right. split; [done|]. eauto.
Qed.

(** What a data row of the INFO buffer does when it is accepted: it reads
    its five fields as integers, finds the target cell zero, and stores
    start and finish there; the other local variables are left alone, but
    for the volume count when the legacy correction fires. *)
Lemma acquisition_row_Return_inv nlines dataitems st st' l :
  acquisition_row nlines dataitems st = (Return st', l) →
  ∃ st1 l1 a0 a' curvol curslc cureco curstart curfinish,
    correct_nrvolumes nlines st = (Return st1, l1) ∧ l = l1 ∧
    header_unread st = false ∧
    (traces st = Some a0 ∨
     (traces st = None ∧ ∃ nv ns ne, a0 = np.SliceArray
        (replicate nv (replicate ns (replicate ne (0, 0)))))) ∧
    Str.int (item dataitems 0) = Some curvol ∧
    Str.int (item dataitems 1) = Some curslc ∧
    Str.int (item dataitems 2) = Some curstart ∧
    Str.int (item dataitems 3) = Some curfinish ∧
    Str.int (item dataitems 4) = Some cureco ∧
    np.get_cell a0 curvol curslc cureco = mret (0, 0) ∧
    np.set_cell a0 curvol curslc cureco curstart curfinish = mret a' ∧
    st' = set_traces a' st1.
Proof.
  unfold acquisition_row. intros H.
  inv_bind H as [] Hh. apply when_Return_inv in Hh as [[Hh ->]|[_ Hh]]; [|done].
  inv_bind H as st1 Hc.
  inv_bind H as st2 Ha. apply allocate_slicemap_Return_inv in Ha as [-> Ha].
  inv_pure H as a0 Ht. apply read_var_Return_inv in Ht as [Ht _].
  inv_pure H as curvol H0. apply py_int_Return_inv in H0 as [H0 _].
  inv_pure H as curslc H1. apply py_int_Return_inv in H1 as [H1 _].
  inv_pure H as curstart H2. apply py_int_Return_inv in H2 as [H2 _].
  inv_pure H as curfinish H3. apply py_int_Return_inv in H3 as [H3 _].
  inv_bind H as cureco He.
  inv_pure H as a' Hs.
  injection H as [= <- <-].
  destruct (Str.is_empty (item dataitems 4)); cbn [negb] in He.
  { inv_pure He as c Hc'. inv_bind He as b Hb. done. }
  inv_pure He as cureco' H4. apply py_int_Return_inv in H4 as [H4 _].
  inv_pure He as c Hg.
  inv_bind He as [] Hw. injection He as [= -> <-].
  apply when_Return_inv in Hw as [[Hw ->]|[_ Hw]]; [|done].
  apply orb_false_elim in Hw as [Hw1%negb_false_iff%Z.eqb_eq Hw2%negb_false_iff%Z.eqb_eq].
  destruct c as [c1 c2]; cbn in Hw1, Hw2; subst c1 c2.
  eexists st1, _, a0, a', curvol, curslc, cureco, curstart, curfinish.
  split; [exact Hc|]. rewrite ?app_nil_r. split_and!; try done.
  - apply correct_nrvolumes_frame in Hc as (Htr & _).
    destruct Ha as [[_ ->]|(Ha & nv & s & _ & _ & ->)].
    + left. congruence.
    + right. split; [congruence|]. cbn in Ht. injection Ht as [= <-]. eauto.
  - by destruct Ha as [[_ ->]|(Ha & nv & s & _ & _ & ->)].
Qed.

(** ** Data rows of a channel buffer *)

Lemma allocate_traces_Return_inv es lanes st st' l :
  allocate_traces es lanes st = (Return st', l) →
  l = [] ∧
  ((is_Some (traces st) ∧ st' = st) ∨
   (traces st = None ∧ 0 ≤ es ∧
    st' = set_traces (np.TraceArray (replicate lanes (replicate (Z.to_nat es) 0))) st)).
Proof.
  unfold allocate_traces. destruct (traces st) as [a|] eqn:Ha.
  - intros [= <- <-]. split; [done|]. left. done.
  - unfold np.zeros2. destruct (Z.ltb_spec es 0); cbn; [done|].
    intros [= <- <-]. split; [done|]. right. done.
Qed.

Lemma select_lane_Return_inv logdatatype curchannel es st st' chaidx l :
  select_lane logdatatype curchannel es st = (Return (st', chaidx), l) →
  l = [] ∧ lane_index logdatatype curchannel = Some chaidx ∧
  allocate_traces es (lane_count logdatatype) st = mret st'.
Proof.
  unfold select_lane, lane_index, lane_count.
  destruct (String.eqb logdatatype "ECG");
    [|destruct (String.eqb logdatatype "EXT")]; intros H.
  - inv_bind H as st1 Ha. apply allocate_traces_Return_inv in Ha as Ha'.
    destruct Ha' as [-> _]. destruct (index_of _ _); [|done].
    by injection H as [= -> -> <-].
  - inv_bind H as st1 Ha. apply allocate_traces_Return_inv in Ha as Ha'.
    destruct Ha' as [-> _]. destruct (index_of _ _); [|done].
    by injection H as [= -> -> <-].
  - inv_bind H as st1 Ha. apply allocate_traces_Return_inv in Ha as Ha'.
    destruct Ha' as [-> _]. by injection H as [= -> <- <-].
Qed.

Lemma set_slice_Return_inv a start stop lane value k a' l :
  np.set_slice a start stop lane value k = (Return a', l) →
  l = [] ∧ 0 ≤ k ∧ np.int64_ok value = true ∧
  ∃ lanes col, a = np.TraceArray lanes ∧ lanes !! lane = Some col ∧
    (Z.of_nat (np.slice start stop (length col)).2 = k ∨ k = 1) ∧
    a' = np.TraceArray
           (<[lane := np.fill (np.slice start stop (length col)).1
                        (np.slice start stop (length col)).2 value col]> lanes).
Proof.
  unfold np.set_slice. intros H.
  inv_bind H as [] Hk. destruct (Z.ltb_spec k 0); [done|]. injection Hk as [= <-].
  inv_bind H as value' Hv. apply to_int64_Return_inv in Hv as (-> & -> & Hv).
  destruct a as [|lanes]; [done|].
  destruct (lanes !! lane) as [col|] eqn:Hcol; [|done].
  destruct (np.slice start stop (length col)) as [lo len] eqn:Hsl.
  destruct (_ || _) eqn:Hor; [|done]. injection H as [= <- <-].
  split_and!; try done. exists lanes, col. rewrite Hsl. cbn [fst snd].
  split_and!; try done.
  apply orb_prop in Hor as [?%Z.eqb_eq|?%Z.eqb_eq]; auto.
Qed.

(** What a data row of a channel buffer does when it is accepted. *)
Lemma channel_row_Return_inv logdatatype es dataitems st st' l :
  channel_row logdatatype es dataitems st = (Return st', l) →
  l = [] ∧ ∃ t value k chaidx st1 a0 a',
    Str.int (item dataitems 0) = Some t ∧
    Str.int (item dataitems 2) = Some value ∧
    lane_index logdatatype (item dataitems 1) = Some chaidx ∧
    allocate_traces es (lane_count logdatatype) st = mret st1 ∧
    sampletime st = Some k ∧
    traces st1 = Some a0 ∧
    np.set_slice a0 (t - firsttime st) (t - firsttime st + k) chaidx value k = mret a' ∧
    st' = set_traces a' st.
Proof.
  unfold channel_row. intros H.
  inv_pure H as t H0. apply py_int_Return_inv in H0 as [H0 _].
  inv_pure H as value H2. apply py_int_Return_inv in H2 as [H2 _].
  inv_bind H as [st1 chaidx] Hsel.
  apply select_lane_Return_inv in Hsel as (-> & Hidx & Hal).
  inv_pure H as k Hk. apply read_var_Return_inv in Hk as [Hk _].
  inv_pure H as a0 Ha. apply read_var_Return_inv in Ha as [Ha _].
  inv_pure H as a' Hs. injection H as [= <- <-].
  apply allocate_traces_Return_inv in Hal as Hal'.
  destruct Hal' as [_ [[_ ->]|(Hn & Hes & ->)]].
  - split; [done|]. exists t, value, k, chaidx, st, a0, a'. split_and!; done.
  - split; [done|]. eexists t, value, k, chaidx, _, a0, a'. split_and!; done.
Qed.

(** ** Dispatch of a line *)

Lemma parse_line_Return_inv logdatatype nlines es st line st' l :
  line ≠ "" →
  parse_line logdatatype nlines es st line = (Return st', l) →
  (∃ varname value,
      assignment_of line = Some (varname, value) ∧ data_row line = None ∧
      assign logdatatype varname value st = (Return st', l))
  ∨ (∃ dataitems,
      data_row line = Some dataitems ∧ assignment_of line = None ∧
      (if String.eqb logdatatype "ACQUISITION_INFO"
       then acquisition_row nlines dataitems st
       else channel_row logdatatype es dataitems st) = (Return st', l))
  ∨ (assignment_of line = None ∧ data_row line = None ∧ st' = st ∧ l = []).
Proof.
  intros Hne. unfold parse_line, assignment_of, data_row.
  replace (Str.is_empty line) with false by (by destruct line). cbn zeta.
  destruct (Str.contains "=" (clean line)).
  - unfold assignment. intros H. left.
    inv_pure H as [varname value] Hsp.
    apply split_assignment_Return_inv in Hsp as [_ ->]. eauto.
  - destruct (Str.isdigit _); cbn [negb].
    + intros H. right. left. eauto.
    + intros [= <- <-]. right. right. done.
Qed.

(** ** The loop over the lines *)

Lemma foldM_invariant {X S} (f : S → X → M S) (I : S → Prop) (P : X → Prop) :
  (∀ s x s' l, P x → I s → f s x = (Return s', l) → I s') →
  ∀ xs s s' l, Forall P xs → I s → foldM f s xs = (Return s', l) → I s'.
Proof.
  intros Hstep xs. induction xs as [|x xs IH]; intros s s' l HP HI; cbn [foldM].
  - by intros [= <- <-].
  - intros H. inv_bind H as s1 Hx. inversion_clear HP as [|?? Hx' HP'].
    eapply IH; [done| |done]. by eapply Hstep.
Qed.

Lemma parse_lines_invariant (I : locals → Prop) logdatatype nlines ft es lines st l :
  (∀ s line s' l',
      line ∈ lines → line ≠ "" → I s →
      parse_line logdatatype nlines es s line = (Return s', l') → I s') →
  I (initial ft) →
  parse_lines logdatatype nlines ft es lines = (Return st, l) → I st.
Proof.
  intros Hstep Hinit. unfold parse_lines.
  apply (foldM_invariant _ I (λ line, line ∈ lines ∧ line ≠ "")).
  - intros s x s' l' [??]. by apply Hstep.
  - apply Forall_forall. intros x [Hx Hin]%list_elem_of_In%List.filter_In.
    split; [by apply list_elem_of_In|]. by destruct x.
  - done.
Qed.

Lemma readparsefile_Return_inv fn logdatatype ft es r l :
  readparsefile fn logdatatype ft es = (Return r, l) →
  ∃ st l',
    parse_lines logdatatype (Z.of_nat (length (Str.splitlines fn))) ft es
      (Str.splitlines fn) = (Return st, l') ∧
    finish logdatatype st = mret r ∧
    l = (INFO, Parsing logdatatype) :: l'.
Proof.
  unfold readparsefile. intros H.
  inv_bind H as [] He. injection He as [= <-].
  inv_bind H as st Hp.
  assert (silent (finish logdatatype st)) as Hs.
  { unfold finish. destruct (String.eqb _ _); [|auto with silent].
    apply silent_bind; [destruct (traces st)|]; auto 10 with silent. }
  pose proof (silent_eq _ _ _ Hs H) as ->.
  eexists st, _. split; [exact Hp|]. by rewrite app_nil_r.
Qed.

Lemma finish_info_Return_inv st r l :
  finish "ACQUISITION_INFO" st = (Return r, l) →
  ∃ a0 a u s v lt,
    traces st = Some a0 ∧ np.sub_scalar a0 (firsttime st) = mret a ∧
    UUID st = Some u ∧ nrslices st = Some s ∧ nrvolumes st = Some v ∧
    lasttime st = Some lt ∧
    r = InfoTuple a u s v (firsttime st) lt (nrechoes st).
Proof.
  unfold finish. cbn [String.eqb Ascii.eqb Bool.eqb]. intros H.
  destruct (traces st) as [a0|]; [|done].
  inv_pure H as a Ha.
  inv_pure H as u Hu. apply read_var_Return_inv in Hu as [Hu _].
  inv_pure H as s Hs. apply read_var_Return_inv in Hs as [Hs _].
  inv_pure H as v Hv. apply read_var_Return_inv in Hv as [Hv _].
  inv_pure H as lt Hl. apply read_var_Return_inv in Hl as [Hl _].
  injection H as [= <- <-]. exists a0, a, u, s, v, lt. done.
Qed.

Lemma finish_channel_Return_inv logdatatype st r l :
  logdatatype ≠ "ACQUISITION_INFO" →
  finish logdatatype st = (Return r, l) →
  ∃ u, UUID st = Some u ∧ r = ChannelTuple (traces st) u.
Proof.
  unfold finish. intros Hk. destruct (String.eqb_spec logdatatype "ACQUISITION_INFO"); [done|].
  intros H. inv_pure H as u Hu. apply read_var_Return_inv in Hu as [Hu _].
  injection H as [= <- <-]. eauto.
Qed.

Lemma acquisition_row_frame nlines dataitems st st' l :
  acquisition_row nlines dataitems st = (Return st', l) →
  UUID st' = UUID st ∧ sampletime st' = sampletime st ∧
  nrslices st' = nrslices st ∧ firsttime st' = firsttime st ∧
  lasttime st' = lasttime st ∧ nrechoes st' = nrechoes st ∧
  is_Some (nrvolumes st) ∧ is_Some (nrslices st).
Proof.
  intros (st1 & l1 & a0 & a' & v & s & e & x & y & Hc & _ & Hh & _ & _ & _ & _ & _ & _ & _ & _ & ->)
    %acquisition_row_Return_inv.
  apply correct_nrvolumes_frame in Hc as (_ & ? & ? & ? & ? & ? & ? & ? & _).
  split_and!; try done.
  unfold header_unread in Hh. destruct (nrvolumes st), (nrslices st); done.
Qed.

(** ** Header keys of the INFO buffer *)

(** A header variable that is unbound stays unbound over a line that does
    not assign its key. *)
Lemma parse_line_info_unbound nlines es st line st' l :
  line ≠ "" →
  parse_line "ACQUISITION_INFO" nlines es st line = (Return st', l) →
  (assigns "UUID" line = false → UUID st = None → UUID st' = None) ∧
  (assigns "NumSlices" line = false → nrslices st = None → nrslices st' = None) ∧
  (assigns "NumVolumes" line = false → nrvolumes st = None → nrvolumes st' = None) ∧
  (assigns "LastTime" line = false → lasttime st = None → lasttime st' = None).
Proof.
  intros Hne H. unfold assigns.
  apply parse_line_Return_inv in H as
    [(varname & value & -> & _ & H)|[(di & _ & -> & H)|(-> & _ & -> & _)]]; [|..].
  - apply assign_Return_inv in H as (_ & _ & -> & _ & -> & -> & -> & _).
    split_and!; by intros ->.
  - cbn in H. apply acquisition_row_frame in H as (-> & _ & -> & _ & -> & _ & Hv & _).
    split_and!; try done. intros _ Hn. rewrite Hn in Hv. by destruct Hv.
  - done.
  - done.
Qed.

(** C5 (amended): an INFO buffer in which none of the lines assigns one of
    the keys UUID, NumSlices, NumVolumes or LastTime is never parsed to a
    result: [readparsefile] raises.  (FirstTime is not among them: it is a
    parameter of the function and keeps the caller's value.) *)
Theorem missing_header_key_aborts fn ft es key :
  key ∈ ["UUID"; "NumSlices"; "NumVolumes"; "LastTime"] →
  forallb (λ line, negb (assigns key line)) (Str.splitlines fn) = true →
  ∃ e l, readparsefile fn "ACQUISITION_INFO" ft es = (Raise e, l).
Proof.
  intros Hkey Habs.
  destruct (readparsefile fn "ACQUISITION_INFO" ft es) as [[r|e] l] eqn:Hr; [exfalso|eauto].
  apply readparsefile_Return_inv in Hr as (st & l' & Hp & Hf & _).
  apply finish_info_Return_inv in Hf as (a0 & a & u & s & v & lt & _ & _ & Hu & Hs & Hv & Hl & _).
  assert (∀ line, line ∈ Str.splitlines fn → assigns key line = false) as Habs'.
  { intros line Hin%list_elem_of_In. rewrite forallb_forall in Habs.
    by apply negb_true_iff, Habs. }
  clear Habs. rename Habs' into Habs.
  assert (∀ I : locals → Prop,
    (∀ s0 line s' l0, line ≠ "" → assigns key line = false → I s0 →
       parse_line "ACQUISITION_INFO" (Z.of_nat (length (Str.splitlines fn))) es s0 line
         = (Return s', l0) → I s') →
    I (initial ft) → I st) as Hinv.
  { intros I Hstep Hinit. eapply parse_lines_invariant; [|exact Hinit|exact Hp].
    intros s0 line s' l0 Hin Hne. by apply Hstep, Habs. }
  set_unfold in Hkey. destruct Hkey as [->|[->|[->|[->|[]]]]].
  - enough (UUID st = None) by congruence.
    apply (Hinv (λ s0, UUID s0 = None)); [|done].
    intros s0 line s' l0 Hne Hk HI Hstep.
    by eapply parse_line_info_unbound in Hstep as (Hx & _); [apply Hx|].
  - enough (nrslices st = None) by congruence.
    apply (Hinv (λ s0, nrslices s0 = None)); [|done].
    intros s0 line s' l0 Hne Hk HI Hstep.
    by eapply parse_line_info_unbound in Hstep as (_ & Hx & _); [apply Hx|].
  - enough (nrvolumes st = None) by congruence.
    apply (Hinv (λ s0, nrvolumes s0 = None)); [|done].
    intros s0 line s' l0 Hne Hk HI Hstep.
    by eapply parse_line_info_unbound in Hstep as (_ & _ & Hx & _); [apply Hx|].
  - enough (lasttime st = None) by congruence.
    apply (Hinv (λ s0, lasttime s0 = None)); [|done].
    intros s0 line s' l0 Hne Hk HI Hstep.
    by eapply parse_line_info_unbound in Hstep as (_ & _ & _ & Hx); [apply Hx|].
Qed.




Lemma missing_header_key_aborts_witness :
  "LastTime" ∈ ["UUID"; "NumSlices"; "NumVolumes"; "LastTime"] ∧
  forallb (λ line, negb (assigns "LastTime" line))
          (Str.splitlines Samples.info_no_lasttime) = true ∧
  ∃ e l, readparsefile Samples.info_no_lasttime "ACQUISITION_INFO" 0 0 = (Raise e, l).
Proof.
  assert ("LastTime" ∈ ["UUID"; "NumSlices"; "NumVolumes"; "LastTime"]) as Hk
    by (do 3 apply list_elem_of_further; apply list_elem_of_here).
  assert (forallb (λ line, negb (assigns "LastTime" line))
            (Str.splitlines Samples.info_no_lasttime) = true) as Ha
    by (vm_compute; reflexivity).
  split; [exact Hk|]. split; [exact Ha|].
  exact (missing_header_key_aborts Samples.info_no_lasttime 0 0 "LastTime" Hk Ha).
Defined.

(** C5 (counterexample): no line of this buffer assigns FirstTime, and it is
    parsed to a result whose first timestamp is the 0 that [readphysio]
    passes. *)
Lemma firsttime_absent_parses :
  forallb (λ line, negb (assigns "FirstTime" line))
          (Str.splitlines Samples.info_no_firsttime) = true ∧
  readparsefile Samples.info_no_firsttime "ACQUISITION_INFO" 0 0 =
    (Return (InfoTuple (np.SliceArray [[[(100, 105)]]; [[(106, 109)]]])
               "A" 1 (PyInt 2) 0 109 1),
     [(INFO, Parsing "ACQUISITION_INFO")]).
Proof. split; vm_compute; reflexivity. Qed.

(** ** Values of the acquisition map *)

Lemma wrap64_small z : - 2 ^ 63 ≤ z < 2 ^ 63 → np.wrap64 z = z.
Proof. intros H. unfold np.wrap64. rewrite Z.mod_small; lia. Qed.

Lemma int64_ok_spec z : np.int64_ok z = true ↔ - 2 ^ 63 ≤ z < 2 ^ 63.
Proof. unfold np.int64_ok. rewrite andb_true_iff, Z.leb_le, Z.ltb_lt. done. Qed.

Lemma cell_at_fmap (g : np.cell → np.cell) vols kv ks ke :
  cell_at (fmap (M := list) (fmap (M := list) (fmap (M := list) g)) vols) kv ks ke
  = g <$> cell_at vols kv ks ke.
Proof.
  unfold cell_at. rewrite list_lookup_fmap.
  destruct (vols !! kv) as [slcs|]; [|done]. cbn. rewrite list_lookup_fmap.
  destruct (slcs !! ks) as [ecos|]; [|done]. cbn. by rewrite list_lookup_fmap.
Qed.

Lemma parse_line_cells_from_rows lines nlines es st line st' l :
  line ∈ lines → line ≠ "" → cells_from_rows lines st →
  parse_line "ACQUISITION_INFO" nlines es st line = (Return st', l) →
  cells_from_rows lines st'.
Proof.
  intros Hin Hne HI H.
  apply parse_line_Return_inv in H as
    [(varname & value & _ & _ & H)|[(di & Hdi & _ & H)|(_ & _ & -> & _)]]; [|..|done|done].
  - apply assign_Return_inv in H as (_ & Htr & _).
    unfold cells_from_rows. by rewrite Htr.
  - cbn in H. apply acquisition_row_Return_inv in H as
      (st1 & l1 & a0 & a' & v & s & e & x & y & _ & _ & _ & Ha0 & _ & _ & Hx & Hy & _ & _ & Hset & ->).
    apply set_cell_Return_inv in Hset as
      (_ & _ & _ & vols & jv & js & je & slcs & ecos & -> & Hv & Hs & _ & _ & _ & _ & ->).
    intros vols' kv ks ke c [= <-] Hc.
    apply (cell_at_insert _ _ _ _ _ _ _ _ _ _ _ Hv Hs) in Hc as [->|Hc].
    + right. exists line. split; [done|]. unfold row_times. rewrite Hdi. cbn.
      rewrite Hx. cbn. by rewrite Hy.
    + destruct Ha0 as [Ha0|(_ & nv & ns & ne & [= ->])].
      * by eapply HI.
      * left. by eapply cell_at_zeros.
Qed.

(** C4 (amended): in the map returned for an accepted INFO buffer, every
    cell holds either (0 - FirstTime, 0 - FirstTime), as every cell that
    no row wrote does, or (start - FirstTime, finish - FirstTime) for the
    start and finish columns of a data row of the buffer, in 64-bit
    arithmetic.  Nothing compares the columns with each other or with the
    header: such a cell lies in [0, LastTime - FirstTime] with
    finish >= start when its row has FirstTime <= start <= finish <=
    LastTime (and LastTime - FirstTime fits 64 bits). *)
Theorem acquisition_map_cells fn ft es a u s v f lt e l cv cs ce x y :
  readparsefile fn "ACQUISITION_INFO" ft es = (Return (InfoTuple a u s v f lt e), l) →
  np.get_cell a cv cs ce = mret (x, y) →
  (x = np.wrap64 (0 - f) ∧ y = np.wrap64 (0 - f)) ∨
  ∃ line start finish,
    line ∈ Str.splitlines fn ∧ row_times line = Some (start, finish) ∧
    x = np.wrap64 (start - f) ∧ y = np.wrap64 (finish - f) ∧
    (f ≤ start → start ≤ finish → finish ≤ lt → lt - f < 2 ^ 63 →
     x = start - f ∧ y = finish - f ∧ 0 ≤ x ∧ x ≤ y ∧ y ≤ lt - f).
Proof.
  intros Hr Hget.
  apply readparsefile_Return_inv in Hr as (st & l' & Hp & Hf & _).
  apply finish_info_Return_inv in Hf as (a0 & a1 & u' & s' & v' & lt' & Ha0 & Hsub & _ & _ & _ & _ & Heq).
  injection Heq as [= -> _ _ _ -> _ _].
  assert (cells_from_rows (Str.splitlines fn) st) as HI.
  { eapply parse_lines_invariant; [|by intros ????? [=]|exact Hp].
    intros s0 line s1 l0 ???. by eapply parse_line_cells_from_rows. }
  unfold np.sub_scalar in Hsub.
  inv_pure Hsub as f' Hf. apply to_int64_Return_inv in Hf as (-> & _ & Hf).
  destruct a0 as [vols|]; injection Hsub as [= <-]; [|done].
  apply get_cell_Return_inv in Hget as (_ & kv & ks & ke & Hc).
  rewrite cell_at_fmap in Hc.
  destruct (cell_at vols kv ks ke) as [[c1 c2]|] eqn:Hc0; [|done].
  injection Hc as [= <- <-]. cbn [fst snd].
  destruct (HI _ _ _ _ _ Ha0 Hc0) as [[= -> ->]|(line & Hin & Hrow)]; [by left|right].
  exists line, c1, c2. split_and!; try done.
  intros ? ? ? ?. rewrite !wrap64_small by lia. lia.
Qed.

Lemma acquisition_map_cells_witness :
  readparsefile Samples.info_plain "ACQUISITION_INFO" 0 0 =
    (Return (InfoTuple (np.SliceArray [[[(0, 4)]]; [[(5, 9)]]]) "A" 1 (PyInt 2) 100 109 1),
     [(INFO, Parsing "ACQUISITION_INFO")]) ∧
  np.get_cell (np.SliceArray [[[(0, 4)]]; [[(5, 9)]]]) 1 0 0 = mret (5, 9) ∧
  ((5 = np.wrap64 (0 - 100) ∧ 9 = np.wrap64 (0 - 100)) ∨
   ∃ line start finish,
     line ∈ Str.splitlines Samples.info_plain ∧ row_times line = Some (start, finish) ∧
     5 = np.wrap64 (start - 100) ∧ 9 = np.wrap64 (finish - 100) ∧
     (100 ≤ start → start ≤ finish → finish ≤ 109 → 109 - 100 < 2 ^ 63 →
      5 = start - 100 ∧ 9 = finish - 100 ∧ 0 ≤ 5 ∧ 5 ≤ 9 ∧ 9 ≤ 109 - 100)).
Proof.
  assert (readparsefile Samples.info_plain "ACQUISITION_INFO" 0 0 =
    (Return (InfoTuple (np.SliceArray [[[(0, 4)]]; [[(5, 9)]]]) "A" 1 (PyInt 2) 100 109 1),
     [(INFO, Parsing "ACQUISITION_INFO")])) as Hr by (vm_compute; reflexivity).
  assert (np.get_cell (np.SliceArray [[[(0, 4)]]; [[(5, 9)]]]) 1 0 0 = mret (5, 9))
    as Hg by (vm_compute; reflexivity).
  exact (conj Hr (conj Hg (acquisition_map_cells _ _ _ _ _ _ _ _ _ _ _ _ _ _ _ _ Hr Hg))).
Defined.

(** C4 (counterexample): this buffer is accepted; the cell of the volume
    that no row wrote holds -100, outside [0, 109 - 100], and the cell
    written by the row with start 105 and finish 100 holds a finish
    below its start. *)
Lemma acquisition_map_unchecked :
  ∃ a l,
    readparsefile Samples.info_unchecked "ACQUISITION_INFO" 0 0 =
      (Return (InfoTuple a "A" 1 (PyInt 2) 100 109 1), l) ∧
    np.get_cell a 1 0 0 = mret (-100, -100) ∧ ¬ (0 ≤ -100 ≤ 109 - 100) ∧
    row_times "0 0 105 100 0" = Some (105, 100) ∧
    np.get_cell a 0 0 0 = mret (5, 0) ∧ ¬ (0 ≥ 5).
Proof.
  eexists _, _. split; [vm_compute; reflexivity|].
  split_and!; try (vm_compute; reflexivity); lia.
Qed.

(** ** Assignment lines *)

(** C6 (amended): a line whose cleaned text has exactly one '=', between a
    key part [k] and a value part [v], produces the one assignment event
    (k stripped, v stripped) and is no data row; the text is split at every
    '=', so a line with a further '=' is not an event at all: unpacking the
    three or more parts raises [ValueError] and the parse aborts. *)
Theorem assignment_needs_exactly_one_equals_sign k v :
  Str.contains "=" k = false → Str.contains "=" v = false →
  ∀ logdatatype nlines es st line,
    (clean line = k +:+ String "=" v →
       parse_line logdatatype nlines es st line =
         assign logdatatype (Str.strip k) (Str.strip v) st) ∧
    (Str.is_empty line = false → clean line = k +:+ String "=" v →
       assignment_of line = Some (Str.strip k, Str.strip v) ∧ data_row line = None) ∧
    (∀ w, clean line = k +:+ String "=" (v +:+ String "=" w) →
       parse_line logdatatype nlines es st line = throw ValueError).
Proof.
  intros Hk Hv logdatatype nlines es st line. split_and!.
  - intros Hc. unfold parse_line. rewrite Hc, contains_app. cbn [Str.contains].
    rewrite Ascii.eqb_refl, orb_true_r. cbn match. unfold assignment.
    by rewrite split_assignment_one, mret_bind.
  - intros Hne Hc. unfold assignment_of, data_row.
    rewrite Hne, Hc, contains_app. cbn [Str.contains].
    rewrite Ascii.eqb_refl, orb_true_r. cbn match.
    by rewrite (split_at_first _ _ _ Hk), (split_without _ _ Hv).
  - intros w Hc. unfold parse_line. rewrite Hc, contains_app. cbn [Str.contains].
    rewrite Ascii.eqb_refl, orb_true_r. cbn match. unfold assignment.
    by rewrite split_assignment_more.
Qed.

Lemma assignment_needs_exactly_one_equals_sign_witness :
  Str.contains "=" "SampleTime " = false ∧ Str.contains "=" " 8" = false ∧
  parse_line "ECG" 9 18 (initial 100) "SampleTime = 8  # ticks" =
    assign "ECG" "SampleTime" "8" (initial 100).
Proof.
  assert (Str.contains "=" "SampleTime " = false) as Hk by reflexivity.
  assert (Str.contains "=" " 8" = false) as Hv by reflexivity.
  split; [exact Hk|]. split; [exact Hv|].
  exact (proj1 (assignment_needs_exactly_one_equals_sign "SampleTime " " 8" Hk Hv
                  "ECG" 9 18 (initial 100) "SampleTime = 8  # ticks") eq_refl).
Defined.

(** C6 (counterexample): a line whose value part contains a further '=' is
    no assignment event: the parse of the line raises [ValueError]. *)
Lemma further_equals_sign_aborts :
  Str.contains "=" (clean "UUID = a=b") = true ∧
  assignment_of "UUID = a=b" = None ∧
  parse_line "ECG" 9 18 (initial 100) "UUID = a=b" = (Raise ValueError, []).
Proof. split_and!; vm_compute; reflexivity. Qed.

(** ** The echo column *)

(** No data row has an empty fifth field: a row that lacks the echo
    column is padded with the text [0], so it takes the branch of the
    explicit echo index. *)
Lemma echo_field_never_empty line dataitems :
  data_row line = Some dataitems → Str.is_empty (item dataitems 4) = false.
Proof.
  unfold data_row. destruct (Str.is_empty line); [done|]. cbn zeta.
  destruct (Str.contains _ _); [done|]. destruct (Str.isdigit _); [|done].
  intros [= <-]. apply item_pad5_nonempty. lia.
Qed.

(** Were the fifth field empty, the row would not be accepted either: the
    two-entry array is no condition. *)
Lemma empty_echo_branch_raises nlines dataitems st st' l :
  Str.is_empty (item dataitems 4) = true →
  acquisition_row nlines dataitems st ≠ (Return st', l).
Proof.
  intros He (st1 & l1 & a0 & a' & v & s & e & x & y & _ & _ & _ & _ & _ & _ & _ & _ & Hi & _)
    %acquisition_row_Return_inv.
  destruct (item dataitems 4); [done|]. done.
Qed.

(** C2 (the code at the failing input): two rows for volume 0, slice 0,
    neither with an echo column.  The second row is refused with the hard
    duplicate error; no warning is logged and no map is returned. *)
Theorem absent_echo_rewrite_is_refused :
  readparsefile Samples.info_echo_column_absent "ACQUISITION_INFO" 0 0 =
    (Raise RuntimeError,
     [(INFO, Parsing "ACQUISITION_INFO"); (ERROR, DuplicateTiming 0 0 0)]).
Proof. vm_compute. reflexivity. Qed.

(** C8 (the code at the failing input): NumVolumes = 1 triggers the legacy
    correction, which leaves a float in [nrvolumes]; allocating the slice
    map with it is a [TypeError], so nothing is assembled. *)
Theorem single_volume_read_aborts :
  readphysio (Sources Samples.info_single None None (Some Samples.puls_one_sample) None) =
    (Raise TypeError,
     [(INFO, Parsing "ACQUISITION_INFO");
      (WARNING, NumVolumesCorrected (PyFloat 1 1))]).
Proof. vm_compute. reflexivity. Qed.

(** ** Duplicate rows *)

Lemma at_axis_Return {A} (l : list A) i k x :
  np.index i (length l) = mret k → l !! k = Some x →
  np.at_axis l i = mret (k, x).
Proof. intros Hi Hl. unfold np.at_axis. by rewrite Hi, mret_bind, Hl. Qed.

(** A cell that can be read can be written, and then holds what was
    written. *)
Lemma set_cell_after_get a v s e c x y :
  np.get_cell a v s e = mret c →
  np.int64_ok x = true → np.int64_ok y = true →
  ∃ a', np.set_cell a v s e x y = mret a' ∧ np.get_cell a' v s e = mret (x, y).
Proof.
  destruct a as [vols|]; [|done]. cbn [np.get_cell np.set_cell]. intros H Hx Hy.
  inv_pure H as [jv slcs] Hv. apply at_axis_Return_inv in Hv as (_ & Hv & Hiv).
  inv_pure H as [js ecos] Hs. apply at_axis_Return_inv in Hs as (_ & Hs & His).
  inv_pure H as [je c'] He. apply at_axis_Return_inv in He as (_ & He & Hie).
  rewrite (at_axis_Return _ _ _ _ Hiv Hv), mret_bind.
  rewrite (at_axis_Return _ _ _ _ His Hs), mret_bind.
  rewrite (at_axis_Return _ _ _ _ Hie He), mret_bind.
  rewrite (to_int64_ok _ Hx), mret_bind, (to_int64_ok _ Hy), mret_bind.
  eexists. split; [done|]. cbn [np.get_cell].
  pose proof (lookup_lt_Some _ _ _ Hv). pose proof (lookup_lt_Some _ _ _ Hs).
  pose proof (lookup_lt_Some _ _ _ He).
  rewrite (at_axis_Return _ v jv (<[js:=<[je:=(x, y)]> ecos]> slcs)), mret_bind.
  2:{ by rewrite length_insert. } 2:{ by rewrite list_lookup_insert_eq. }
  rewrite (at_axis_Return _ s js (<[je:=(x, y)]> ecos)), mret_bind.
  2:{ by rewrite length_insert. } 2:{ by rewrite list_lookup_insert_eq. }
  rewrite (at_axis_Return _ e je (x, y)), mret_bind.
  2:{ by rewrite length_insert. } 2:{ by rewrite list_lookup_insert_eq. }
  done.
Qed.

Lemma correct_nrvolumes_skip nlines st v :
  header_unread st = false → nrvolumes st = Some v → num_eqb v 1 = false →
  correct_nrvolumes nlines st = mret st.
Proof.
  unfold header_unread, correct_nrvolumes. intros Hh Hv Hne. rewrite Hv in *.
  destruct (nrslices st); [|done]. cbn. by rewrite Hne.
Qed.

Lemma allocate_slicemap_skip st a :
  traces st = Some a → allocate_slicemap st = mret st.
Proof. unfold allocate_slicemap. by intros ->. Qed.

Lemma read_var_Some {A} (x : option A) a : x = Some a → read_var x = mret a.
Proof. by intros ->. Qed.

(** C10: for a row with an explicit echo index that reaches the
    duplicate test, the test is whether the cell holds a nonzero entry.
    A cell that an earlier row wrote as (0, 0) passes it: the row is
    accepted without any log record and the cell is overwritten; a cell
    with a nonzero entry is the hard duplicate error. *)
Theorem duplicate_test_is_nonzero_test nlines dataitems st a nv v s e start fin x y :
  header_unread st = false → nrvolumes st = Some nv → num_eqb nv 1 = false →
  traces st = Some a →
  Str.int (item dataitems 0) = Some v → Str.int (item dataitems 1) = Some s →
  Str.int (item dataitems 2) = Some start → Str.int (item dataitems 3) = Some fin →
  Str.is_empty (item dataitems 4) = false → Str.int (item dataitems 4) = Some e →
  np.get_cell a v s e = mret (x, y) →
  np.int64_ok start = true → np.int64_ok fin = true →
  (x = 0 ∧ y = 0 →
     ∃ a', acquisition_row nlines dataitems st = mret (set_traces a' st) ∧
           np.get_cell a' v s e = mret (start, fin)) ∧
  (¬ (x = 0 ∧ y = 0) →
     acquisition_row nlines dataitems st = hard_error (DuplicateTiming v s e)).
Proof.
  intros Hh Hnv Hne Ha H0 H1 H2 H3 He H4 Hg Hx Hy.
  assert (
    acquisition_row nlines dataitems st =
    (_ ← when (negb (x =? 0) || negb (y =? 0)) (hard_error (DuplicateTiming v s e));
     a' ← np.set_cell a v s e start fin; mret (set_traces a' st))) as Hrow.
  { unfold acquisition_row. rewrite Hh. cbn [when]. rewrite mret_bind.
    rewrite (correct_nrvolumes_skip _ _ _ Hh Hnv Hne), mret_bind.
    rewrite (allocate_slicemap_skip _ _ Ha), mret_bind.
    rewrite (read_var_Some _ _ Ha), mret_bind.
    rewrite (py_int_Some _ _ H0), mret_bind, (py_int_Some _ _ H1), mret_bind.
    rewrite (py_int_Some _ _ H2), mret_bind, (py_int_Some _ _ H3), mret_bind.
    rewrite He. cbn [negb]. rewrite !bind_assoc.
    rewrite (py_int_Some _ _ H4), mret_bind. rewrite Hg, mret_bind. cbn [fst snd].
    rewrite bind_assoc. apply bind_ext. intros []. by rewrite mret_bind. }
  split.
  - intros [-> ->]. destruct (set_cell_after_get _ _ _ _ _ _ _ Hg Hx Hy) as (a' & Hs & Hg').
    exists a'. split; [|done]. rewrite Hrow. cbn [Z.eqb negb orb when].
    by rewrite mret_bind, Hs, mret_bind.
  - intros Hnz. rewrite Hrow.
    replace (negb (x =? 0) || negb (y =? 0)) with true; [done|].
    symmetry. apply orb_true_iff. rewrite !negb_true_iff, !Z.eqb_neq. lia.
Qed.

Lemma duplicate_test_is_nonzero_test_witness :
  np.get_cell (np.SliceArray [[[(0, 0)]]; [[(0, 0)]]]) 0 0 0 = mret (0, 0) ∧
  ∃ a', acquisition_row 10 (pad5 (Str.words "0 0 100 105 0")) Samples.after_zero_row
          = mret (set_traces a' Samples.after_zero_row) ∧
        np.get_cell a' 0 0 0 = mret (100, 105).
Proof.
  split; [vm_compute; reflexivity|].
  refine (proj1 (duplicate_test_is_nonzero_test 10 (pad5 (Str.words "0 0 100 105 0"))
            Samples.after_zero_row (np.SliceArray [[[(0, 0)]]; [[(0, 0)]]]) (PyInt 2)
            0 0 0 100 105 0 0 _ _ _ _ _ _ _ _ _ _ _ _ _) (conj eq_refl eq_refl));
    vm_compute; reflexivity.
Defined.

Example after_zero_row_reached :
  parse_lines "ACQUISITION_INFO" 10 0 0 (take 9 (Str.splitlines Samples.info_zero_row)) =
    (Return Samples.after_zero_row, []).
Proof. vm_compute. reflexivity. Qed.

(** The same on a whole buffer: the row of zeros leaves the cell looking
    unwritten, and the second row for the cell is stored without a log
    record. *)
Example zero_row_then_rewrite :
  readparsefile Samples.info_zero_row "ACQUISITION_INFO" 0 0 =
    (Return (InfoTuple (np.SliceArray [[[(100, 105)]]; [[(0, 0)]]])
               "A" 1 (PyInt 2) 0 109 1),
     [(INFO, Parsing "ACQUISITION_INFO")]).
Proof. vm_compute. reflexivity. Qed.

(** ** The legacy correction of the volume count *)

Example after_redeclaration_reached :
  parse_lines "ACQUISITION_INFO" 13 0 0 (take 11 (Str.splitlines Samples.info_redeclared)) =
    (Return Samples.after_redeclaration,
     [(WARNING, NumVolumesCorrected (PyFloat 2 2))]).
Proof. vm_compute. reflexivity. Qed.

Lemma header_read_of_count st v s :
  nrvolumes st = Some v → num_eqb v 1 = true → nrslices st = Some s →
  1 ≤ s → 1 ≤ nrechoes st → header_unread st = false.
Proof.
  intros Hv Heq Hs ? ?. unfold header_unread. rewrite Hv, Hs.
  rewrite (num_eqb_not_ltb _ Heq). cbn.
  apply orb_false_iff. split; apply Z.ltb_ge; lia.
Qed.

(** C3 (amended): whenever a data row is reached while the volume
    count compares equal to 1 (with slice and echo counts of at least 1),
    the first thing the row does is to emit the warning and to replace the
    count by the quotient of (line count - 11) and (slices * echoes);
    whatever the row does next, the count it leaves is that quotient.
    There is no latch: this holds at every such row, also when the
    count is a quotient that an earlier row computed. *)
Theorem legacy_correction_at_every_row nlines dataitems st v s :
  nrvolumes st = Some v → num_eqb v 1 = true → nrslices st = Some s →
  1 ≤ s → 1 ≤ nrechoes st →
  ∃ r l,
    acquisition_row nlines dataitems st =
      (r, (WARNING, NumVolumesCorrected (PyFloat (nlines - 11) (s * nrechoes st))) :: l) ∧
    ∀ st', r = Return st' →
      nrvolumes st' = Some (PyFloat (nlines - 11) (s * nrechoes st)).
Proof.
  intros Hv Heq Hs Hs1 He1.
  pose proof (header_read_of_count _ _ _ Hv Heq Hs Hs1 He1) as Hh.
  assert (correct_nrvolumes nlines st =
    (Return (set_nrvolumes (PyFloat (nlines - 11) (s * nrechoes st)) st),
     [(WARNING, NumVolumesCorrected (PyFloat (nlines - 11) (s * nrechoes st)))])) as Hc.
  { unfold correct_nrvolumes. rewrite Hv, Hs. cbn [read_var]. rewrite !mret_bind, Heq.
    unfold truediv. destruct (Z.eqb_spec (s * nrechoes st) 0); [nia|]. done. }
  destruct (acquisition_row nlines dataitems st) as [r l0] eqn:Hrow.
  assert (∃ l, l0 = (WARNING, NumVolumesCorrected (PyFloat (nlines - 11) (s * nrechoes st))) :: l)
    as [l ->].
  { unfold acquisition_row in Hrow. rewrite Hh in Hrow. cbn [when] in Hrow.
    rewrite mret_bind in Hrow. rewrite (bind_step _ _ _ _ Hc) in Hrow.
    injection Hrow as [= _ <-]. eauto. }
  exists r, l. split; [done|]. intros st' ->.
  apply acquisition_row_Return_inv in Hrow as
    (st1 & l1 & a0 & a' & ? & ? & ? & ? & ? & Hc' & _ & _ & _ & _ & _ & _ & _ & _ & _ & _ & ->).
  rewrite Hc in Hc'. by injection Hc' as [= <- _].
Qed.

Lemma legacy_correction_at_every_row_witness :
  num_eqb (PyFloat 2 2) 1 = true ∧
  ∃ r l,
    acquisition_row 13 (pad5 (Str.words "1 0 104 105 0")) Samples.after_redeclaration =
      (r, (WARNING, NumVolumesCorrected (PyFloat (13 - 11) (2 * 1))) :: l) ∧
    ∀ st', r = Return st' → nrvolumes st' = Some (PyFloat (13 - 11) (2 * 1)).
Proof.
  split; [reflexivity|].
  refine (legacy_correction_at_every_row 13 (pad5 (Str.words "1 0 104 105 0"))
            Samples.after_redeclaration (PyFloat 2 2) 2 _ _ _ _ _);
    vm_compute; first [reflexivity | discriminate].
Defined.

(** C3 (counterexample): in this buffer the correction fires three times,
    once at each of the three data rows that follow the declaration
    NumVolumes = 1: the corrected count is 2/2, which compares equal
    to 1 again. *)
Lemma correction_fires_again :
  ∃ a l,
    readparsefile Samples.info_redeclared "ACQUISITION_INFO" 0 0 =
      (Return (InfoTuple a "A" 2 (PyFloat 2 2) 100 109 1), l) ∧
    corrections l = 3%nat.
Proof. eexists _, _. split; vm_compute; reflexivity. Qed.

(** The legacy buffer of the specification (NumVolumes = 1, four slices,
    fifteen lines): the correction fires at the first data row, and the
    allocation of the map with the float count aborts the parse. *)
Example legacy_buffer_aborts :
  readparsefile Samples.info_legacy "ACQUISITION_INFO" 0 0 =
    (Raise TypeError,
     [(INFO, Parsing "ACQUISITION_INFO");
      (WARNING, NumVolumesCorrected (PyFloat 4 4))]).
Proof. vm_compute. reflexivity. Qed.

(** ** Reconstruction of a channel from a single row *)

Lemma foldM_app_Return_inv {X S} (f : S → X → M S) s l1 l2 s' l :
  foldM f s (l1 ++ l2) = (Return s', l) →
  ∃ s1 la lb, foldM f s l1 = (Return s1, la) ∧ foldM f s1 l2 = (Return s', lb) ∧
              l = la ++ lb.
Proof.
  rewrite foldM_app. intros (s1 & la & lb & ? & ? & ?)%bind_Return_inv. eauto 10.
Qed.

Lemma foldM_cons_Return_inv {X S} (f : S → X → M S) s x xs s' l :
  foldM f s (x :: xs) = (Return s', l) →
  ∃ s1 la lb, f s x = (Return s1, la) ∧ foldM f s1 xs = (Return s', lb) ∧
              l = la ++ lb.
Proof. cbn [foldM]. intros (s1 & la & lb & ? & ? & ?)%bind_Return_inv. eauto 10. Qed.

(** Over a line of a channel buffer that is no data row, the array and the
    first timestamp stay as they are, and the hold time changes only to
    what the line assigns to SampleTime. *)
Lemma parse_line_channel_header logdatatype nlines es st line st' l k :
  logdatatype ≠ "ACQUISITION_INFO" → line ≠ "" →
  no_data_row line = true → sampletime_agrees k line = true →
  parse_line logdatatype nlines es st line = (Return st', l) →
  traces st' = traces st ∧ firsttime st' = firsttime st ∧
  (sampletime st' = sampletime st ∨ sampletime st' = Some k).
Proof.
  intros Hk Hne Hnd Hag H. unfold no_data_row, sampletime_agrees in *.
  apply parse_line_Return_inv in H as
    [(varname & value & Has & _ & H)|[(di & Hdi & _ & _)|(_ & _ & -> & _)]].
  - rewrite Has in Hag.
    apply assign_Return_inv in H as (_ & -> & _ & -> & _ & _ & _ & -> & _ & _ & Hft).
    split; [done|]. split.
    + destruct (String.eqb varname "FirstTime"); [|done]. by destruct Hk, Hft.
    + destruct (String.eqb varname "SampleTime"); [|by left].
      destruct (Str.int value) as [z|]; [|done]. apply Z.eqb_eq in Hag as ->. by right.
  - by rewrite Hdi in Hnd.
  - auto.
  - done.
Qed.

Lemma slice_inside start k n :
  0 ≤ start → 0 ≤ k → start + k ≤ Z.of_nat n →
  np.slice start (start + k) n = (Z.to_nat start, Z.to_nat k).
Proof.
  intros. unfold np.slice, np.slice_bound.
  destruct (Z.ltb_spec start 0); [lia|]. destruct (Z.ltb_spec (start + k) 0); [lia|].
  f_equal; lia.
Qed.

Lemma lookup_fill {A} lo len (x : A) l j :
  (lo + len ≤ length l)%nat → (j < length l)%nat →
  np.fill lo len x l !! j =
    if (Nat.leb lo j && Nat.ltb j (lo + len))%nat then Some x else l !! j.
Proof.
  intros Hlen Hj. unfold np.fill.
  destruct (Nat.leb_spec lo j); [destruct (Nat.ltb_spec j (lo + len))|]; cbn [andb].
  - rewrite list_lookup_inserts by (rewrite ?length_replicate; lia).
    apply lookup_replicate_2. lia.
  - apply list_lookup_inserts_ge. rewrite length_replicate. lia.
  - apply list_lookup_inserts_lt. lia.
Qed.

(** C7: a channel buffer that parses, whose only data row is
    (t, token, value) and whose SampleTime assignments all give k, with
    t >= FirstTime and (t - FirstTime) + k <= expectedsamples: the token
    selects a lane, and the array returned holds [value] on that lane at
    the k ticks from t - FirstTime on, and 0 at every other tick of every
    lane. *)
Theorem single_row_reconstruction fn logdatatype ft es pre row post
    dataitems t value k X u l :
  logdatatype ≠ "ACQUISITION_INFO" →
  Str.splitlines fn = pre ++ row :: post →
  forallb no_data_row (pre ++ post) = true →
  forallb (sampletime_agrees k) (Str.splitlines fn) = true →
  data_row row = Some dataitems →
  Str.int (item dataitems 0) = Some t →
  Str.int (item dataitems 2) = Some value →
  ft ≤ t → (t - ft) + k ≤ es →
  readparsefile fn logdatatype ft es = (Return (ChannelTuple X u), l) →
  ∃ a chaidx,
    X = Some a ∧ lane_index logdatatype (item dataitems 1) = Some chaidx ∧
    0 ≤ k ∧
    ∀ lane tick, (lane < lane_count logdatatype)%nat → 0 ≤ tick < es →
      sample a lane tick =
        Some (if Nat.eqb lane chaidx && (t - ft <=? tick) && (tick <? t - ft + k)
              then value else 0).
Proof.
  intros Hk Hlines Hnd Hag Hrow Ht Hval Hft Hes Hr.
  apply readparsefile_Return_inv in Hr as (st & l' & Hp & Hf & _).
  apply finish_channel_Return_inv in Hf as (u' & _ & [= -> _]); [|done].
  unfold parse_lines in Hp. rewrite Hlines in Hp, Hag.
  rewrite List.filter_app in Hp. cbn [List.filter] in Hp.
  assert (row ≠ "") as Hrne by (intros ->; done).
  replace (Str.is_empty row) with false in Hp by (by destruct row). cbn [negb] in Hp.
  apply foldM_app_Return_inv in Hp as (st1 & la & lb & Hpre & Hp & _).
  apply foldM_cons_Return_inv in Hp as (st2 & lc & ld & Hstep & Hpost & _).
  rewrite forallb_app in Hnd, Hag. cbn [forallb] in Hag.
  apply andb_prop in Hnd as [Hnd1 Hnd2].
  apply andb_prop in Hag as [Hag1 [_ Hag2]%andb_prop].
  (* the lines before the row *)
  assert (traces st1 = None ∧ firsttime st1 = ft ∧
          (sampletime st1 = None ∨ sampletime st1 = Some k)) as (Htr1 & Hft1 & Hst1).
  { revert Hpre.
    apply (foldM_invariant _
      (λ s, traces s = None ∧ firsttime s = ft ∧
            (sampletime s = None ∨ sampletime s = Some k))
      (λ line, line ≠ "" ∧ no_data_row line = true ∧ sampletime_agrees k line = true)).
    - intros s0 line s1 l0 (? & ? & ?) (Ha & Hb & Hc) Hs.
      eapply parse_line_channel_header in Hs as (-> & -> & Hs); [|done..].
      split_and!; [done..|]. destruct Hs as [-> | ->]; auto.
    - apply Forall_forall. intros line [Hin Hne]%list_elem_of_In%List.filter_In.
      rewrite forallb_forall in Hnd1, Hag1.
      split_and!; [by destruct line|by apply Hnd1|by apply Hag1].
    - cbn. auto. }
  (* the row *)
  apply parse_line_Return_inv in Hstep as
    [(? & ? & _ & Hdr & _)|[(di & Hdi & _ & Hstep)|(_ & Hdr & _)]];
    [congruence| |congruence|done].
  rewrite Hrow in Hdi. injection Hdi as [= <-].
  destruct (String.eqb_spec logdatatype "ACQUISITION_INFO"); [done|].
  apply channel_row_Return_inv in Hstep as
    (_ & t' & value' & k' & chaidx & st1' & a0 & a' & Ht' & Hval' & Hidx & Hal & Hk' & Ha0 & Hset & ->).
  rewrite Ht in Ht'. injection Ht' as [= <-].
  rewrite Hval in Hval'. injection Hval' as [= <-].
  assert (k' = k) as -> by (destruct Hst1; congruence).
  apply allocate_traces_Return_inv in Hal as (_ & [[[? Hx] _]|(_ & Hes0 & ->)]);
    [congruence|].
  cbn in Ha0. injection Ha0 as [= <-]. rewrite Hft1 in Hset.
  apply set_slice_Return_inv in Hset as
    (_ & Hk0 & _ & lanes & col & [= <-] & Hcol & _ & ->).
  apply lookup_replicate in Hcol as [-> Hlt].
  rewrite length_replicate, slice_inside in * by lia. cbn [fst snd] in *.
  (* the lines after the row *)
  assert (traces st = Some (np.TraceArray
            (<[chaidx := np.fill (Z.to_nat (t - ft)) (Z.to_nat k) value
                           (replicate (Z.to_nat es) 0)]>
               (replicate (lane_count logdatatype) (replicate (Z.to_nat es) 0)))))
    as Htr.
  { revert Hpost.
    apply (foldM_invariant _ (λ s, traces s = Some _)
      (λ line, line ≠ "" ∧ no_data_row line = true ∧ sampletime_agrees k line = true)).
    - intros s0 line s1 l0 (? & ? & ?) Ha Hs.
      eapply parse_line_channel_header in Hs as (-> & _); done.
    - apply Forall_forall. intros line [Hin Hne]%list_elem_of_In%List.filter_In.
      rewrite forallb_forall in Hnd2, Hag2.
      split_and!; [by destruct line|by apply Hnd2|by apply Hag2].
    - done. }
  eexists _, chaidx. split; [exact Htr|]. split; [done|]. split; [done|].
  intros lane tick Hlane Htick. unfold sample.
  destruct (Z.ltb_spec tick 0); [lia|].
  destruct (Nat.eqb_spec lane chaidx) as [->|Hne]; cbn [andb].
  - rewrite list_lookup_insert_eq by (by rewrite length_replicate). cbn.
    rewrite lookup_fill by (rewrite length_replicate; lia).
    rewrite lookup_replicate_2 by lia.
    destruct (Z.leb_spec (t - ft) tick), (Z.ltb_spec tick (t - ft + k)),
      (Nat.leb_spec (Z.to_nat (t - ft)) (Z.to_nat tick)),
      (Nat.ltb_spec (Z.to_nat tick) (Z.to_nat (t - ft) + Z.to_nat k)); cbn; done || lia.
  - rewrite list_lookup_insert_ne by done.
    rewrite lookup_replicate_2 by done. cbn. by rewrite lookup_replicate_2 by lia.
Qed.

Lemma single_row_reconstruction_witness :
  readparsefile Samples.puls_one_sample "PULS" 100 18 =
    (Return (ChannelTuple
       (Some (np.TraceArray
          [[0; 0; 0; 1500; 1500; 0; 0; 0; 0; 0; 0; 0; 0; 0; 0; 0; 0; 0]])) "A"),
     [(INFO, Parsing "PULS")]) ∧
  ∃ a chaidx,
    Some (np.TraceArray
      [[0; 0; 0; 1500; 1500; 0; 0; 0; 0; 0; 0; 0; 0; 0; 0; 0; 0; 0]]) = Some a ∧
    lane_index "PULS" (item (pad5 (Str.words "103 PULS 1500")) 1) = Some chaidx ∧
    0 ≤ 2 ∧
    ∀ lane tick, (lane < lane_count "PULS")%nat → 0 ≤ tick < 18 →
      sample a lane tick =
        Some (if Nat.eqb lane chaidx && (103 - 100 <=? tick) && (tick <? 103 - 100 + 2)
              then 1500 else 0).
Proof.
  assert (readparsefile Samples.puls_one_sample "PULS" 100 18 =
    (Return (ChannelTuple
       (Some (np.TraceArray
          [[0; 0; 0; 1500; 1500; 0; 0; 0; 0; 0; 0; 0; 0; 0; 0; 0; 0; 0]])) "A"),
     [(INFO, Parsing "PULS")])) as Hr by (vm_compute; reflexivity).
  split; [exact Hr|].
  refine (single_row_reconstruction Samples.puls_one_sample "PULS" 100 18
            (take 5 (Str.splitlines Samples.puls_one_sample)) "103 PULS 1500" []
            (pad5 (Str.words "103 PULS 1500")) 103 1500 2 _ "A" _
            _ _ _ _ _ _ _ _ _ Hr);
    first [discriminate | lia | vm_compute; reflexivity].
Defined.

(** ** The assembler *)

Lemma read_channel_Return_inv fn logdatatype UUID1 ft es X l :
  read_channel fn logdatatype UUID1 ft es = (Return X, l) →
  (fn = None ∧ X = None ∧ l = []) ∨
  (∃ buf tr, fn = Some buf ∧ X = Some tr ∧
     readparsefile buf logdatatype ft es = (Return (ChannelTuple tr UUID1), l)).
Proof.
  unfold read_channel. destruct fn as [buf|]; [|intros [= <- <-]; by left].
  intros H. right. inv_bind H as r Hr. destruct r as [|tr UUID2]; [done|].
  destruct (String.eqb_spec UUID1 UUID2) as [<-|]; [|done]. cbn [negb] in H.
  injection H as [= <- <-]. exists buf, tr. by rewrite app_nil_r.
Qed.

(** The UUID test of a channel that was found. *)
Lemma read_channel_mismatch buf logdatatype UUID1 ft es X UUID2 l :
  readparsefile buf logdatatype ft es = (Return (ChannelTuple X UUID2), l) →
  UUID2 ≠ UUID1 →
  read_channel (Some buf) logdatatype UUID1 ft es =
    (Raise RuntimeError, l ++ [(ERROR, UUIDMismatch logdatatype)]).
Proof.
  intros Hr Hne. unfold read_channel. rewrite (bind_step _ _ _ _ Hr). cbn [fst snd].
  destruct (String.eqb_spec UUID1 UUID2); [congruence|]. done.
Qed.

(** What a read that returns has gone through. *)
Lemma readphysio_Return_inv src physio l :
  readphysio src = (Return physio, l) →
  ∃ slicemap UUID1 ns nv ft lt ne l0 ECG l1 RESP l2 PULS l3 EXT l4 ACQ,
    readparsefile (fnINFO src) "ACQUISITION_INFO" 0 0 =
      (Return (InfoTuple slicemap UUID1 ns nv ft lt ne), l0) ∧
    ft < lt ∧
    read_channel (fnECG src) "ECG" UUID1 ft (lt - ft + 1 + 8) = (Return ECG, l1) ∧
    read_channel (fnRESP src) "RESP" UUID1 ft (lt - ft + 1 + 8) = (Return RESP, l2) ∧
    read_channel (fnPULS src) "PULS" UUID1 ft (lt - ft + 1 + 8) = (Return PULS, l3) ∧
    read_channel (fnEXT src) "EXT" UUID1 ft (lt - ft + 1 + 8) = (Return EXT, l4) ∧
    (∃ la, acquisition_mask slicemap nv ns ne (lt - ft + 1 + 8) = (Return ACQ, la)) ∧
    (∃ lb, assemble UUID1 slicemap ACQ ECG RESP PULS EXT = (Return physio, lb)).
Proof.
  unfold readphysio. intros H.
  inv_bind H as [] Hfound. inv_bind H as info Hinfo.
  destruct info as [slicemap UUID1 ns nv ft lt ne|]; [|done].
  inv_bind H as [] Htime.
  apply when_Return_inv in Htime as [[Htime%Z.leb_gt _]|[_ ?]]; [|done].
  inv_bind H as ECG HECG. inv_bind H as RESP HRESP.
  inv_bind H as PULS HPULS. inv_bind H as EXT HEXT.
  do 7 (inv_bind H as [] Hemit; clear Hemit).
  inv_bind H as ACQ HACQ.
  eexists slicemap, UUID1, ns, nv, ft, lt, ne, _, ECG, _, RESP, _, PULS, _, EXT, _, ACQ.
  split_and!; eauto.
Qed.

Lemma channel_buffer_cases src logdatatype :
  logdatatype ∈ ["ECG"; "RESP"; "PULS"; "EXT"] →
  (logdatatype = "ECG" ∧ channel_buffer src logdatatype = fnECG src) ∨
  (logdatatype = "RESP" ∧ channel_buffer src logdatatype = fnRESP src) ∨
  (logdatatype = "PULS" ∧ channel_buffer src logdatatype = fnPULS src) ∨
  (logdatatype = "EXT" ∧ channel_buffer src logdatatype = fnEXT src).
Proof.
  intros Hin. set_unfold in Hin. destruct Hin as [->|[->|[->|[->|[]]]]]; auto.
Qed.

(** C9: when a channel that was found parses to a UUID other than the
    INFO buffer's, its UUID test logs the mismatch and raises, and the read
    returns no result, whatever the other channels hold; the read itself
    ends with that mismatch error when the last timestamp exceeds the first
    and the channels read before this one pass their own tests. *)
Theorem uuid_mismatch_aborts src logdatatype buf slicemap UUID1 ns nv ft lt ne l0
    X UUID2 l1 :
  logdatatype ∈ ["ECG"; "RESP"; "PULS"; "EXT"] →
  channel_buffer src logdatatype = Some buf →
  readparsefile (fnINFO src) "ACQUISITION_INFO" 0 0 =
    (Return (InfoTuple slicemap UUID1 ns nv ft lt ne), l0) →
  readparsefile buf logdatatype ft (lt - ft + 1 + 8) = (Return (ChannelTuple X UUID2), l1) →
  UUID2 ≠ UUID1 →
  read_channel (Some buf) logdatatype UUID1 ft (lt - ft + 1 + 8) =
    (Raise RuntimeError, l1 ++ [(ERROR, UUIDMismatch logdatatype)]) ∧
  (∃ e l, readphysio src = (Raise e, l)) ∧
  (ft < lt →
   (∀ c, c ∈ channels_before logdatatype →
      ∃ Y l', read_channel (channel_buffer src c) c UUID1 ft (lt - ft + 1 + 8)
              = (Return Y, l')) →
   ∃ l, readphysio src = (Raise RuntimeError, l ++ [(ERROR, UUIDMismatch logdatatype)])).
Proof.
  intros Hin Hbuf Hinfo Hchan Hne.
  pose proof (read_channel_mismatch _ _ _ _ _ _ _ _ Hchan Hne) as Hmis.
  split; [done|]. split.
  - destruct (readphysio src) as [[physio|e] l] eqn:Hr; [exfalso|eauto].
    apply readphysio_Return_inv in Hr as
      (slicemap' & UUID1' & ns' & nv' & ft' & lt' & ne' & l0' & ECG & l1' & RESP & l2'
       & PULS & l3' & EXT & l4' & ACQ & Hinfo' & _ & HECG & HRESP & HPULS & HEXT & _).
    rewrite Hinfo in Hinfo'. injection Hinfo' as [= <- <- <- <- <- <- <- <-].
    destruct (channel_buffer_cases src _ Hin) as [[-> Hb]|[[-> Hb]|[[-> Hb]|[-> Hb]]]];
      rewrite Hbuf in Hb; rewrite <- Hb in *; congruence.
  - intros Hlt Hbefore.
    assert (fnECG src = None ∧ fnRESP src = None ∧ fnPULS src = None ∧ fnEXT src = None
            → False) as Hfound.
    { intros (? & ? & ? & ?).
      destruct (channel_buffer_cases src _ Hin) as [[-> Hb]|[[-> Hb]|[[-> Hb]|[-> Hb]]]];
        congruence. }
    unfold readphysio. rewrite bool_decide_eq_false_2 by done. cbn [when].
    rewrite mret_bind, (bind_step _ _ _ _ Hinfo). cbn [fst snd].
    replace (lt <=? ft) with false by (symmetry; apply Z.leb_gt; lia). cbn [when].
    rewrite mret_bind.
    destruct (channel_buffer_cases src _ Hin) as [[-> Hb]|[[-> Hb]|[[-> Hb]|[-> Hb]]]];
      rewrite Hbuf in Hb; rewrite <- Hb.
    + rewrite (bind_Raise _ _ _ _ Hmis). cbn [fst snd]. eexists. by rewrite app_assoc.
    + destruct (Hbefore "ECG") as (Y1 & k1 & H1); [apply list_elem_of_In; cbn; tauto|].
      cbn in H1. rewrite (bind_step _ _ _ _ H1). cbn [fst snd].
      rewrite (bind_Raise _ _ _ _ Hmis). cbn [fst snd]. eexists. by rewrite !app_assoc.
    + destruct (Hbefore "ECG") as (Y1 & k1 & H1); [apply list_elem_of_In; cbn; tauto|].
      destruct (Hbefore "RESP") as (Y2 & k2 & H2); [apply list_elem_of_In; cbn; tauto|].
      cbn in H1, H2. rewrite (bind_step _ _ _ _ H1). cbn [fst snd].
      rewrite (bind_step _ _ _ _ H2). cbn [fst snd].
      rewrite (bind_Raise _ _ _ _ Hmis). cbn [fst snd]. eexists. by rewrite !app_assoc.
    + destruct (Hbefore "ECG") as (Y1 & k1 & H1); [apply list_elem_of_In; cbn; tauto|].
      destruct (Hbefore "RESP") as (Y2 & k2 & H2); [apply list_elem_of_In; cbn; tauto|].
      destruct (Hbefore "PULS") as (Y3 & k3 & H3); [apply list_elem_of_In; cbn; tauto|].
      cbn in H1, H2, H3. rewrite (bind_step _ _ _ _ H1). cbn [fst snd].
      rewrite (bind_step _ _ _ _ H2). cbn [fst snd].
      rewrite (bind_step _ _ _ _ H3). cbn [fst snd].
      rewrite (bind_Raise _ _ _ _ Hmis). cbn [fst snd]. eexists. by rewrite !app_assoc.
Qed.

Lemma uuid_mismatch_aborts_witness :
  readparsefile Samples.ecg_other_uuid "ECG" 100 (109 - 100 + 1 + 8) =
    (Return (ChannelTuple
       (Some (np.TraceArray
          [[5; 5; 0; 0; 0; 0; 0; 0; 0; 0; 0; 0; 0; 0; 0; 0; 0; 0];
           [0; 0; 0; 0; 0; 0; 0; 0; 0; 0; 0; 0; 0; 0; 0; 0; 0; 0];
           [0; 0; 0; 0; 0; 0; 0; 0; 0; 0; 0; 0; 0; 0; 0; 0; 0; 0];
           [0; 0; 0; 0; 0; 0; 0; 0; 0; 0; 0; 0; 0; 0; 0; 0; 0; 0]])) "B"),
     [(INFO, Parsing "ECG")]) ∧
  "B" ≠ "A" ∧
  read_channel (Some Samples.ecg_other_uuid) "ECG" "A" 100 (109 - 100 + 1 + 8) =
    (Raise RuntimeError, [(INFO, Parsing "ECG")] ++ [(ERROR, UUIDMismatch "ECG")]) ∧
  (∃ e l,
     readphysio (Sources Samples.info_plain (Some Samples.ecg_other_uuid) None
                   (Some Samples.puls_one_sample) None) = (Raise e, l)).
Proof.
  assert (readparsefile Samples.ecg_other_uuid "ECG" 100 (109 - 100 + 1 + 8) =
    (Return (ChannelTuple
       (Some (np.TraceArray
          [[5; 5; 0; 0; 0; 0; 0; 0; 0; 0; 0; 0; 0; 0; 0; 0; 0; 0];
           [0; 0; 0; 0; 0; 0; 0; 0; 0; 0; 0; 0; 0; 0; 0; 0; 0; 0];
           [0; 0; 0; 0; 0; 0; 0; 0; 0; 0; 0; 0; 0; 0; 0; 0; 0; 0];
           [0; 0; 0; 0; 0; 0; 0; 0; 0; 0; 0; 0; 0; 0; 0; 0; 0; 0]])) "B"),
     [(INFO, Parsing "ECG")])) as Hchan by (vm_compute; reflexivity).
  assert ("B" ≠ "A") as Hne by discriminate.
  assert (readparsefile Samples.info_plain "ACQUISITION_INFO" 0 0 =
    (Return (InfoTuple (np.SliceArray [[[(0, 4)]]; [[(5, 9)]]]) "A" 1 (PyInt 2) 100 109 1),
     [(INFO, Parsing "ACQUISITION_INFO")])) as Hinfo by (vm_compute; reflexivity).
  assert ("ECG" ∈ ["ECG"; "RESP"; "PULS"; "EXT"]) as Hin by apply list_elem_of_here.
  pose proof (uuid_mismatch_aborts
    (Sources Samples.info_plain (Some Samples.ecg_other_uuid) None
       (Some Samples.puls_one_sample) None)
    "ECG" Samples.ecg_other_uuid _ "A" 1 (PyInt 2) 100 109 1 _ _ "B" _
    Hin eq_refl Hinfo Hchan Hne) as (H1 & H2 & _).
  exact (conj Hchan (conj Hne (conj H1 H2))).
Defined.

(** ** The keys of the result *)

Lemma column_Return_inv a j col l :
  column a j = (Return col, l) → l = [] ∧ lane_entry (Some (Some a)) j = Some col.
Proof.
  destruct a as [|lanes]; cbn; [done|].
  destruct (lanes !! j); cbn; [|done]. by intros [= -> <-].
Qed.

Lemma foldl_wrap_zeros col :
  Forall (λ z, z = 0) col → foldl (λ acc z, np.wrap64 (acc + z)) 0 col = 0.
Proof.
  induction col as [|z col IH]; cbn; [done|].
  intros Hall. inversion_clear Hall as [|?? -> Hall']. by apply IH.
Qed.

Lemma sum_zeros col : Forall (λ z, z = 0) col → np.sum col = 0.
Proof. apply foldl_wrap_zeros. Qed.

Lemma total_cons z col : total (z :: col) = z + total col.
Proof. done. Qed.

Lemma total_nonneg col : Forall (λ z, 0 ≤ z) col → 0 ≤ total col.
Proof. induction 1; rewrite ?total_cons; [done|lia]. Qed.

(** Without wrap-around the 64-bit sum is the sum. *)
Lemma foldl_wrap_nonneg col acc :
  0 ≤ acc → Forall (λ z, 0 ≤ z) col → acc + total col < 2 ^ 63 →
  foldl (λ acc z, np.wrap64 (acc + z)) acc col = acc + total col.
Proof.
  revert acc. induction col as [|z col IH]; intros acc Hacc Hall Hlt.
  - cbn. lia.
  - rewrite total_cons in *. cbn [foldl].
    inversion_clear Hall as [|?? Hz Hall'].
    pose proof (total_nonneg _ Hall').
    rewrite wrap64_small by lia. rewrite IH by (done || lia). lia.
Qed.

Lemma sum_nonneg col :
  Forall (λ z, 0 ≤ z) col → total col < 2 ^ 63 → np.sum col = total col.
Proof. intros. unfold np.sum. by rewrite foldl_wrap_nonneg. Qed.

Lemma total_zero_iff col :
  Forall (λ z, 0 ≤ z) col → total col = 0 ↔ Forall (λ z, z = 0) col.
Proof.
  induction 1 as [|z col Hz Hall IH]; [done|]. rewrite total_cons.
  pose proof (total_nonneg _ Hall). rewrite Forall_cons, <- IH. lia.
Qed.

(** For a lane of non-negative samples whose sum fits 64 bits, the sum is
    not 0 exactly when some sample is not 0. *)
Lemma sum_nonzero_iff_sample col :
  Forall (λ z, 0 ≤ z) col → total col < 2 ^ 63 →
  np.sum col ≠ 0 ↔ Exists (λ z, z ≠ 0) col.
Proof.
  intros Hall Hlt. rewrite sum_nonneg by done.
  rewrite (total_zero_iff _ Hall). clear.
  induction col as [|z col IH].
  - split; [intros []; constructor|by intros ?%Exists_nil].
  - rewrite Forall_cons, Exists_cons, <- IH.
    destruct (decide (z = 0)); tauto.
Qed.

(** An array without a nonzero entry has only columns that sum to 0. *)
Lemma any_false_sum a j col :
  np.any a = false → lane_entry (Some (Some a)) j = Some col → np.sum col = 0.
Proof.
  destruct a as [|lanes]; [done|]. cbn. intros Hany Hcol. apply sum_zeros.
  apply Forall_forall. intros z Hz.
  destruct (Z.eqb_spec z 0) as [|Hne]; [done|]. exfalso.
  assert (existsb (existsb (λ z, negb (z =? 0))) lanes = true) as Hex; [|congruence].
  apply existsb_exists. exists col. split; [by eapply list_elem_of_In, list_elem_of_lookup_2|].
  apply existsb_exists. exists z. split; [by apply list_elem_of_In|].
  by apply negb_true_iff, Z.eqb_neq.
Qed.

Lemma any_false_kept a j : np.any a = false → lane_kept (Some (Some a)) j = None.
Proof.
  intros Hany. unfold lane_kept.
  destruct (lane_entry _ j) as [col|] eqn:Hcol; [|done]. cbn.
  by rewrite (any_false_sum _ _ _ Hany Hcol).
Qed.

Lemma stored_None {A} k key (old : option A) : stored k key None old = old.
Proof. unfold stored. by destruct (String.eqb k key). Qed.

(** The effect of one conditional store on the lookups of the dictionary. *)
Lemma put_lane_lookup key a j (m m' : gmap string pyvalue) l :
  put_lane key a j m = (Return m', l) →
  ∀ k, m' !! k = stored k key (PyColumn <$> lane_kept (Some (Some a)) j) (m !! k).
Proof.
  unfold put_lane, stored. intros H k.
  inv_bind H as col Hcol. apply column_Return_inv in Hcol as [-> Hcol].
  unfold lane_kept. rewrite Hcol. cbn [mbind option_bind].
  destruct (negb (np.sum col =? 0)); injection H as [= <- <-].
  - destruct (String.eqb_spec k key) as [->|Hne].
    + by rewrite lookup_insert_eq.
    + by rewrite lookup_insert_ne.
  - by destruct (String.eqb k key).
Qed.

Lemma put_array_lookup key a (m m' : gmap string pyvalue) l :
  put_array key a m = (Return m', l) →
  ∀ k, m' !! k =
    stored k key ((λ _, PyArray a) <$> lane_kept (Some (Some a)) 0) (m !! k).
Proof.
  unfold put_array, stored. intros H k.
  destruct a as [|[|col [|]]]; try done.
  unfold lane_kept. cbn [lane_entry lookup list_lookup mbind option_bind].
  destruct (negb (np.sum col =? 0)); injection H as [= <- <-].
  - destruct (String.eqb_spec k key) as [->|Hne].
    + by rewrite lookup_insert_eq.
    + by rewrite lookup_insert_ne.
  - by destruct (String.eqb k key).
Qed.

Lemma put_channel_Return_inv X puts (m m' : gmap string pyvalue) l :
  put_channel X puts m = (Return m', l) →
  (m' = m ∧ ∀ j, lane_kept X j = None) ∨
  (∃ a, X = Some (Some a) ∧ puts a m = (Return m', l)).
Proof.
  destruct X as [[a|]|]; cbn; [|done|intros [= <- <-]; by left].
  intros H. destruct (np.any a) eqn:Hany; [right; by exists a|left].
  injection H as [= <- <-]. split; [done|]. intros j. by apply any_false_kept.
Qed.

Lemma ecg_stage_lookup ECG (m m' : gmap string pyvalue) l :
  put_channel ECG (λ a (physio : gmap string pyvalue),
      physio ← put_lane "ECG1" a 0 physio;
      physio ← put_lane "ECG2" a 1 physio;
      physio ← put_lane "ECG3" a 2 physio;
      put_lane "ECG4" a 3 physio) m = (Return m', l) →
  ∀ k, m' !! k =
    stored k "ECG4" (PyColumn <$> lane_kept ECG 3)
      (stored k "ECG3" (PyColumn <$> lane_kept ECG 2)
         (stored k "ECG2" (PyColumn <$> lane_kept ECG 1)
            (stored k "ECG1" (PyColumn <$> lane_kept ECG 0) (m !! k)))).
Proof.
  intros [[-> Hk]|(a & -> & H)]%put_channel_Return_inv k.
  - rewrite !Hk. cbn [fmap option_fmap option_map]. by rewrite !stored_None.
  - inv_bind H as m1 H1. inv_bind H as m2 H2. inv_bind H as m3 H3.
    rewrite (put_lane_lookup _ _ _ _ _ _ H), (put_lane_lookup _ _ _ _ _ _ H3).
    by rewrite (put_lane_lookup _ _ _ _ _ _ H2), (put_lane_lookup _ _ _ _ _ _ H1).
Qed.

Lemma ext_stage_lookup EXT (m m' : gmap string pyvalue) l :
  put_channel EXT (λ a (physio : gmap string pyvalue),
      physio ← put_lane "EXT" a 0 physio;
      put_lane "EXT2" a 1 physio) m = (Return m', l) →
  ∀ k, m' !! k =
    stored k "EXT2" (PyColumn <$> lane_kept EXT 1)
      (stored k "EXT" (PyColumn <$> lane_kept EXT 0) (m !! k)).
Proof.
  intros [[-> Hk]|(a & -> & H)]%put_channel_Return_inv k.
  - rewrite !Hk. cbn [fmap option_fmap option_map]. by rewrite !stored_None.
  - inv_bind H as m1 H1.
    by rewrite (put_lane_lookup _ _ _ _ _ _ H), (put_lane_lookup _ _ _ _ _ _ H1).
Qed.

Lemma array_stage_lookup X key (m m' : gmap string pyvalue) l :
  put_channel X (put_array key) m = (Return m', l) →
  ∃ v : pyvalue,
    ∀ k, m' !! k = stored k key ((λ _, v) <$> lane_kept X 0) (m !! k).
Proof.
  intros [[-> Hk]|(a & -> & H)]%put_channel_Return_inv.
  - exists (PyStr ""). intros k. rewrite Hk. cbn. by rewrite stored_None.
  - exists (PyArray a). exact (put_array_lookup _ _ _ _ _ H).
Qed.

Lemma is_Some_stored {A} k key (v old : option A) :
  is_Some (stored k key v old) ↔ (k = key ∧ is_Some v) ∨ is_Some old.
Proof.
  unfold stored. destruct (String.eqb_spec k key) as [->|Hne].
  - destruct v as [a|]; cbn [or_else].
    + split; [intros _; left; split; [done|by exists a]|intros _; by exists a].
    + split; [by right|]. intros [[_ [? [=]]]|H]; exact H.
  - split; [by right|]. intros [[? _]|H]; [done|exact H].
Qed.

(** The lookups of the dictionary that [assemble] returns, for the keys of
    the eight lanes. *)
Lemma assemble_lookup UUID1 slicemap ACQ ECG RESP PULS EXT physio l :
  assemble UUID1 slicemap ACQ ECG RESP PULS EXT = (Return physio, l) →
  ∀ key logdatatype j,
    lane_source key = Some (logdatatype, j) →
    is_Some (physio !! key) ↔
    is_Some (lane_kept
      (if String.eqb logdatatype "ECG" then ECG
       else if String.eqb logdatatype "RESP" then RESP
       else if String.eqb logdatatype "PULS" then PULS else EXT) j).
Proof.
  unfold assemble. intros H.
  inv_bind H as m1 H1. inv_bind H as m2 H2. inv_bind H as m3 H3.
  pose proof (ecg_stage_lookup _ _ _ _ H1) as L1.
  destruct (array_stage_lookup _ _ _ _ _ H2) as [v2 L2].
  destruct (array_stage_lookup _ _ _ _ _ H3) as [v3 L3].
  pose proof (ext_stage_lookup _ _ _ _ H) as L4.
  assert (∀ k, physio !! k =
    stored k "EXT2" (PyColumn <$> lane_kept EXT 1)
      (stored k "EXT" (PyColumn <$> lane_kept EXT 0)
        (stored k "PULS" ((λ _, v3) <$> lane_kept PULS 0)
          (stored k "RESP" ((λ _, v2) <$> lane_kept RESP 0)
            (stored k "ECG4" (PyColumn <$> lane_kept ECG 3)
              (stored k "ECG3" (PyColumn <$> lane_kept ECG 2)
                (stored k "ECG2" (PyColumn <$> lane_kept ECG 1)
                  (stored k "ECG1" (PyColumn <$> lane_kept ECG 0)
                    (if String.eqb k "ACQ" then Some (PyMask ACQ)
                     else if String.eqb k "SliceMap" then Some (PyArray slicemap)
                     else if String.eqb k "UUID" then Some (PyStr UUID1)
                     else None))))))))) as L.
  { intros k. rewrite L4, L3, L2, L1. do 8 f_equal.
    destruct (String.eqb_spec k "ACQ") as [->|]; [by rewrite lookup_insert_eq|].
    rewrite lookup_insert_ne by done.
    destruct (String.eqb_spec k "SliceMap") as [->|]; [by rewrite lookup_insert_eq|].
    rewrite lookup_insert_ne by done.
    destruct (String.eqb_spec k "UUID") as [->|]; [by rewrite lookup_insert_eq|].
    by rewrite lookup_insert_ne by done. }
  clear -L. intros key logdatatype j Hsrc. rewrite L. clear L.
  unfold lane_source in Hsrc.
  repeat match type of Hsrc with
  | context [String.eqb key ?c] =>
      destruct (String.eqb_spec key c) as [->|?];
      [injection Hsrc as [= <- <-]; cbn;
       rewrite ?is_Some_alt; by repeat (destruct (lane_kept _ _))|]
  end. done.
Qed.

(** ** Silent channels *)

Lemma any_false_iff lanes :
  np.any (np.TraceArray lanes) = false ↔ Forall (Forall (λ z, z = 0)) lanes.
Proof.
  cbn [np.any]. induction lanes as [|col lanes IH]; cbn [existsb]; [done|].
  rewrite orb_false_iff, IH, Forall_cons. apply and_iff_compat_r. clear.
  induction col as [|z col IH]; cbn [existsb]; [done|].
  rewrite orb_false_iff, IH, Forall_cons, negb_false_iff, Z.eqb_eq. done.
Qed.

Lemma Forall_fill {A} (P : A → Prop) lo len x l :
  P x → Forall P l → Forall P (np.fill lo len x l).
Proof.
  intros Hx Hl. unfold np.fill. revert lo.
  induction len as [|len IH]; intros lo; cbn [replicate list_inserts]; [done|].
  apply Forall_insert; [apply IH|done].
Qed.

(** A channel array stays without a nonzero entry over a line that is no
    data row or is a data row of value 0. *)
Lemma parse_line_silent logdatatype nlines es st line st' l :
  logdatatype ≠ "ACQUISITION_INFO" → line ≠ "" → row_value_zero line = true →
  (∀ a, traces st = Some a → np.any a = false) →
  parse_line logdatatype nlines es st line = (Return st', l) →
  ∀ a, traces st' = Some a → np.any a = false.
Proof.
  intros Hk Hne Hz HI H. unfold row_value_zero in Hz.
  apply parse_line_Return_inv in H as
    [(varname & value & _ & _ & H)|[(di & Hdi & _ & H)|(_ & _ & -> & _)]].
  - apply assign_Return_inv in H as (_ & -> & _). done.
  - rewrite Hdi in Hz. destruct (String.eqb_spec logdatatype "ACQUISITION_INFO"); [done|].
    apply channel_row_Return_inv in H as
      (_ & t & value & k & chaidx & st1 & a0 & a' & _ & Hval & _ & Hal & _ & Ha0 & Hset & ->).
    rewrite Hval in Hz. apply Z.eqb_eq in Hz as ->.
    assert (np.any a0 = false) as Hany.
    { apply allocate_traces_Return_inv in Hal as (_ & [[_ ->]|(_ & _ & ->)]).
      - by apply HI.
      - cbn in Ha0. injection Ha0 as [= <-]. apply any_false_iff.
        apply Forall_replicate, Forall_replicate. done. }
    apply set_slice_Return_inv in Hset as (_ & _ & _ & lanes & col & -> & Hcol & _ & ->).
    intros a [= <-]. apply any_false_iff. apply any_false_iff in Hany.
    apply Forall_insert; [done|]. apply Forall_fill; [done|].
    by eapply Forall_lookup_1 in Hany.
  - done.
  - done.
Qed.

(** A channel buffer whose data rows all carry the value 0 is
    reconstructed without a nonzero entry. *)
Lemma silent_channel fn logdatatype ft es X u l :
  logdatatype ≠ "ACQUISITION_INFO" →
  forallb row_value_zero (Str.splitlines fn) = true →
  readparsefile fn logdatatype ft es = (Return (ChannelTuple X u), l) →
  ∀ a, X = Some a → np.any a = false.
Proof.
  intros Hk Hz Hr.
  apply readparsefile_Return_inv in Hr as (st & l' & Hp & Hf & _).
  apply finish_channel_Return_inv in Hf as (u' & _ & [= -> _]); [|done].
  eapply (parse_lines_invariant (λ s, ∀ a, traces s = Some a → np.any a = false));
    [|done|exact Hp].
  intros s line s' l0 Hin Hne HI Hs. eapply parse_line_silent; [done..| |done|done].
  rewrite forallb_forall in Hz. by apply Hz, list_elem_of_In.
Qed.

(** ** Which lanes are returned *)

Lemma channel_traces_read src logdatatype slicemap UUID1 ns nv ft lt ne l0 X l1 :
  readparsefile (fnINFO src) "ACQUISITION_INFO" 0 0 =
    (Return (InfoTuple slicemap UUID1 ns nv ft lt ne), l0) →
  read_channel (channel_buffer src logdatatype) logdatatype UUID1 ft (lt - ft + 1 + 8)
    = (Return X, l1) →
  channel_traces src logdatatype = match X with Some tr => tr | None => None end ∧
  (∀ buf, channel_buffer src logdatatype = Some buf →
     ∃ tr, X = Some tr ∧
       readparsefile buf logdatatype ft (lt - ft + 1 + 8)
         = (Return (ChannelTuple tr UUID1), l1)).
Proof.
  intros Hinfo Hread. unfold channel_traces. rewrite Hinfo.
  apply read_channel_Return_inv in Hread as [(-> & -> & _)|(buf & tr & -> & -> & Hr)].
  - done.
  - cbn [mbind option_bind]. rewrite Hr. split; [done|]. intros ? [= <-]. eauto.
Qed.

Lemma lane_key_core src (physio : gmap string pyvalue) key logdatatype j
    slicemap UUID1 ns nv ft lt ne l0 X l1 :
  logdatatype ≠ "ACQUISITION_INFO" →
  lane_source key = Some (logdatatype, j) →
  readparsefile (fnINFO src) "ACQUISITION_INFO" 0 0 =
    (Return (InfoTuple slicemap UUID1 ns nv ft lt ne), l0) →
  read_channel (channel_buffer src logdatatype) logdatatype UUID1 ft (lt - ft + 1 + 8)
    = (Return X, l1) →
  (is_Some (physio !! key) ↔ is_Some (lane_kept X j)) →
  (is_Some (physio !! key) ↔ ∃ lane, lane_of src key = Some lane ∧ np.sum lane ≠ 0) ∧
  (∀ lane, lane_of src key = Some lane →
     Forall (λ z, 0 ≤ z) lane → total lane < 2 ^ 63 →
     (is_Some (physio !! key) ↔ Exists (λ z, z ≠ 0) lane)) ∧
  (lane_of src key = None → physio !! key = None) ∧
  (∀ buf, channel_buffer src logdatatype = Some buf →
     forallb row_value_zero (Str.splitlines buf) = true → physio !! key = None).
Proof.
  intros Hk Hsrc Hinfo Hread Hphysio.
  destruct (channel_traces_read _ _ _ _ _ _ _ _ _ _ _ _ Hinfo Hread) as [Htr Hbuf].
  assert (lane_of src key = lane_entry X j) as Hlane.
  { unfold lane_of. rewrite Hsrc. cbn. rewrite Htr.
    by destruct X as [[[|lanes]|]|]. }
  assert (is_Some (lane_kept X j) ↔ ∃ lane, lane_entry X j = Some lane ∧ np.sum lane ≠ 0)
    as Hkept.
  { unfold lane_kept. destruct (lane_entry X j) as [col|]; cbn.
    - destruct (Z.eqb_spec (np.sum col) 0) as [Hs|Hs]; cbn [negb]; split.
      + by intros [? [=]].
      + intros (lane & [= <-] & ?). done.
      + intros _. by exists col.
      + intros _. by exists col.
    - split; [by intros [? [=]]|by intros (? & [=] & _)]. }
  rewrite Hlane. split_and!.
  - by rewrite Hphysio.
  - intros lane Hl Hpos Hlt. rewrite Hphysio, Hkept, <- sum_nonzero_iff_sample by done.
    split; [intros (lane' & Hl' & ?); congruence|intros ?; by exists lane].
  - intros Hnone. apply eq_None_not_Some. rewrite Hphysio, Hkept.
    intros (lane & Hl & _). congruence.
  - intros buf Hb Hz. apply eq_None_not_Some. rewrite Hphysio.
    destruct (Hbuf _ Hb) as (tr & -> & Hr).
    destruct tr as [a|]; [|by intros [? [=]]].
    rewrite (any_false_kept a j); [by intros [? [=]]|].
    by eapply silent_channel.
Qed.



(** C1 (the code at the failing input): the ECG buffer of this read was
    found and its ECG1 lane holds the samples 5, 5, -5, -5, which sum to
    0: the read returns, and the key ECG1 is not in the dictionary although
    the lane has nonzero samples, against the comment "Only return active
    (nonzero) physio traces" above the test. *)
Lemma cancelling_lane_omitted :
  ∃ l,
    readphysio Samples.cancelling = (Return (returned Samples.cancelling), l) ∧
    fnECG Samples.cancelling = Some Samples.ecg_cancelling ∧
    lane_of Samples.cancelling "ECG1" =
      Some [5; 5; -5; -5; 0; 0; 0; 0; 0; 0; 0; 0; 0; 0; 0; 0; 0; 0] ∧
    Exists (λ z, z ≠ 0) [5; 5; -5; -5; 0; 0; 0; 0; 0; 0; 0; 0; 0; 0; 0; 0; 0; 0] ∧
    returned Samples.cancelling !! "ECG1" = None.
Proof.
  eexists. split_and!; try (vm_compute; reflexivity).
  apply Exists_cons_hd. lia.
Qed.

(** The ECG2 lane of the same read is returned. *)
Example cancelling_other_lane_kept :
  returned Samples.cancelling !! "ECG2" =
    Some (PyColumn [0; 0; 0; 0; 7; 7; 0; 0; 0; 0; 0; 0; 0; 0; 0; 0; 0; 0]).
Proof. vm_compute. reflexivity. Qed.

(** ** What a line is to the loop *)

Lemma assignment_of_Some line varname value :
  assignment_of line = Some (varname, value) →
  line ≠ "" ∧ Str.contains "=" (clean line) = true ∧
  Str.strip <$> Str.split "=" (clean line) = [varname; value].
Proof.
  unfold assignment_of. destruct line as [|c line]; [done|]. cbn [Str.is_empty].
  cbn zeta. destruct (Str.contains _ _); [|done].
  destruct (Str.strip <$> _) as [|a [|b [|? ?]]]; try done. by intros [= -> ->].
Qed.

Lemma parse_line_assignment logdatatype nlines es st line varname value :
  assignment_of line = Some (varname, value) →
  parse_line logdatatype nlines es st line = assign logdatatype varname value st.
Proof.
  intros (_ & Hc & Hs)%assignment_of_Some. unfold parse_line. cbn zeta. rewrite Hc.
  unfold assignment, split_assignment. rewrite Hs. by rewrite mret_bind.
Qed.

Lemma data_row_Some line dataitems :
  data_row line = Some dataitems →
  line ≠ "" ∧ Str.contains "=" (clean line) = false ∧
  dataitems = pad5 (Str.words (clean line)) ∧ Str.isdigit (item dataitems 0) = true.
Proof.
  unfold data_row. destruct line as [|c line]; [done|]. cbn [Str.is_empty].
  cbn zeta. destruct (Str.contains _ _); [done|].
  destruct (Str.isdigit _) eqn:Hd; [|done]. by intros [= <-].
Qed.

Lemma parse_line_data_row logdatatype nlines es st line dataitems :
  data_row line = Some dataitems →
  parse_line logdatatype nlines es st line =
    if String.eqb logdatatype "ACQUISITION_INFO"
    then acquisition_row nlines dataitems st
    else channel_row logdatatype es dataitems st.
Proof.
  intros (_ & Hc & -> & Hd)%data_row_Some. unfold parse_line. cbn zeta.
  by rewrite Hc, Hd.
Qed.

(** ** Lines at which the loop stops *)

Lemma foldM_stuck {X S} (f : S → X → M S) x xs :
  x ∈ xs → (∀ s, ∃ e l, f s x = (Raise e, l)) →
  ∀ s, ∃ e l, foldM f s xs = (Raise e, l).
Proof.
  intros Hin Hx. induction xs as [|y xs IH]; intros s; [by apply elem_of_nil in Hin|].
  cbn [foldM]. apply elem_of_cons in Hin as [<-|Hin].
  - destruct (Hx s) as (e & l & ->). by exists e, l.
  - destruct (f s y) as [[s'|e] l] eqn:Hy; [|by exists e, l].
    destruct (IH Hin s') as (e & l' & He). exists e, (l ++ l').
    unfold mbind, M_bind. by rewrite He.
Qed.

Lemma readparsefile_stuck fn logdatatype ft es line :
  line ∈ Str.splitlines fn → line ≠ "" →
  (∀ st, ∃ e l,
     parse_line logdatatype (Z.of_nat (length (Str.splitlines fn))) es st line
       = (Raise e, l)) →
  ∃ e l, readparsefile fn logdatatype ft es = (Raise e, l).
Proof.
  intros Hin Hne Hst. unfold readparsefile, parse_lines.
  assert (line ∈ List.filter (λ line, negb (Str.is_empty line)) (Str.splitlines fn))
    as Hin'.
  { apply list_elem_of_In, List.filter_In. split; [by apply list_elem_of_In|].
    by destruct line. }
  destruct (foldM_stuck _ _ _ Hin' Hst (initial ft)) as (e & l & H).
  cbn zeta. rewrite H. by eexists _, _.
Qed.


Lemma assign_version logdatatype value st :
  assign logdatatype "LogVersion" value st =
    if String.eqb value expectedversion then mret st
    else hard_error (FormatNotSupported value).
Proof. unfold assign. cbn. by destruct (String.eqb value expectedversion). Qed.

Lemma assign_datatype logdatatype value st :
  assign logdatatype "LogDataType" value st =
    if String.eqb value logdatatype then mret st
    else hard_error (UnexpectedDataType logdatatype value).
Proof. unfold assign. cbn. by destruct (String.eqb value logdatatype). Qed.

Lemma assign_unknown logdatatype varname value st :
  existsb (String.eqb varname) header_keys = false →
  assign logdatatype varname value st = mret st.
Proof.
  cbn [existsb header_keys]. intros H.
  repeat (apply orb_false_elim in H as [?%String.eqb_neq H]).
  unfold assign.
  repeat match goal with
  | Hne : varname ≠ ?k |- _ =>
      apply String.eqb_neq in Hne; rewrite Hne; clear Hne
  end.
  done.
Qed.




Lemma parse_line_ignored logdatatype nlines es st line :
  line ≠ "" → ignored logdatatype line = true →
  parse_line logdatatype nlines es st line = mret st.
Proof.
  intros Hne. unfold ignored.
  replace (Str.is_empty line) with false by (by destruct line). cbn [orb].
  destruct (assignment_of line) as [[varname value]|] eqn:Has.
  - rewrite (parse_line_assignment _ _ _ _ _ _ _ Has).
    destruct (String.eqb_spec varname "LogVersion") as [->|_].
    { intros ->%String.eqb_eq. rewrite assign_version. by rewrite String.eqb_refl. }
    destruct (String.eqb_spec varname "LogDataType") as [->|_].
    { intros ->%String.eqb_eq. rewrite assign_datatype. by rewrite String.eqb_refl. }
    intros H%negb_true_iff. by apply assign_unknown.
  - intros [Hc%negb_true_iff Hd]%andb_prop. unfold parse_line. cbn zeta.
    by rewrite Hc, Hd.
Qed.


Lemma parse_line_clean logdatatype nlines es st line line' :
  clean line = clean line' →
  parse_line logdatatype nlines es st line = parse_line logdatatype nlines es st line'.
Proof. unfold parse_line. by intros ->. Qed.

Lemma clean_comment a b :
  Str.contains "#" a = false → clean (a +:+ String "#" b) = clean a.
Proof.
  intros Ha. unfold clean. by rewrite (split_at_first _ _ _ Ha), (split_without _ _ Ha).
Qed.




(** ** Buffers that cannot be parsed *)

(** The first data row met while the volume count compares equal to 1:
    the correction leaves a float, and the map cannot be allocated. *)
Lemma first_row_of_single_volume nlines dataitems st v s :
  traces st = None → nrvolumes st = Some v → num_eqb v 1 = true →
  nrslices st = Some s → 1 ≤ s → 1 ≤ nrechoes st →
  acquisition_row nlines dataitems st =
    (Raise TypeError,
     [(WARNING, NumVolumesCorrected (PyFloat (nlines - 11) (s * nrechoes st)))]).
Proof.
  intros Htr Hv Heq Hs Hs1 He1.
  pose proof (header_read_of_count _ _ _ Hv Heq Hs Hs1 He1) as Hh.
  assert (correct_nrvolumes nlines st =
    (Return (set_nrvolumes (PyFloat (nlines - 11) (s * nrechoes st)) st),
     [(WARNING, NumVolumesCorrected (PyFloat (nlines - 11) (s * nrechoes st)))])) as Hc.
  { unfold correct_nrvolumes. rewrite Hv, Hs. cbn [read_var]. rewrite !mret_bind, Heq.
    unfold truediv. destruct (Z.eqb_spec (s * nrechoes st) 0); [nia|]. done. }
  assert (allocate_slicemap (set_nrvolumes (PyFloat (nlines - 11) (s * nrechoes st)) st)
          = throw TypeError) as Ha.
  { unfold allocate_slicemap. cbn [traces set_nrvolumes nrvolumes nrslices].
    rewrite Htr, Hs. done. }
  unfold acquisition_row. rewrite Hh. cbn [when].
  rewrite mret_bind, (bind_step _ _ _ _ Hc), Ha. done.
Qed.

Lemma header_unread_false st :
  header_unread st = false →
  ∃ v s, nrvolumes st = Some v ∧ nrslices st = Some s ∧
         num_ltb v 1 = false ∧ 1 ≤ s ∧ 1 ≤ nrechoes st.
Proof.
  unfold header_unread. destruct (nrvolumes st) as [v|]; [|done].
  destruct (nrslices st) as [s|]; [|done].
  intros [[Hv Hs%Z.ltb_ge]%orb_false_elim He%Z.ltb_ge]%orb_false_elim.
  exists v, s. done.
Qed.


(** Over a line that is no data row the array stays as it is. *)
Lemma parse_line_keeps_traces logdatatype nlines es st line st' l :
  line ≠ "" → no_data_row line = true →
  parse_line logdatatype nlines es st line = (Return st', l) →
  traces st' = traces st.
Proof.
  intros Hne Hnd H. unfold no_data_row in Hnd.
  apply parse_line_Return_inv in H as
    [(varname & value & _ & _ & H)|[(di & Hdi & _)|(_ & _ & -> & _)]]; [|..|done|done].
  - by apply assign_Return_inv in H as (_ & -> & _).
  - by rewrite Hdi in Hnd.
Qed.

Lemma has_data_row_false lines line :
  has_data_row lines = false → line ∈ lines → no_data_row line = true.
Proof.
  unfold has_data_row. intros H Hin.
  destruct (no_data_row line) eqn:Hn; [done|].
  assert (existsb (λ line, negb (no_data_row line)) lines = true); [|congruence].
  apply existsb_exists. exists line. split; [by apply list_elem_of_In|by rewrite Hn].
Qed.

Lemma no_rows_no_traces logdatatype nlines ft es lines st l :
  has_data_row lines = false →
  parse_lines logdatatype nlines ft es lines = (Return st, l) →
  traces st = None.
Proof.
  intros Hno. eapply (parse_lines_invariant (λ s, traces s = None)); [|done].
  intros s0 line s1 l0 Hin Hne Htr Hstep.
  erewrite parse_line_keeps_traces; [done..| |done]. by eapply has_data_row_false.
Qed.

Lemma assemble_found UUID1 slicemap ACQ ECG RESP PULS EXT physio l :
  assemble UUID1 slicemap ACQ ECG RESP PULS EXT = (Return physio, l) →
  ∀ X, X ∈ [ECG; RESP; PULS; EXT] → X ≠ Some None.
Proof.
  unfold assemble. intros H.
  inv_bind H as m1 H1. inv_bind H as m2 H2. inv_bind H as m3 H3.
  intros X HX. set_unfold in HX. destruct HX as [->|[->|[->|[->|[]]]]]; by intros ->.
Qed.



(** ** Header values *)

Lemma channel_row_frame logdatatype es dataitems st st' l :
  channel_row logdatatype es dataitems st = (Return st', l) →
  UUID st' = UUID st ∧ sampletime st' = sampletime st ∧
  nrslices st' = nrslices st ∧ nrvolumes st' = nrvolumes st ∧
  firsttime st' = firsttime st ∧ lasttime st' = lasttime st ∧
  nrechoes st' = nrechoes st ∧ is_Some (sampletime st).
Proof.
  intros (_ & t & value & k & chaidx & st1 & a0 & a' & _ & _ & _ & _ & Hk & _ & _ & ->)
    %channel_row_Return_inv.
  rewrite Hk. split_and!; by eauto.
Qed.



Lemma foldM_foldl {X S T} (f : S → X → M S) (g : T → X → T)
    (R : S → T → Prop) (P : X → Prop) :
  (∀ s t x s' l, P x → R s t → f s x = (Return s', l) → R s' (g t x)) →
  ∀ xs s t s' l,
    Forall P xs → R s t → foldM f s xs = (Return s', l) → R s' (foldl g t xs).
Proof.
  intros Hstep xs. induction xs as [|x xs IH]; intros s t s' l HP HR; cbn [foldM foldl].
  - by intros [= <- <-].
  - intros H. inv_bind H as s1 Hx. inversion_clear HP as [|?? Hx' HP'].
    eapply IH; [done| |done]. by eapply Hstep.
Qed.

Lemma foldl_filter {X T} (g : T → X → T) (p : X → bool) xs t :
  (∀ t x, p x = false → g t x = t) →
  foldl g t (List.filter p xs) = foldl g t xs.
Proof.
  intros Hg. revert t. induction xs as [|x xs IH]; intros t; cbn [List.filter foldl]; [done|].
  destruct (p x) eqn:Hp; cbn [foldl]; [done|]. by rewrite (Hg _ _ Hp).
Qed.

(** The loop over the lines against a fold that reads the lines alone. *)
Lemma parse_lines_foldl {T} (g : T → string → T) (R : locals → T → Prop)
    logdatatype nlines ft es lines st l t :
  (∀ t, g t "" = t) →
  (∀ s t line s' l',
     line ∈ lines → line ≠ "" → R s t →
     parse_line logdatatype nlines es s line = (Return s', l') → R s' (g t line)) →
  R (initial ft) t →
  parse_lines logdatatype nlines ft es lines = (Return st, l) →
  R st (foldl g t lines).
Proof.
  intros Hg Hstep Hinit Hp. unfold parse_lines in Hp.
  rewrite <- (foldl_filter g (λ line, negb (Str.is_empty line))).
  2:{ intros t' [|c x]; [done|]. done. }
  revert Hp. apply (foldM_foldl _ g R (λ line, line ∈ lines ∧ line ≠ "")); [| |done].
  - intros s t' x s' l' [??]. by apply Hstep.
  - apply Forall_forall. intros x [Hx Hin]%list_elem_of_In%List.filter_In.
    split; [by apply list_elem_of_In|]. by destruct x.
Qed.

Lemma assign_Return_int logdatatype varname value st st' l :
  assign logdatatype varname value st = (Return st', l) →
  varname ∈ ["SampleTime"; "NumSlices"; "NumVolumes"; "FirstTime"; "LastTime";
             "NumEchoes"] →
  is_Some (Str.int value).
Proof.
  intros H Hkey. destruct (Str.int value) as [z|] eqn:Hz; [by eexists|exfalso].
  assert (py_int value = throw ValueError) as Hpy by (unfold py_int; by rewrite Hz).
  set_unfold in Hkey.
  destruct Hkey as [->|[->|[->|[->|[->|[->|[]]]]]]]; unfold assign in H;
    cbn -[py_int] in H;
    destruct (String.eqb logdatatype "ACQUISITION_INFO"); cbn -[py_int] in H;
    rewrite ?Hpy in H; done.
Qed.

Lemma acquisition_row_count nlines dataitems st st' l z :
  acquisition_row nlines dataitems st = (Return st', l) →
  nrvolumes st' = Some (PyInt z) → nrvolumes st = Some (PyInt z).
Proof.
  intros (st1 & l1 & a0 & a' & ? & ? & ? & ? & ? & Hc & _ & _ & _ & _ & _ & _ & _ & _ & _ & _ & ->)
    %acquisition_row_Return_inv.
  apply correct_nrvolumes_Return_inv in Hc as
    (v & s & Hv & Hs & [(_ & -> & _)|(_ & _ & -> & _)]); [done|]. done.
Qed.

(** The header variables after the loop, read off the lines. *)
Lemma parse_lines_header logdatatype nlines ft es lines st l :
  parse_lines logdatatype nlines ft es lines = (Return st, l) →
  UUID st = last_assigned "UUID" lines ∧
  nrslices st = last_int "NumSlices" lines ∧
  lasttime st = last_int "LastTime" lines ∧
  sampletime st = last_int "SampleTime" lines ∧
  firsttime st = default ft (last_int "FirstTime" lines) ∧
  nrechoes st = default 1 (last_int "NumEchoes" lines) ∧
  (∀ z, nrvolumes st = Some (PyInt z) → last_int "NumVolumes" lines = Some z).
Proof.
  intros Hp.
  assert (∀ key (R : locals → option string → Prop),
    R (initial ft) None →
    (∀ s acc varname value s' l',
       R s acc → assign logdatatype varname value s = (Return s', l') →
       R s' (if String.eqb varname key then Some value else acc)) →
    (∀ s acc dataitems s' l', R s acc →
       acquisition_row nlines dataitems s = (Return s', l') → R s' acc) →
    (∀ s acc dataitems s' l', R s acc →
       channel_row logdatatype es dataitems s = (Return s', l') → R s' acc) →
    R st (last_assigned key lines)) as Hkey.
  { intros key R Hinit Hassign Hinfo Hchan.
    unfold last_assigned.
    eapply (parse_lines_foldl (assigned key) R); [done| |exact Hinit|exact Hp].
    intros s acc line s' l' _ Hne HR Hstep. unfold assigned.
    apply parse_line_Return_inv in Hstep as
      [(varname & value & -> & _ & H)|[(di & _ & -> & H)|(-> & _ & -> & _)]]; [|..|done|done].
    - by eapply Hassign.
    - destruct (String.eqb logdatatype "ACQUISITION_INFO"); [by eapply Hinfo|by eapply Hchan]. }
  unfold last_int. split_and!.
  - apply (Hkey "UUID" (λ s acc, UUID s = acc)); [done|..].
    + intros s acc varname value s' l' <- H.
      by apply assign_Return_inv in H as (_ & _ & -> & _).
    + intros s acc di s' l' <- H. by apply acquisition_row_frame in H as (-> & _).
    + intros s acc di s' l' <- H. by apply channel_row_frame in H as (-> & _).
  - apply (Hkey "NumSlices" (λ s acc, nrslices s = acc ≫= Str.int)); [done|..].
    + intros s acc varname value s' l' HR H.
      apply assign_Return_inv in H as (_ & _ & _ & _ & -> & _).
      by destruct (String.eqb varname "NumSlices").
    + intros s acc di s' l' <- H. by apply acquisition_row_frame in H as (_ & _ & -> & _).
    + intros s acc di s' l' <- H. by apply channel_row_frame in H as (_ & _ & -> & _).
  - apply (Hkey "LastTime" (λ s acc, lasttime s = acc ≫= Str.int)); [done|..].
    + intros s acc varname value s' l' HR H.
      apply assign_Return_inv in H as (_ & _ & _ & _ & _ & _ & -> & _).
      by destruct (String.eqb varname "LastTime").
    + intros s acc di s' l' <- H.
      by apply acquisition_row_frame in H as (_ & _ & _ & _ & -> & _).
    + intros s acc di s' l' <- H.
      by apply channel_row_frame in H as (_ & _ & _ & _ & _ & -> & _).
  - apply (Hkey "SampleTime" (λ s acc, sampletime s = acc ≫= Str.int)); [done|..].
    + intros s acc varname value s' l' HR H.
      apply assign_Return_inv in H as (_ & _ & _ & -> & _).
      by destruct (String.eqb varname "SampleTime").
    + intros s acc di s' l' <- H. by apply acquisition_row_frame in H as (_ & -> & _).
    + intros s acc di s' l' <- H. by apply channel_row_frame in H as (_ & -> & _).
  - apply (Hkey "FirstTime" (λ s acc, firsttime s = default ft (acc ≫= Str.int))); [done|..].
    + intros s acc varname value s' l' HR H.
      pose proof (assign_Return_int _ _ _ _ _ _ H) as Hint.
      apply assign_Return_inv in H as (_ & _ & _ & _ & _ & _ & _ & -> & _).
      destruct (String.eqb_spec varname "FirstTime") as [->|]; [|done].
      destruct Hint as [z Hz]; [set_solver|]. cbn. by rewrite Hz.
    + intros s acc di s' l' <- H.
      by apply acquisition_row_frame in H as (_ & _ & _ & -> & _).
    + intros s acc di s' l' <- H.
      by apply channel_row_frame in H as (_ & _ & _ & _ & -> & _).
  - apply (Hkey "NumEchoes" (λ s acc, nrechoes s = default 1 (acc ≫= Str.int))); [done|..].
    + intros s acc varname value s' l' HR H.
      pose proof (assign_Return_int _ _ _ _ _ _ H) as Hint.
      apply assign_Return_inv in H as (_ & _ & _ & _ & _ & _ & _ & _ & -> & _).
      destruct (String.eqb_spec varname "NumEchoes") as [->|]; [|done].
      destruct Hint as [z Hz]; [set_solver|]. cbn. by rewrite Hz.
    + intros s acc di s' l' <- H.
      by apply acquisition_row_frame in H as (_ & _ & _ & _ & _ & -> & _).
    + intros s acc di s' l' <- H.
      by apply channel_row_frame in H as (_ & _ & _ & _ & _ & _ & -> & _).
  - apply (Hkey "NumVolumes"
      (λ s acc, ∀ z, nrvolumes s = Some (PyInt z) → acc ≫= Str.int = Some z)); [done|..].
    + intros s acc varname value s' l' HR H z.
      apply assign_Return_inv in H as (_ & _ & _ & _ & _ & -> & _).
      destruct (String.eqb varname "NumVolumes"); [|by apply HR].
      cbn. destruct (Str.int value); [|done]. by intros [= ->].
    + intros s acc di s' l' HR H z Hz. apply HR. by eapply acquisition_row_count.
    + intros s acc di s' l' HR H z.
      apply channel_row_frame in H as (_ & _ & _ & -> & _). apply HR.
Qed.



(** ** The shape of the channel arrays *)

Lemma length_fill {A} lo len (x : A) l : length (np.fill lo len x l) = length l.
Proof. unfold np.fill. apply length_inserts. Qed.

Lemma trace_shape_zeros n lanes :
  trace_shape n lanes (np.TraceArray (replicate lanes (replicate n 0))).
Proof.
  split; [apply length_replicate|]. apply Forall_replicate, length_replicate.
Qed.

(** A data row leaves the array with the shape it had. *)
Lemma set_slice_shape a start stop lane value k a' n lanes :
  np.set_slice a start stop lane value k = mret a' →
  trace_shape n lanes a → trace_shape n lanes a'.
Proof.
  intros (_ & _ & _ & ls & col & -> & Hcol & _ & ->)%set_slice_Return_inv [Hlen Hall].
  split; [by rewrite length_insert|].
  apply Forall_insert; [done|]. rewrite length_fill.
  by eapply Forall_lookup_1 in Hall.
Qed.

Lemma parse_line_trace_shape logdatatype nlines es st line st' l :
  logdatatype ≠ "ACQUISITION_INFO" → line ≠ "" →
  (∀ a, traces st = Some a → trace_shape (Z.to_nat es) (lane_count logdatatype) a) →
  parse_line logdatatype nlines es st line = (Return st', l) →
  ∀ a, traces st' = Some a → trace_shape (Z.to_nat es) (lane_count logdatatype) a.
Proof.
  intros Hk Hne HI H.
  apply parse_line_Return_inv in H as
    [(varname & value & _ & _ & H)|[(di & _ & _ & H)|(_ & _ & -> & _)]]; [|..|done|done].
  - apply assign_Return_inv in H as (_ & -> & _). done.
  - destruct (String.eqb_spec logdatatype "ACQUISITION_INFO"); [done|].
    apply channel_row_Return_inv in H as
      (_ & t & value & k & chaidx & st1 & a0 & a' & _ & _ & _ & Hal & _ & Ha0 & Hset & ->).
    intros a [= <-]. eapply set_slice_shape; [exact Hset|].
    apply allocate_traces_Return_inv in Hal as (_ & [[_ ->]|(_ & _ & ->)]).
    + by apply HI.
    + cbn in Ha0. injection Ha0 as [= <-]. apply trace_shape_zeros.
Qed.

(** The array a channel parse returns has one column per lane, each of
    [expectedsamples] entries. *)
Lemma channel_shape fn logdatatype ft es a u l :
  logdatatype ≠ "ACQUISITION_INFO" →
  readparsefile fn logdatatype ft es = (Return (ChannelTuple (Some a) u), l) →
  trace_shape (Z.to_nat es) (lane_count logdatatype) a.
Proof.
  intros Hk Hr.
  apply readparsefile_Return_inv in Hr as (st & l' & Hp & Hf & _).
  apply finish_channel_Return_inv in Hf as (u' & _ & [= Htr _]); [|done].
  symmetry in Htr. revert a Htr.
  eapply (parse_lines_invariant
    (λ s, ∀ a, traces s = Some a → trace_shape (Z.to_nat es) (lane_count logdatatype) a));
    [|done|exact Hp].
  intros s line s' l0 Hin Hne HI Hs. by eapply parse_line_trace_shape.
Qed.


(** ** The acquisition mask *)

Lemma index_nonneg i n k l :
  np.index i n = (Return k, l) → 0 ≤ i → k = Z.to_nat i ∧ i < Z.of_nat n.
Proof.
  unfold np.index. destruct ((0 <=? i) && (i <? Z.of_nat n)) eqn:H1.
  - intros [= <- <-] _. by apply andb_prop in H1 as [_ ?%Z.ltb_lt].
  - destruct ((- Z.of_nat n <=? i) && (i <? 0)) eqn:H2; [|done].
    intros _ ?. apply andb_prop in H2 as [_ ?%Z.ltb_lt]. lia.
Qed.

Lemma at_axis_nonneg {A} (l : list A) i k x lg :
  np.at_axis l i = (Return (k, x), lg) → 0 ≤ i → l !! Z.to_nat i = Some x.
Proof.
  intros (_ & Hl & Hi)%at_axis_Return_inv Hpos.
  by apply index_nonneg in Hi as [<- _].
Qed.

Lemma get_cell_nonneg vols v s e c l :
  np.get_cell (np.SliceArray vols) v s e = (Return c, l) → 0 ≤ v → 0 ≤ s → 0 ≤ e →
  cell_at vols (Z.to_nat v) (Z.to_nat s) (Z.to_nat e) = Some c.
Proof.
  cbn [np.get_cell]. intros H Hv Hs He.
  inv_pure H as [kv slcs] Hv'. apply at_axis_nonneg in Hv'; [|done].
  inv_pure H as [ks ecos] Hs'. apply at_axis_nonneg in Hs'; [|done].
  inv_pure H as [ke c'] He'. apply at_axis_nonneg in He'; [|done].
  injection H as [= ->]. unfold cell_at. rewrite Hv'. cbn. rewrite Hs'. done.
Qed.

Lemma slice_forward a b n :
  0 ≤ a → 0 ≤ b →
  np.slice a b n =
    (Z.to_nat (Z.min a (Z.of_nat n)),
     Z.to_nat (Z.min b (Z.of_nat n) - Z.min a (Z.of_nat n))).
Proof.
  intros Ha Hb. unfold np.slice, np.slice_bound.
  destruct (Z.ltb_spec a 0); [lia|]. destruct (Z.ltb_spec b 0); [lia|]. done.
Qed.

(** One assignment to the mask: the ticks from start to finish of the
    cell become true. *)
Lemma mark_acquisition_spec vols v s e ACQ ACQ' l :
  mark_acquisition (np.SliceArray vols) v s e ACQ = (Return ACQ', l) →
  0 ≤ v → 0 ≤ s → 0 ≤ e →
  ∃ c, cell_at vols (Z.to_nat v) (Z.to_nat s) (Z.to_nat e) = Some c ∧
    l = [] ∧ length ACQ' = length ACQ ∧
    (0 ≤ c.1 → -1 ≤ c.2 < 2 ^ 63 - 1 →
     ∀ t, ACQ' !! t = Some true ↔
          ACQ !! t = Some true ∨ ((t < length ACQ)%nat ∧ c.1 ≤ Z.of_nat t ≤ c.2)).
Proof.
  unfold mark_acquisition. intros H Hv Hs He.
  inv_pure H as c Hc. apply get_cell_nonneg in Hc; [|done..].
  exists c. split; [done|].
  destruct (np.slice _ _ _) as [lo len] eqn:Hsl. injection H as [= <- <-].
  split; [done|]. split; [apply length_fill|].
  intros Hc1 Hc2 t.
  rewrite wrap64_small, slice_forward in Hsl by lia. injection Hsl as [= <- <-].
  destruct (decide (t < length ACQ)%nat) as [Ht|Ht].
  - rewrite lookup_fill by lia.
    destruct (Nat.leb_spec (Z.to_nat (c.1 `min` Z.of_nat (length ACQ))) t);
      [destruct (Nat.ltb_spec t (Z.to_nat (c.1 `min` Z.of_nat (length ACQ)) +
         Z.to_nat ((c.2 + 1) `min` Z.of_nat (length ACQ) - c.1 `min` Z.of_nat (length ACQ))))|];
      cbn [andb].
    + split; [intros _; right; lia|done].
    + split; [by left|]. intros [?|[_ ?]]; [done|lia].
    + split; [by left|]. intros [?|[_ ?]]; [done|lia].
  - rewrite !lookup_ge_None_2 by (rewrite ?length_fill; lia).
    split; [done|]. intros [?|[? _]]; [done|lia].
Qed.

Lemma foldM_mask {X} (f : list bool → X → M (list bool)) (cov : X → nat → Prop)
    (P : X → Prop) n :
  (∀ m x m' l, P x → length m = n → f m x = (Return m', l) →
     l = [] ∧ length m' = n ∧
     ∀ t, m' !! t = Some true ↔ m !! t = Some true ∨ cov x t) →
  ∀ xs m m' l, Forall P xs → length m = n → foldM f m xs = (Return m', l) →
     l = [] ∧ length m' = n ∧
     ∀ t, m' !! t = Some true ↔ m !! t = Some true ∨ ∃ x, x ∈ xs ∧ cov x t.
Proof.
  intros Hstep xs. induction xs as [|x xs IH]; intros m m' l HP Hm; cbn [foldM].
  - intros [= <- <-]. split_and!; [done..|]. intros t. split; [by left|].
    intros [?|(x & ?%elem_of_nil & _)]; done.
  - intros H. inv_bind H as m1 Hx. inversion_clear HP as [|?? Hx' HP'].
    destruct (Hstep _ _ _ _ Hx' Hm Hx) as (-> & Hm1 & Hcov1).
    destruct (IH _ _ _ HP' Hm1 H) as (-> & Hm' & Hcov).
    split_and!; [done..|]. intros t. rewrite Hcov, Hcov1. split.
    + intros [[?|?]|(y & ? & ?)]; [by left|right..].
      * exists x. split; [apply list_elem_of_here|done].
      * exists y. split; [by apply list_elem_of_further|done].
    + intros [?|(y & [->|?]%elem_of_cons & ?)]; [by left; left|by left; right|].
      right. by exists y.
Qed.



(** ** The entries of the result *)

Lemma array_stage_value X key (m m' : gmap string pyvalue) l :
  put_channel X (put_array key) m = (Return m', l) →
  ∀ k, m' !! k = stored k key (array_kept X) (m !! k).
Proof.
  intros [[-> Hk]|(a & -> & H)]%put_channel_Return_inv k.
  - unfold array_kept. destruct X as [[a|]|]; rewrite ?Hk; cbn; by rewrite stored_None.
  - exact (put_array_lookup _ _ _ _ _ H k).
Qed.

(** Every lookup of the dictionary that [assemble] returns. *)
Lemma assemble_entries UUID1 slicemap ACQ ECG RESP PULS EXT physio l :
  assemble UUID1 slicemap ACQ ECG RESP PULS EXT = (Return physio, l) →
  ∀ k, physio !! k =
    stored k "EXT2" (PyColumn <$> lane_kept EXT 1)
      (stored k "EXT" (PyColumn <$> lane_kept EXT 0)
        (stored k "PULS" (array_kept PULS)
          (stored k "RESP" (array_kept RESP)
            (stored k "ECG4" (PyColumn <$> lane_kept ECG 3)
              (stored k "ECG3" (PyColumn <$> lane_kept ECG 2)
                (stored k "ECG2" (PyColumn <$> lane_kept ECG 1)
                  (stored k "ECG1" (PyColumn <$> lane_kept ECG 0)
                    (if String.eqb k "ACQ" then Some (PyMask ACQ)
                     else if String.eqb k "SliceMap" then Some (PyArray slicemap)
                     else if String.eqb k "UUID" then Some (PyStr UUID1)
                     else None)))))))).
Proof.
  unfold assemble. intros H.
  inv_bind H as m1 H1. inv_bind H as m2 H2. inv_bind H as m3 H3.
  pose proof (ecg_stage_lookup _ _ _ _ H1) as L1.
  pose proof (array_stage_value _ _ _ _ _ H2) as L2.
  pose proof (array_stage_value _ _ _ _ _ H3) as L3.
  pose proof (ext_stage_lookup _ _ _ _ H) as L4.
  intros k. rewrite L4, L3, L2, L1. do 8 f_equal.
  destruct (String.eqb_spec k "ACQ") as [->|]; [by rewrite lookup_insert_eq|].
  rewrite lookup_insert_ne by done.
  destruct (String.eqb_spec k "SliceMap") as [->|]; [by rewrite lookup_insert_eq|].
  rewrite lookup_insert_ne by done.
  destruct (String.eqb_spec k "UUID") as [->|]; [by rewrite lookup_insert_eq|].
  by rewrite lookup_insert_ne by done.
Qed.

Lemma mask_length slicemap nv ns ne es ACQ l :
  acquisition_mask slicemap nv ns ne es = (Return ACQ, l) →
  length ACQ = Z.to_nat es.
Proof.
  unfold acquisition_mask. intros H.
  inv_bind H as ACQ0 H0. destruct (Z.ltb_spec es 0); [done|]. injection H0 as [= <- <-].
  inv_bind H as vs Hvs.
  assert (∀ (X : Type) (f : list bool → X → M (list bool)) n,
    (∀ m x m' lg, length m = n → f m x = (Return m', lg) → length m' = n) →
    ∀ xs m m' lg, length m = n → foldM f m xs = (Return m', lg) → length m' = n) as Hfold.
  { intros X f n Hf xs m m' lg Hm. apply (foldM_invariant f (λ m, length m = n) (λ _, True)).
    - intros ???? _. apply Hf.
    - by apply Forall_forall.
    - done. }
  revert H. apply Hfold; [|apply length_replicate].
  intros m v m' lg Hm. apply Hfold; [|done].
  intros m0 s m1 lg0 Hm0. apply Hfold; [|done].
  intros m2 e m3 lg1 Hm2. unfold mark_acquisition. intros Hmark.
  inv_pure Hmark as c Hc. destruct (np.slice _ _ _). injection Hmark as [= <-].
  by rewrite length_fill.
Qed.



Lemma lane_of_read src key logdatatype j slicemap UUID1 ns nv ft lt ne l0 X l1 :
  lane_source key = Some (logdatatype, j) →
  readparsefile (fnINFO src) "ACQUISITION_INFO" 0 0 =
    (Return (InfoTuple slicemap UUID1 ns nv ft lt ne), l0) →
  read_channel (channel_buffer src logdatatype) logdatatype UUID1 ft (lt - ft + 1 + 8)
    = (Return X, l1) →
  lane_of src key = lane_entry X j.
Proof.
  intros Hsrc Hinfo Hread.
  destruct (channel_traces_read _ _ _ _ _ _ _ _ _ _ _ _ Hinfo Hread) as [Htr _].
  unfold lane_of. rewrite Hsrc. cbn. rewrite Htr. by destruct X as [[[|lanes]|]|].
Qed.

Lemma read_channel_shape fn logdatatype UUID1 ft es a l :
  logdatatype ≠ "ACQUISITION_INFO" →
  read_channel fn logdatatype UUID1 ft es = (Return (Some (Some a)), l) →
  trace_shape (Z.to_nat es) (lane_count logdatatype) a.
Proof.
  intros Hk [(_ & [=] & _)|(buf & tr & -> & [= <-] & Hr)]%read_channel_Return_inv.
  by eapply channel_shape.
Qed.

Lemma lane_kept_Some X j col :
  lane_kept X j = Some col → lane_entry X j = Some col ∧ np.sum col ≠ 0.
Proof.
  unfold lane_kept. destruct (lane_entry X j) as [c|]; [|done]. cbn.
  destruct (Z.eqb_spec (np.sum c) 0); cbn; [done|]. by intros [= <-].
Qed.

Lemma lane_entry_shape X j col n lanes a :
  X = Some (Some a) → trace_shape n lanes a → lane_entry X j = Some col →
  length col = n ∧ (lanes = 1%nat → a = np.TraceArray [col]).
Proof.
  intros -> Hshape. destruct a as [|ls]; [done|]. destruct Hshape as [Hlen Hall].
  cbn. intros Hcol. split; [by eapply Forall_lookup_1 in Hall|].
  intros ->. destruct ls as [|c [|]]; try done.
  destruct j; [|done]. cbn in Hcol. congruence.
Qed.



(** ** Reconstruction of a channel from its rows *)

Lemma sample_zeros n lanes lane tick :
  (lane < lanes)%nat → 0 ≤ tick < Z.of_nat n →
  sample (np.TraceArray (replicate lanes (replicate n 0))) lane tick = Some 0.
Proof.
  intros Hl Ht. unfold sample. destruct (Z.ltb_spec tick 0); [lia|].
  rewrite lookup_replicate_2 by done. cbn. apply lookup_replicate_2. lia.
Qed.

(** The samples after a row that lies inside the array. *)
Lemma set_slice_sample a0 start k chaidx value a' n lanes lane tick :
  np.set_slice a0 start (start + k) chaidx value k = mret a' →
  trace_shape n lanes a0 → 0 ≤ start → start + k ≤ Z.of_nat n →
  0 ≤ tick < Z.of_nat n →
  sample a' lane tick =
    if Nat.eqb lane chaidx && (start <=? tick) && (tick <? start + k)
    then Some value else sample a0 lane tick.
Proof.
  intros (_ & Hk & _ & ls & col & -> & Hcol & _ & ->)%set_slice_Return_inv
    [Hlen Hall] Hs Hn Ht.
  assert (length col = n) as Hc by (by eapply Forall_lookup_1 in Hall).
  rewrite Hc, slice_inside by lia. cbn [fst snd].
  unfold sample. destruct (Z.ltb_spec tick 0); [lia|].
  destruct (Nat.eqb_spec lane chaidx) as [->|Hne]; cbn [andb].
  - rewrite list_lookup_insert_eq by (by eapply lookup_lt_Some). rewrite Hcol. cbn.
    rewrite lookup_fill by lia.
    destruct (Z.leb_spec start tick), (Z.ltb_spec tick (start + k)),
      (Nat.leb_spec (Z.to_nat start) (Z.to_nat tick)),
      (Nat.ltb_spec (Z.to_nat tick) (Z.to_nat start + Z.to_nat k)); cbn; done || lia.
  - by rewrite list_lookup_insert_ne by done.
Qed.

Lemma row_sample_None logdatatype ft k lane tick line :
  data_row line = None → row_sample logdatatype ft k lane tick line = None.
Proof. unfold row_sample. by intros ->. Qed.



(** ** Rows outside the window *)

Lemma index_of_lt x names j : index_of x names = Some j → (j < length names)%nat.
Proof.
  revert j. induction names as [|y names IH]; intros j; cbn; [done|].
  destruct (String.eqb x y); [intros [= <-]; lia|].
  destruct (index_of x names) as [i|]; [|done]. cbn. intros [= <-].
  specialize (IH _ eq_refl). lia.
Qed.

Lemma lane_index_lt logdatatype curchannel j :
  lane_index logdatatype curchannel = Some j → (j < lane_count logdatatype)%nat.
Proof.
  unfold lane_index, lane_count.
  destruct (String.eqb logdatatype "ECG"); [by intros ?%index_of_lt|].
  destruct (String.eqb logdatatype "EXT"); [by intros ?%index_of_lt|].
  intros [= <-]. lia.
Qed.

Lemma allocate_traces_skip es lanes st a :
  traces st = Some a → allocate_traces es lanes st = mret st.
Proof. unfold allocate_traces. by intros ->. Qed.

Lemma select_lane_allocated logdatatype curchannel es st a j :
  traces st = Some a → lane_index logdatatype curchannel = Some j →
  select_lane logdatatype curchannel es st = mret (st, j).
Proof.
  unfold select_lane, lane_index. intros Ha Hj.
  rewrite !(allocate_traces_skip _ _ _ _ Ha).
  destruct (String.eqb logdatatype "ECG"); [by rewrite mret_bind, Hj|].
  destruct (String.eqb logdatatype "EXT"); [by rewrite mret_bind, Hj|].
  injection Hj as [= <-]. by rewrite mret_bind.
Qed.

(** A data row met when the array is there and the hold time is known. *)
Lemma channel_row_allocated logdatatype es dataitems st t value k chaidx a :
  Str.int (item dataitems 0) = Some t → Str.int (item dataitems 2) = Some value →
  lane_index logdatatype (item dataitems 1) = Some chaidx →
  sampletime st = Some k → traces st = Some a →
  channel_row logdatatype es dataitems st =
    (a' ← np.set_slice a (t - firsttime st) (t - firsttime st + k) chaidx value k;
     mret (set_traces a' st)).
Proof.
  intros Ht Hv Hj Hk Ha. unfold channel_row.
  rewrite (py_int_Some _ _ Ht), mret_bind, (py_int_Some _ _ Hv), mret_bind.
  rewrite (select_lane_allocated _ _ _ _ _ _ Ha Hj), mret_bind.
  by rewrite (read_var_Some _ _ Hk), mret_bind, (read_var_Some _ _ Ha), mret_bind.
Qed.

(** The assignment to a slice of a lane, by the bounds of the slice. *)
Lemma set_slice_eval ls lane col start stop value k :
  0 ≤ k → np.int64_ok value = true → ls !! lane = Some col →
  np.set_slice (np.TraceArray ls) start stop lane value k =
    if (Z.of_nat (np.slice start stop (length col)).2 =? k) || (k =? 1)
    then mret (np.TraceArray
           (<[lane := np.fill (np.slice start stop (length col)).1
                        (np.slice start stop (length col)).2 value col]> ls))
    else throw ValueError.
Proof.
  intros Hk Hv Hcol. unfold np.set_slice.
  destruct (Z.ltb_spec k 0); [lia|]. rewrite mret_bind.
  rewrite (to_int64_ok _ Hv), mret_bind, Hcol.
  by destruct (np.slice start stop (length col)).
Qed.

Lemma set_traces_same st a : traces st = Some a → set_traces a st = st.
Proof. destruct st. cbn. by intros ->. Qed.

Lemma fill_nothing {A} lo (x : A) l : np.fill lo 0 x l = l.
Proof. done. Qed.


Lemma slice_from_the_end c k n :
  - Z.of_nat n ≤ c → c + k < 0 → 0 ≤ k →
  np.slice c (c + k) n = (Z.to_nat (Z.of_nat n + c), Z.to_nat k).
Proof.
  intros. unfold np.slice, np.slice_bound.
  destruct (Z.ltb_spec c 0); [|lia]. destruct (Z.ltb_spec (c + k) 0); [|lia].
  f_equal; lia.
Qed.



(** ** Cells of the slice map *)

(** The positions a cell access resolves to. *)
Lemma get_cell_resolved vols v s e c l :
  np.get_cell (np.SliceArray vols) v s e = (Return c, l) →
  ∃ kv ks ke slcs ecos,
    np.index v (length vols) = mret kv ∧ vols !! kv = Some slcs ∧
    np.index s (length slcs) = mret ks ∧ slcs !! ks = Some ecos ∧
    np.index e (length ecos) = mret ke ∧ ecos !! ke = Some c.
Proof.
  cbn [np.get_cell]. intros H.
  inv_pure H as [kv slcs] Hv. apply at_axis_Return_inv in Hv as (_ & Hv & Hiv).
  inv_pure H as [ks ecos] Hs. apply at_axis_Return_inv in Hs as (_ & Hs & His).
  inv_pure H as [ke c'] He. apply at_axis_Return_inv in He as (_ & He & Hie).
  injection H as [= ->]. by exists kv, ks, ke, slcs, ecos.
Qed.

Lemma get_cell_of_resolved vols v s e c kv ks ke slcs ecos :
  np.index v (length vols) = mret kv → vols !! kv = Some slcs →
  np.index s (length slcs) = mret ks → slcs !! ks = Some ecos →
  np.index e (length ecos) = mret ke → ecos !! ke = Some c →
  np.get_cell (np.SliceArray vols) v s e = mret c.
Proof.
  intros Hiv Hv His Hs Hie He. cbn [np.get_cell].
  rewrite (at_axis_Return _ _ _ _ Hiv Hv), mret_bind.
  rewrite (at_axis_Return _ _ _ _ His Hs), mret_bind.
  by rewrite (at_axis_Return _ _ _ _ Hie He), mret_bind.
Qed.

(** Writing a cell leaves every cell that holds something else than the
    cell written did. *)
Lemma set_cell_get_other a v' s' e' x y a' c0 v s e c :
  np.set_cell a v' s' e' x y = mret a' →
  np.get_cell a v' s' e' = mret c0 →
  np.get_cell a v s e = mret c → c ≠ c0 →
  np.get_cell a' v s e = mret c.
Proof.
  intros Hset Hget0 Hget Hne.
  apply set_cell_Return_inv in Hset as
    (_ & _ & _ & vols & jv & js & je & slcs' & ecos' & -> & Hv' & Hs' & He' & Hiv' & His'
     & Hie' & ->).
  apply get_cell_resolved in Hget0 as
    (jv0 & js0 & je0 & slcs0 & ecos0 & Hiv0 & Hv0 & His0 & Hs0 & Hie0 & He0).
  rewrite Hiv' in Hiv0. injection Hiv0 as [= <-].
  rewrite Hv' in Hv0. injection Hv0 as [= <-].
  rewrite His' in His0. injection His0 as [= <-].
  rewrite Hs' in Hs0. injection Hs0 as [= <-].
  rewrite Hie' in Hie0. injection Hie0 as [= <-].
  apply get_cell_resolved in Hget as
    (kv & ks & ke & slcs & ecos & Hiv & Hv & His & Hs & Hie & He).
  destruct (decide (kv = jv)) as [->|Hnv].
  - rewrite Hv' in Hv. injection Hv as [= <-].
    pose proof (lookup_lt_Some _ _ _ Hv') as Hltv.
    destruct (decide (ks = js)) as [->|Hns].
    + rewrite Hs' in Hs. injection Hs as [= <-].
      pose proof (lookup_lt_Some _ _ _ Hs') as Hlts.
      destruct (decide (ke = je)) as [->|Hnk]; [congruence|].
      apply (get_cell_of_resolved _ _ _ _ _ jv js ke
               (<[js := <[je := (x, y)]> ecos']> slcs') (<[je := (x, y)]> ecos')).
      * by rewrite length_insert.
      * by apply list_lookup_insert_eq.
      * by rewrite length_insert.
      * by apply list_lookup_insert_eq.
      * by rewrite length_insert.
      * by rewrite list_lookup_insert_ne.
    + apply (get_cell_of_resolved _ _ _ _ _ jv ks ke
               (<[js := <[je := (x, y)]> ecos']> slcs') ecos).
      * by rewrite length_insert.
      * by apply list_lookup_insert_eq.
      * by rewrite length_insert.
      * by rewrite list_lookup_insert_ne.
      * done.
      * done.
  - apply (get_cell_of_resolved _ _ _ _ _ kv ks ke slcs ecos); try done.
    + by rewrite length_insert.
    + by rewrite list_lookup_insert_ne.
Qed.

Lemma get_cell_sub_scalar a x a' v s e c :
  np.sub_scalar a x = mret a' → np.get_cell a v s e = mret c →
  np.get_cell a' v s e = mret (np.wrap64 (c.1 - x), np.wrap64 (c.2 - x)).
Proof.
  unfold np.sub_scalar. intros Hsub Hget.
  inv_pure Hsub as x' Hx. apply to_int64_Return_inv in Hx as (-> & _ & _).
  destruct a as [vols|]; [|done]. injection Hsub as [= <-].
  apply get_cell_resolved in Hget as
    (kv & ks & ke & slcs & ecos & Hiv & Hv & His & Hs & Hie & He).
  apply (get_cell_of_resolved _ _ _ _ _ kv ks ke
    (fmap (M := list) (fmap (M := list)
       (λ c : np.cell, (np.wrap64 (c.1 - x), np.wrap64 (c.2 - x)))) slcs)
    (fmap (M := list)
       (λ c : np.cell, (np.wrap64 (c.1 - x), np.wrap64 (c.2 - x))) ecos)).
  - by rewrite length_fmap.
  - by rewrite list_lookup_fmap, Hv.
  - by rewrite length_fmap.
  - by rewrite list_lookup_fmap, Hs.
  - by rewrite length_fmap.
  - by rewrite list_lookup_fmap, He.
Qed.

Lemma row_fields_Some line v s start fin e :
  row_fields line = Some (v, s, start, fin, e) →
  ∃ dataitems, data_row line = Some dataitems ∧
    Str.int (item dataitems 0) = Some v ∧ Str.int (item dataitems 1) = Some s ∧
    Str.int (item dataitems 2) = Some start ∧ Str.int (item dataitems 3) = Some fin ∧
    Str.int (item dataitems 4) = Some e.
Proof.
  unfold row_fields. destruct (data_row line) as [di|]; [|done].
  cbn [mbind option_bind].
  destruct (Str.int (item di 0)) eqn:H0; [|done]. cbn [mbind option_bind].
  destruct (Str.int (item di 1)) eqn:H1; [|done]. cbn [mbind option_bind].
  destruct (Str.int (item di 2)) eqn:H2; [|done]. cbn [mbind option_bind].
  destruct (Str.int (item di 3)) eqn:H3; [|done]. cbn [mbind option_bind].
  destruct (Str.int (item di 4)) eqn:H4; [|done]. cbn [mbind option_bind].
  intros [= <- <- <- <- <-]. by exists di.
Qed.

(** A row of the INFO buffer that was accepted has stored its times in
    the cell it addresses. *)
Lemma acquisition_row_stored nlines dataitems st st' l v s start fin e :
  acquisition_row nlines dataitems st = (Return st', l) →
  Str.int (item dataitems 0) = Some v → Str.int (item dataitems 1) = Some s →
  Str.int (item dataitems 2) = Some start → Str.int (item dataitems 3) = Some fin →
  Str.int (item dataitems 4) = Some e →
  ∃ a', traces st' = Some a' ∧ np.get_cell a' v s e = mret (start, fin).
Proof.
  intros (st1 & l1 & a0 & a' & v' & s' & e' & x & y & _ & _ & _ & _ & Hv & Hs & Hx & Hy
          & He & Hget & Hset & ->)%acquisition_row_Return_inv Hv' Hs' Hx' Hy' He'.
  rewrite Hv in Hv'. rewrite Hs in Hs'. rewrite Hx in Hx'. rewrite Hy in Hy'.
  rewrite He in He'. injection Hv' as [= ->]. injection Hs' as [= ->].
  injection Hx' as [= ->]. injection Hy' as [= ->]. injection He' as [= ->].
  exists a'. split; [done|].
  pose proof (set_cell_Return_inv _ _ _ _ _ _ _ _ Hset) as (_ & Hok1 & Hok2 & _).
  destruct (set_cell_after_get _ _ _ _ _ _ _ Hget Hok1 Hok2) as (a'' & Hset' & Hget').
  rewrite Hset in Hset'. by injection Hset' as [= ->].
Qed.

(** A cell with a nonzero entry stays as it is over every line that is
    accepted. *)
Lemma parse_line_keeps_cell nlines es st line st' l v s e c :
  line ≠ "" → c ≠ (0, 0) →
  (∃ a, traces st = Some a ∧ np.get_cell a v s e = mret c) →
  parse_line "ACQUISITION_INFO" nlines es st line = (Return st', l) →
  ∃ a, traces st' = Some a ∧ np.get_cell a v s e = mret c.
Proof.
  intros Hne Hc (a & Ha & Hget) H.
  apply parse_line_Return_inv in H as
    [(varname & value & _ & _ & H)|[(di & _ & _ & H)|(_ & _ & -> & _)]]; [|..|by eauto|done].
  - apply assign_Return_inv in H as (_ & -> & _). eauto.
  - cbn in H. apply acquisition_row_Return_inv in H as
      (st1 & l1 & a0 & a' & v' & s' & e' & x & y & _ & _ & _ & Ha0 & _ & _ & _ & _ & _
       & Hget0 & Hset & ->).
    destruct Ha0 as [Ha0|[Ha0 _]]; [|congruence].
    rewrite Ha in Ha0. injection Ha0 as [= <-].
    exists a'. split; [done|]. by eapply set_cell_get_other.
Qed.






(** ** Rows outside the map *)

Lemma index_out_of_range i n :
  ¬ (- Z.of_nat n ≤ i < Z.of_nat n) → np.index i n = throw IndexError.
Proof.
  intros Hout. unfold np.index.
  destruct (Z.leb_spec 0 i), (Z.ltb_spec i (Z.of_nat n)); cbn [andb]; try lia;
    destruct (Z.leb_spec (- Z.of_nat n) i), (Z.ltb_spec i 0); cbn [andb]; done || lia.
Qed.

Lemma index_in_range i n :
  - Z.of_nat n ≤ i < Z.of_nat n → ∃ k, np.index i n = mret k ∧ (k < n)%nat.
Proof.
  intros Hin. unfold np.index.
  destruct (Z.leb_spec 0 i), (Z.ltb_spec i (Z.of_nat n)); cbn [andb]; try lia.
  - eexists. split; [done|]. lia.
  - destruct (Z.leb_spec (- Z.of_nat n) i), (Z.ltb_spec i 0); cbn [andb]; try lia.
    eexists. split; [done|]. lia.
Qed.

Lemma at_axis_out_of_range {A} (l : list A) i :
  ¬ (- Z.of_nat (length l) ≤ i < Z.of_nat (length l)) → np.at_axis l i = throw IndexError.
Proof. intros H. unfold np.at_axis. by rewrite (index_out_of_range _ _ H). Qed.

Lemma at_axis_in_range {A} (l : list A) i :
  - Z.of_nat (length l) ≤ i < Z.of_nat (length l) →
  ∃ k x, np.at_axis l i = mret (k, x) ∧ l !! k = Some x.
Proof.
  intros (k & Hk & Hlt)%index_in_range. unfold np.at_axis. rewrite Hk, mret_bind.
  destruct (lookup_lt_is_Some_2 l k Hlt) as [x Hx]. exists k, x. by rewrite Hx.
Qed.

(** An index outside the shape of the map, on any of the three axes. *)
Lemma get_cell_out_of_range vols nv ns ne v s e :
  map_shape nv ns ne vols →
  ¬ (- Z.of_nat nv ≤ v < Z.of_nat nv ∧ - Z.of_nat ns ≤ s < Z.of_nat ns
     ∧ - Z.of_nat ne ≤ e < Z.of_nat ne) →
  np.get_cell (np.SliceArray vols) v s e = throw IndexError.
Proof.
  intros [Hnv Hall] Hout. cbn [np.get_cell].
  destruct (decide (- Z.of_nat nv ≤ v < Z.of_nat nv)) as [Hv|Hv].
  2:{ rewrite at_axis_out_of_range by (by rewrite Hnv). done. }
  destruct (at_axis_in_range vols v) as (kv & slcs & -> & Hslcs); [by rewrite Hnv|].
  rewrite mret_bind.
  eapply Forall_lookup_1 in Hall as [Hns Hall']; [|exact Hslcs].
  destruct (decide (- Z.of_nat ns ≤ s < Z.of_nat ns)) as [Hs|Hs].
  2:{ rewrite at_axis_out_of_range by (by rewrite Hns). done. }
  destruct (at_axis_in_range slcs s) as (ks & ecos & -> & Hecos); [by rewrite Hns|].
  rewrite mret_bind.
  eapply Forall_lookup_1 in Hall' as Hne; [|exact Hecos].
  rewrite at_axis_out_of_range; [done|]. rewrite Hne. tauto.
Qed.



(** ** Log discipline *)

Create HintDb logged discriminated.

Lemma mild_mret {A} (a : A) : mild (mret a).
Proof. done. Qed.

Lemma mild_throw {A} e : e ≠ RuntimeError → mild (@throw A e).
Proof. by destruct e. Qed.

Lemma mild_bind {A B} (m : M A) (f : A → M B) :
  mild m → (∀ a, mild (f a)) → mild (m ≫= f).
Proof.
  destruct m as [[a|e] l]; cbn.
  - intros -> Hf. specialize (Hf a). unfold mbind, M_bind.
    by destruct (f a) as [[b|[]] l'].
  - by destruct e.
Qed.

Lemma mild_if {A} (b : bool) (m1 m2 : M A) :
  mild m1 → mild m2 → mild (if b then m1 else m2).
Proof. by destruct b. Qed.

Lemma mild_logged {A} (m : M A) : mild m → logged m.
Proof. destruct m as [[a|[]] l]; cbn; by try intros ->. Qed.

Lemma no_error_app l1 l2 : no_error (l1 ++ l2) = no_error l1 && no_error l2.
Proof. apply forallb_app. Qed.

Lemma logged_bind {A B} (m : M A) (f : A → M B) :
  logged m → (∀ a, logged (f a)) → logged (m ≫= f).
Proof.
  destruct m as [[a|e] l]; [|done]. cbn. intros Hl Hf. specialize (Hf a).
  unfold mbind, M_bind. destruct (f a) as [[b|e] l']; cbn in *.
  - by rewrite no_error_app, Hl, Hf.
  - destruct e; rewrite ?no_error_app, ?Hl, ?Hf; try done.
    destruct Hf as (l0 & msg & -> & Hl0). exists (l ++ l0), msg.
    by rewrite app_assoc, no_error_app, Hl, Hl0.
Qed.

Lemma logged_if {A} (b : bool) (m1 m2 : M A) :
  logged m1 → logged m2 → logged (if b then m1 else m2).
Proof. by destruct b. Qed.

Lemma logged_hard_error {A} msg : logged (@hard_error A msg).
Proof. by exists [], msg. Qed.

Lemma logged_when b (m : M unit) : logged m → logged (when b m).
Proof. by destruct b. Qed.

Lemma logged_foldM {X S} (f : S → X → M S) s xs :
  (∀ s x, logged (f s x)) → logged (foldM f s xs).
Proof.
  intros Hf. revert s. induction xs as [|x xs IH]; intros s; cbn [foldM]; [done|].
  by apply logged_bind.
Qed.

#[export] Hint Resolve mild_mret mild_bind mild_if : logged.
#[export] Hint Extern 1 (mild (throw _)) => (apply mild_throw; discriminate) : logged.

Lemma mild_read_var {A} (x : option A) : mild (read_var x).
Proof. destruct x; cbn [read_var]; auto with logged. Qed.

Lemma mild_py_int s : mild (py_int s).
Proof. unfold py_int. destruct (Str.int s); auto with logged. Qed.

Lemma mild_to_int64 z : mild (np.to_int64 z).
Proof. unfold np.to_int64. auto with logged. Qed.

Lemma mild_index i n : mild (np.index i n).
Proof. unfold np.index. auto with logged. Qed.

#[export] Hint Resolve mild_read_var mild_py_int mild_to_int64 mild_index : logged.

Lemma mild_at_axis {A} (l : list A) i : mild (np.at_axis l i).
Proof.
  unfold np.at_axis. apply mild_bind; [auto with logged|].
  intros n. destruct (l !! n); auto with logged.
Qed.

#[export] Hint Resolve mild_at_axis : logged.

Lemma mild_get_cell a v s e : mild (np.get_cell a v s e).
Proof.
  destruct a; cbn [np.get_cell]; [|auto with logged].
  repeat (apply mild_bind; [auto with logged|intros []]). auto with logged.
Qed.

Lemma mild_set_cell a v s e x y : mild (np.set_cell a v s e x y).
Proof.
  destruct a; cbn [np.set_cell]; [|auto with logged].
  do 3 (apply mild_bind; [auto with logged|intros []]).
  repeat (apply mild_bind; [auto with logged|intros ?]). auto with logged.
Qed.

Lemma mild_zeros4 v s e : mild (np.zeros4 v s e).
Proof. destruct v; cbn [np.zeros4]; auto with logged. Qed.

Lemma mild_zeros2 n lanes : mild (np.zeros2 n lanes).
Proof. unfold np.zeros2. auto with logged. Qed.

Lemma mild_set_slice a start stop lane value k :
  mild (np.set_slice a start stop lane value k).
Proof.
  unfold np.set_slice. apply mild_bind; [auto with logged|intros _].
  apply mild_bind; [auto with logged|intros value'].
  destruct a as [|lanes]; [auto with logged|].
  destruct (lanes !! lane); [|auto with logged].
  destruct (np.slice _ _ _). auto with logged.
Qed.

Lemma mild_sub_scalar a x : mild (np.sub_scalar a x).
Proof.
  unfold np.sub_scalar. apply mild_bind; [auto with logged|intros x'].
  destruct a; auto with logged.
Qed.

Lemma mild_truediv a b : mild (truediv a b).
Proof. unfold truediv. auto with logged. Qed.

Lemma mild_column a j : mild (column a j).
Proof.
  destruct a as [|lanes]; cbn [column]; [auto with logged|].
  destruct (lanes !! j); auto with logged.
Qed.

Lemma mild_split_assignment line : mild (split_assignment line).
Proof.
  unfold split_assignment.
  destruct (Str.strip <$> Str.split "=" line) as [|a [|b [|c r]]]; auto with logged.
Qed.

#[export] Hint Resolve mild_get_cell mild_set_cell mild_zeros4 mild_zeros2
  mild_set_slice mild_sub_scalar mild_truediv mild_column mild_split_assignment
  : logged.

#[export] Hint Resolve logged_bind logged_if logged_hard_error logged_when
  logged_foldM : logged.
#[export] Hint Extern 5 (logged _) => (apply mild_logged; auto 10 with logged) : logged.

Lemma logged_emit lv msg : lv ≠ ERROR → logged (emit lv msg).
Proof. by destruct lv. Qed.

#[export] Hint Extern 1 (logged (emit _ _)) => (apply logged_emit; discriminate) : logged.

Lemma logged_misplaced varname : logged (misplaced varname).
Proof. apply logged_hard_error. Qed.

#[export] Hint Resolve logged_misplaced : logged.

Lemma logged_assign logdatatype varname value st :
  logged (assign logdatatype varname value st).
Proof.
  unfold assign.
  repeat (apply logged_bind; [auto 10 with logged|intros ?]).
  auto 10 with logged.
Qed.

Lemma logged_assignment logdatatype line st : logged (assignment logdatatype line st).
Proof.
  unfold assignment. apply logged_bind; [auto with logged|]. intros [varname value].
  apply logged_assign.
Qed.

Lemma logged_correct_nrvolumes nlines st : logged (correct_nrvolumes nlines st).
Proof.
  unfold correct_nrvolumes.
  repeat (apply logged_bind; [auto 10 with logged|intros ?]).
  apply logged_if; [|auto with logged].
  repeat (apply logged_bind; [auto 10 with logged|intros ?]). auto with logged.
Qed.

Lemma mild_allocate_slicemap st : mild (allocate_slicemap st).
Proof.
  unfold allocate_slicemap. destruct (traces st); [auto with logged|].
  repeat (apply mild_bind; [auto 10 with logged|intros ?]). auto with logged.
Qed.

Lemma logged_acquisition_row nlines dataitems st :
  logged (acquisition_row nlines dataitems st).
Proof.
  unfold acquisition_row.
  apply logged_bind; [auto with logged|intros _].
  apply logged_bind; [apply logged_correct_nrvolumes|intros st1].
  apply logged_bind; [apply mild_logged, mild_allocate_slicemap|intros st2].
  do 5 (apply logged_bind; [auto 10 with logged|intros ?]).
  apply logged_bind; [|intros cureco; auto 10 with logged].
  apply logged_if.
  - repeat (apply logged_bind; [auto 10 with logged|intros ?]). auto with logged.
  - apply logged_bind; [auto 10 with logged|intros c].
    apply logged_bind; [apply mild_logged; unfold truth_of_pair; auto with logged|].
    intros b. apply logged_bind; [|auto with logged].
    apply logged_when. auto with logged.
Qed.

Lemma mild_allocate_traces es lanes st : mild (allocate_traces es lanes st).
Proof.
  unfold allocate_traces. destruct (traces st); [auto with logged|].
  apply mild_bind; auto with logged.
Qed.

Lemma logged_select_lane logdatatype curchannel es st :
  logged (select_lane logdatatype curchannel es st).
Proof.
  unfold select_lane.
  repeat apply logged_if;
    (apply logged_bind; [apply mild_logged, mild_allocate_traces|intros ?]);
    try destruct (index_of _ _); auto with logged.
Qed.

Lemma logged_channel_row logdatatype es dataitems st :
  logged (channel_row logdatatype es dataitems st).
Proof.
  unfold channel_row.
  do 2 (apply logged_bind; [auto 10 with logged|intros ?]).
  apply logged_bind; [apply logged_select_lane|intros [st1 chaidx]].
  repeat (apply logged_bind; [auto 10 with logged|intros ?]). auto with logged.
Qed.

Lemma logged_parse_line logdatatype nlines es st line :
  logged (parse_line logdatatype nlines es st line).
Proof.
  unfold parse_line. cbn zeta.
  apply logged_if; [apply logged_assignment|].
  apply logged_if; [auto with logged|].
  apply logged_if; [apply logged_acquisition_row|apply logged_channel_row].
Qed.

Lemma mild_finish logdatatype st : mild (finish logdatatype st).
Proof.
  unfold finish. apply mild_if.
  - apply mild_bind; [destruct (traces st); auto with logged|intros ?].
    repeat (apply mild_bind; [auto 10 with logged|intros ?]). auto with logged.
  - apply mild_bind; auto with logged.
Qed.

Lemma logged_readparsefile fn logdatatype ft es :
  logged (readparsefile fn logdatatype ft es).
Proof.
  unfold readparsefile. cbn zeta.
  apply logged_bind; [auto with logged|intros _].
  apply logged_bind; [|intros st; apply mild_logged, mild_finish].
  unfold parse_lines. apply logged_foldM. intros s x. apply logged_parse_line.
Qed.

Lemma logged_read_channel fn logdatatype UUID1 ft es :
  logged (read_channel fn logdatatype UUID1 ft es).
Proof.
  unfold read_channel. destruct fn as [buf|]; [|auto with logged].
  apply logged_bind; [apply logged_readparsefile|]. intros [|X UUID2]; auto with logged.
Qed.

Lemma mild_mark_acquisition slicemap v s e ACQ :
  mild (mark_acquisition slicemap v s e ACQ).
Proof.
  unfold mark_acquisition. apply mild_bind; [auto with logged|intros c].
  destruct (np.slice _ _ _). auto with logged.
Qed.

Lemma mild_foldM {X S} (f : S → X → M S) s xs :
  (∀ s x, mild (f s x)) → mild (foldM f s xs).
Proof.
  intros Hf. revert s. induction xs as [|x xs IH]; intros s; cbn [foldM]; [done|].
  by apply mild_bind.
Qed.

Lemma mild_acquisition_mask slicemap nv ns ne es :
  mild (acquisition_mask slicemap nv ns ne es).
Proof.
  unfold acquisition_mask. apply mild_bind; [auto with logged|intros ACQ].
  apply mild_bind; [destruct nv; cbn [range]; auto with logged|intros vs].
  apply mild_foldM. intros m v. apply mild_foldM. intros m' s.
  apply mild_foldM. intros m'' e. apply mild_mark_acquisition.
Qed.

Lemma mild_put_lane key a j physio : mild (put_lane key a j physio).
Proof. unfold put_lane. apply mild_bind; auto with logged. Qed.

Lemma mild_put_array key a physio : mild (put_array key a physio).
Proof. unfold put_array. destruct a as [|[|col [|]]]; auto with logged. Qed.

Lemma mild_put_channel X puts physio :
  (∀ a m, mild (puts a m)) → mild (put_channel X puts physio).
Proof. intros Hp. destruct X as [[a|]|]; cbn [put_channel]; auto with logged. Qed.

Lemma mild_assemble UUID1 slicemap ACQ ECG RESP PULS EXT :
  mild (assemble UUID1 slicemap ACQ ECG RESP PULS EXT).
Proof.
  unfold assemble. cbn zeta.
  apply mild_bind; [apply mild_put_channel|intros ?].
  { intros arr m. repeat (apply mild_bind; [apply mild_put_lane|intros ?]).
    apply mild_put_lane. }
  apply mild_bind; [apply mild_put_channel, mild_put_array|intros ?].
  apply mild_bind; [apply mild_put_channel, mild_put_array|intros ?].
  apply mild_put_channel. intros arr m.
  apply mild_bind; [apply mild_put_lane|intros ?]. apply mild_put_lane.
Qed.



(** ** The encoded DICOM payload *)

Section payload.
Import Dicom.

Lemma length_slice (b : bytes) i j :
  0 ≤ i → 0 ≤ j →
  length (slice b i j) =
    Z.to_nat (Z.min j (Z.of_nat (length b)) - Z.min i (Z.of_nat (length b))).
Proof.
  intros Hi Hj. unfold slice. rewrite slice_forward by done.
  rewrite length_take, length_drop. lia.
Qed.

(** The slice that is the middle one of three parts. *)
Lemma slice_middle (a m c : bytes) i j :
  i = Z.of_nat (length a) → j = Z.of_nat (length a + length m) →
  slice (a ++ m ++ c) i j = m.
Proof.
  intros -> ->. unfold slice. rewrite slice_forward by lia.
  rewrite !length_app.
  replace (Z.to_nat (Z.of_nat (length a) `min`
             Z.of_nat (length a + (length m + length c)))) with (length a) by lia.
  replace (Z.to_nat (Z.of_nat (length a + length m) `min`
             Z.of_nat (length a + (length m + length c)) -
           Z.of_nat (length a) `min` Z.of_nat (length a + (length m + length c))))
    with (length m) by lia.
  by rewrite drop_app_length, take_app_length.
Qed.

Lemma slice_prefix (m c : bytes) j :
  j = Z.of_nat (length m) → slice (m ++ c) 0 j = m.
Proof. intros ->. by apply (slice_middle [] m c). Qed.

Lemma unpack_of_four (b : bytes) :
  length b = 4%nat → is_Some (unpack_uint32 b).
Proof. destruct b as [|? [|? [|? [|? [|]]]]]; cbn; try done. Qed.

Lemma byte_val_byte_of z : 0 ≤ z < 256 → byte_val (byte_of z) = z.
Proof.
  intros Hz. unfold byte_val, byte_of.
  pose proof (Byte.to_of_N_option_map (Z.to_N z)) as H.
  destruct (Byte.of_N (Z.to_N z)) as [y|]; cbn in *.
  - destruct (N.leb_spec (Z.to_N z) 255); [|lia]. injection H as [= ->]. lia.
  - destruct (N.leb_spec (Z.to_N z) 255); [done|lia].
Qed.

Lemma unpack_pack n : 0 ≤ n < 2 ^ 32 → unpack_uint32 (pack_uint32 n) = Some n.
Proof.
  intros Hn. unfold pack_uint32, unpack_uint32.
  rewrite !byte_val_byte_of by (apply Z.mod_pos_bound; lia).
  f_equal. Z.div_mod_to_equations. lia.
Qed.

Lemma length_pad n (b : bytes) : (length b ≤ n)%nat → length (pad n b) = n.
Proof. intros. unfold pad. rewrite length_app, length_replicate. lia. Qed.




Lemma length_pack n : length (pack_uint32 n) = 4%nat.
Proof. done. Qed.

(** The chunk of a file that fits, part by part. *)
Lemma chunk_parts rows name data :
  1 ≤ rows → fits rows (name, data) = true →
  ∃ z1 z2,
    chunk rows (name, data) =
      pack_uint32 (Z.of_nat (length data)) ++ pack_uint32 (Z.of_nat (length name))
      ++ name ++ replicate z1 Byte.x00 ++ data ++ replicate z2 Byte.x00 ∧
    (8 + length name + z1 = 1024)%nat ∧
    Z.of_nat (1024 + length data + z2) = rows * 1024 ∧
    utf8_valid name = true ∧ Z.of_nat (length data) < 2 ^ 32.
Proof.
  intros Hrows Hfit. unfold fits in Hfit. cbn [fst snd] in Hfit.
  apply andb_prop in Hfit as [[[Hutf Hname%Nat.leb_le]%andb_prop Hdata%Z.leb_le]%andb_prop
                               Hlt%Z.ltb_lt].
  unfold chunk, pad. cbn [fst snd].
  eexists _, _. split; [by rewrite <- !app_assoc|].
  rewrite !length_app, !length_pack, length_replicate. split_and!; [lia|lia|done|done].
Qed.

Lemma length_chunk rows file :
  1 ≤ rows → fits rows file = true →
  Z.of_nat (length (chunk rows file)) = rows * 1024.
Proof.
  intros Hrows Hfit. destruct file as [name data].
  destruct (chunk_parts _ _ _ Hrows Hfit) as (z1 & z2 & -> & H1 & H2 & _).
  rewrite !length_app, !length_pack, !length_replicate. lia.
Qed.

(** Decoding a chunk gives back the name and the data of its file. *)
Lemma decode_file_chunk rows name data :
  1 ≤ rows → fits rows (name, data) = true →
  decode_file (chunk rows (name, data)) = inr (name, data).
Proof.
  intros Hrows Hfit.
  destruct (chunk_parts _ _ _ Hrows Hfit) as (z1 & z2 & -> & H1 & H2 & Hutf & Hlt).
  set (dl := pack_uint32 (Z.of_nat (length data))).
  set (nl := pack_uint32 (Z.of_nat (length name))).
  unfold decode_file.
  rewrite (slice_prefix dl _ 4) by done. unfold dl at 1.
  rewrite unpack_pack by lia.
  rewrite (slice_middle dl nl _ 4 8) by done. unfold nl at 1.
  rewrite unpack_pack by lia.
  cbn zeta.
  replace (dl ++ nl ++ name ++ replicate z1 Byte.x00 ++ data ++ replicate z2 Byte.x00)
    with ((dl ++ nl) ++ name ++ (replicate z1 Byte.x00 ++ data ++ replicate z2 Byte.x00))
    by (by rewrite <- !app_assoc).
  rewrite (slice_middle (dl ++ nl) name _ 8 (8 + Z.of_nat (length name)))
    by (rewrite ?length_app; cbn; lia).
  rewrite Hutf.
  replace ((dl ++ nl) ++ name ++ replicate z1 Byte.x00 ++ data ++ replicate z2 Byte.x00)
    with ((dl ++ nl ++ name ++ replicate z1 Byte.x00) ++ data ++ replicate z2 Byte.x00)
    by (by rewrite <- !app_assoc).
  rewrite (slice_middle _ data _ 1024 (1024 + Z.of_nat (length data)));
    [done|rewrite !length_app, length_replicate; cbn; lia..].
Qed.

Lemma payload_cons rows file files :
  payload rows (file :: files) = chunk rows file ++ payload rows files.
Proof. done. Qed.

Lemma decode_files_payload rows files :
  1 ≤ rows → forallb (fits rows) files = true →
  ∀ (pre : bytes) (k : nat) f,
    Z.of_nat (length pre) = Z.of_nat k * rows * 1024 →
    decode_files (pre ++ payload rows files) rows
      (seqZ (Z.of_nat k) (Z.of_nat (length files))) f =
      (inr (foldl (λ f file, store file.1 file.2 f) f files),
       (λ file, Decoded file.1) <$> files).
Proof.
  intros Hrows. induction files as [|[name data] files IH]; intros Hfit pre k f Hpre.
  - done.
  - cbn [forallb] in Hfit. apply andb_prop in Hfit as [Hfit Hfits].
    cbn [length]. rewrite Nat2Z.inj_succ, seqZ_cons by lia.
    cbn [decode_files]. rewrite payload_cons.
    pose proof (length_chunk _ _ Hrows Hfit) as Hlen.
    rewrite (slice_middle pre (chunk rows (name, data)) _) by (rewrite ?Nat2Z.inj_add; lia).
    rewrite (decode_file_chunk _ _ _ Hrows Hfit).
    replace (Z.succ (Z.of_nat k)) with (Z.of_nat (S k)) by lia.
    replace (Z.pred (Z.succ (Z.of_nat (length files)))) with (Z.of_nat (length files)) by lia.
    rewrite app_assoc.
    rewrite (IH Hfits (pre ++ chunk rows (name, data)) (S k)).
    + done.
    + rewrite length_app. lia.
Qed.

Lemma length_payload rows files :
  1 ≤ rows → forallb (fits rows) files = true →
  Z.of_nat (length (payload rows files)) = Z.of_nat (length files) * (rows * 1024).
Proof.
  intros Hrows. induction files as [|file files IH]; intros Hfit; [done|].
  cbn [forallb] in Hfit. apply andb_prop in Hfit as [Hfit Hfits].
  rewrite payload_cons, length_app.
  rewrite Nat2Z.inj_add, (IH Hfits), (length_chunk _ _ Hrows Hfit). cbn [length]. lia.
Qed.




Lemma bytes_eqb_eq (a b : bytes) : bytes_eqb a b = true → a = b.
Proof.
  revert b. induction a as [|x a IH]; intros [|y b]; cbn; try done.
  intros [Hxy Hab]%andb_prop. apply Byte.byte_dec_bl in Hxy as ->. by rewrite (IH _ Hab).
Qed.

(** A name that ends with a suffix has the suffix's fifth byte from the
    end. *)
Lemma suffix_fifth name suffix b :
  endswith name suffix = true →
  rev (list_byte_of_string suffix) !! 4%nat = Some b →
  rev name !! 4%nat = Some b.
Proof.
  unfold endswith. cbn zeta. intros [Hlen%Nat.leb_le Heq%bytes_eqb_eq]%andb_prop Hb.
  rewrite <- (take_drop (length name - length (list_byte_of_string suffix)) name).
  rewrite Heq, rev_app_distr. by apply lookup_app_l_Some.
Qed.

Ltac by_fifth_byte :=
  repeat match goal with
  | H : endswith _ _ = true |- _ => eapply suffix_fifth in H; [|vm_compute; reflexivity]
  end; congruence.

(** The chain of tests stores the data under the one name tested for:
    the five suffixes differ in their fifth byte from the end, so at most
    one test holds. *)
Lemma store_fields name data f :
  fnINFO (store name data f) =
    (if endswith name "_Info.log" then Some data else fnINFO f) ∧
  fnECG (store name data f) =
    (if endswith name "_ECG.log" then Some data else fnECG f) ∧
  fnRESP (store name data f) =
    (if endswith name "_RESP.log" then Some data else fnRESP f) ∧
  fnPULS (store name data f) =
    (if endswith name "_PULS.log" then Some data else fnPULS f) ∧
  fnEXT (store name data f) =
    (if endswith name "_EXT.log" then Some data else fnEXT f).
Proof.
  unfold store.
  destruct (endswith name "_Info.log") eqn:E1, (endswith name "_ECG.log") eqn:E2,
    (endswith name "_RESP.log") eqn:E3, (endswith name "_PULS.log") eqn:E4,
    (endswith name "_EXT.log") eqn:E5; cbn; try done; exfalso; by_fifth_byte.
Qed.

Lemma store_fold files :
  ∀ f,
    foldl (λ f file, store file.1 file.2 f) f files =
    Logfiles
      (foldl (λ acc file, if endswith file.1 "_Info.log" then Some file.2 else acc)
             (fnINFO f) files)
      (foldl (λ acc file, if endswith file.1 "_ECG.log" then Some file.2 else acc)
             (fnECG f) files)
      (foldl (λ acc file, if endswith file.1 "_RESP.log" then Some file.2 else acc)
             (fnRESP f) files)
      (foldl (λ acc file, if endswith file.1 "_PULS.log" then Some file.2 else acc)
             (fnPULS f) files)
      (foldl (λ acc file, if endswith file.1 "_EXT.log" then Some file.2 else acc)
             (fnEXT f) files).
Proof.
  induction files as [|[name data] files IH]; intros f; cbn [foldl fst snd].
  - by destruct f.
  - rewrite IH. destruct (store_fields name data f) as (-> & -> & -> & -> & ->). done.
Qed.

End payload.




Section decoding.
Import Dicom.

Lemma slice_take_drop (b : bytes) i j :
  0 ≤ i ≤ j → slice b i j = take (Z.to_nat (j - i)) (drop (Z.to_nat i) b).
Proof.
  intros Hij. unfold slice. rewrite slice_forward by lia.
  destruct (decide (i < Z.of_nat (length b))) as [Hi|Hi].
  - replace (Z.to_nat (i `min` Z.of_nat (length b))) with (Z.to_nat i) by lia.
    destruct (decide (j ≤ Z.of_nat (length b))) as [Hj|Hj].
    + f_equal. lia.
    + rewrite !take_ge; [done|rewrite length_drop; lia..].
  - rewrite !drop_ge by lia. by rewrite !take_nil.
Qed.

Lemma byte_val_bound b : 0 ≤ byte_val b < 256.
Proof. unfold byte_val. pose proof (Byte.to_N_bounded b). lia. Qed.

Lemma unpack_bound (b : bytes) z : unpack_uint32 b = Some z → 0 ≤ z < 2 ^ 32.
Proof.
  destruct b as [|b0 [|b1 [|b2 [|b3 [|]]]]]; cbn; try done. intros [= <-].
  pose proof (byte_val_bound b0). pose proof (byte_val_bound b1).
  pose proof (byte_val_bound b2). pose proof (byte_val_bound b3). lia.
Qed.

(** A chunk of at least eight bytes: the two lengths are there, and the
    name and the data are what the chunk holds from bytes 8 and 1024 on,
    up to the lengths given. *)
Lemma decode_file_long (filedata : bytes) :
  (8 ≤ length filedata)%nat →
  ∃ datalen filenamelen,
    unpack_uint32 (slice filedata 0 4) = Some datalen ∧
    unpack_uint32 (slice filedata 4 8) = Some filenamelen ∧
    0 ≤ datalen < 2 ^ 32 ∧ 0 ≤ filenamelen < 2 ^ 32 ∧
    decode_file filedata =
      if utf8_valid (take (Z.to_nat filenamelen) (drop 8 filedata))
      then inr (take (Z.to_nat filenamelen) (drop 8 filedata),
                take (Z.to_nat datalen) (drop 1024 filedata))
      else inl UnicodeDecodeError.
Proof.
  intros Hlen.
  destruct (unpack_of_four (slice filedata 0 4)) as [datalen Hd].
  { rewrite length_slice by lia. lia. }
  destruct (unpack_of_four (slice filedata 4 8)) as [filenamelen Hn].
  { rewrite length_slice by lia. lia. }
  pose proof (unpack_bound _ _ Hd). pose proof (unpack_bound _ _ Hn).
  exists datalen, filenamelen. split_and!; [done|done|lia|lia|lia|lia|].
  unfold decode_file. rewrite Hd, Hn. cbn zeta.
  rewrite !slice_take_drop by lia.
  replace (8 + filenamelen - 8) with filenamelen by lia.
  replace (1024 + datalen - 1024) with datalen by lia.
  done.
Qed.

Lemma decode_files_outcome (physiodata : bytes) rows idxs :
  0 < rows →
  Forall (λ idx, 0 ≤ idx ∧ (idx + 1) * rows * 1024 ≤ Z.of_nat (length physiodata)) idxs →
  ∀ f,
    match decode_files physiodata rows idxs f with
    | (inl UnicodeDecodeError, _) => True
    | (inl _, _) => False
    | (inr _, log) => length log = length idxs
    end.
Proof.
  intros Hrows. induction idxs as [|idx idxs IH]; intros Hall f; [done|].
  inversion_clear Hall as [|?? [Hidx Hend] Hall'].
  cbn [decode_files].
  destruct (decode_file_long
    (slice physiodata (idx * rows * 1024) ((idx + 1) * rows * 1024)))
    as (datalen & filenamelen & _ & _ & _ & _ & ->).
  { rewrite length_slice by nia. nia. }
  destruct (utf8_valid _); [|done].
  specialize (IH Hall' (store
    (take (Z.to_nat filenamelen)
       (drop 8 (slice physiodata (idx * rows * 1024) ((idx + 1) * rows * 1024))))
    (take (Z.to_nat datalen)
       (drop 1024 (slice physiodata (idx * rows * 1024) ((idx + 1) * rows * 1024))))
    f)).
  destruct (decode_files _ _ _ _) as [[[e| |]|f'] log]; cbn; try done.
  by rewrite IH.
Qed.

Lemma size_test len rows :
  rows ≠ 0 →
  negb (len mod rows =? 0) || negb ((len / rows) mod 1024 =? 0) = false ↔
  (rows * 1024 | len).
Proof.
  intros Hrows. rewrite orb_false_iff, !negb_false_iff, !Z.eqb_eq. split.
  - intros [H1 H2]. exists (len / rows / 1024).
    apply Z.div_exact in H1; [|done]. apply Z.div_exact in H2; [|done]. lia.
  - intros [q ->]. replace (q * (rows * 1024)) with (q * 1024 * rows) by lia.
    rewrite Z.mod_mul, Z.div_mul by done. by rewrite Z.mod_mul.
Qed.

End decoding.




(** ** The properties at sample inputs *)

Ltac evaluate := vm_compute; first [reflexivity | discriminate | lia].

Lemma line_found (line : string) (lines : list string) :
  existsb (String.eqb line) lines = true → line ∈ lines.
Proof.
  intros (x & Hx & ->%String.eqb_eq)%existsb_exists. by apply list_elem_of_In.
Qed.




















